(** * Safety and decision core of the HOPE panic-support service

    A shallow embedding of the Python sources under [src/hope]: the
    stability gate, the Gemini activation gate, the clinical output
    contract, the decision engine, the risk scoring engine, the crisis
    detector, the escalation manager with its emergency resources, the
    safety validator, the safety pipeline, the Gemini supervisor with its
    fallback texts and the state of a panic session.

    Conventions of the embedding.
    - A Python [int] is a [Z]; a Python [float] is a binary64 [float] of
      the kernel ([PrimFloat]), so arithmetic rounds as CPython's does.
    - A Python [str] is the list of its Unicode code points ([list N]).
    - An [Enum] is an inductive type in a module of its own; an [IntEnum]
      comes with its [value] and is compared through it.
    - A dataclass is a record [t] in a module named after the class; its
      methods and properties are functions of that module.
    - A [dict] is a [gmap]; an object with mutable attributes is passed
      explicitly and returned when a method changes it.
    - The clock ([datetime.utcnow]) and fresh identifiers ([uuid4]) are
      inputs of the functions that read them.  Logging is not modelled: it
      has no influence on any returned value. *)

From Stdlib Require Import ZArith NArith List Bool Lia String Ascii Floats.
From stdpp Require Import base option list gmap strings.
Import ListNotations.

#[local] Set Warnings "-inexact-float".

(** ** Python strings *)

(** A string is the list of its code points. *)
Abbreviation str := (list N) (only parsing).

(** A literal whose characters are all ASCII. *)
Definition py (s : string) : str :=
  map N_of_ascii (list_ascii_of_string s).

(** [a in b] on strings: [a] occurs as a contiguous substring of [b]. *)
Fixpoint starts_with (p s : str) : bool :=
  match p, s with
  | [], _ => true
  | _ :: _, [] => false
  | a :: p', b :: s' => (a =? b)%N && starts_with p' s'
  end.

Fixpoint contains (needle hay : str) : bool :=
  starts_with needle hay ||
  match hay with
  | [] => false
  | _ :: hay' => contains needle hay'
  end.

(** [sep.join(parts)] *)
Fixpoint join (sep : str) (parts : list str) : str :=
  match parts with
  | [] => []
  | [p] => p
  | p :: rest => p ++ sep ++ join sep rest
  end.

(** ** UUIDs

    A [UUID] is its 128-bit integer; [str(uuid)] is the canonical
    8-4-4-4-12 lower-case hexadecimal form. *)
Abbreviation UUID := N (only parsing).

Definition hex_digit (d : N) : N :=
  if (d <? 10)%N then (48 + d)%N else (87 + d)%N.

Fixpoint hex_fixed (width : nat) (n : N) : str :=
  match width with
  | O => []
  | S w => hex_fixed w (n / 16)%N ++ [hex_digit (n mod 16)%N]
  end.

Definition uuid_str (u : UUID) : str :=
  let h := hex_fixed 32 u in
  take 8 h ++ py "-" ++ take 4 (drop 8 h) ++ py "-" ++ take 4 (drop 12 h)
    ++ py "-" ++ take 4 (drop 16 h) ++ py "-" ++ drop 20 h.

(** ** Time

    A [datetime] is its number of microseconds since the epoch, which is
    the resolution of the Python type.  [timedelta.total_seconds()] is
    the microsecond count divided by [10**6]; the sources only compare it
    with the integers 60 and 180, and a count below (at or above)
    [n * 10**6] divides to a float below (at or above) [n], so the
    comparisons are made on microseconds. *)
Abbreviation datetime := Z (only parsing).

Definition seconds (n : Z) : Z := (n * 1000000)%Z.

(** ** domain/enums/panic_severity.py *)

Module PanicSeverity.
Inductive t := NONE | MILD | MODERATE | SEVERE | CRITICAL.

Definition value (s : t) : Z :=
  match s with
  | NONE => 0 | MILD => 1 | MODERATE => 2 | SEVERE => 3 | CRITICAL => 4
  end.

Definition geb (a b : t) : bool := (value b <=? value a)%Z.
Definition leb (a b : t) : bool := (value a <=? value b)%Z.
Definition gtb (a b : t) : bool := (value b <? value a)%Z.

Definition name (s : t) : str :=
  match s with
  | NONE => py "NONE" | MILD => py "MILD" | MODERATE => py "MODERATE"
  | SEVERE => py "SEVERE" | CRITICAL => py "CRITICAL"
  end.
End PanicSeverity.

Module UrgencyLevel.
Inductive t := ROUTINE | ELEVATED | HIGH | EMERGENCY.

Definition from_severity (severity : PanicSeverity.t) : t :=
  match severity with
  | PanicSeverity.NONE => ROUTINE
  | PanicSeverity.MILD => ELEVATED
  | PanicSeverity.MODERATE => HIGH
  | PanicSeverity.SEVERE => EMERGENCY
  | PanicSeverity.CRITICAL => EMERGENCY
  end.
End UrgencyLevel.

(** ** services/safety/stability_gate.py *)

Module PanicStabilityState.
Inductive t := PANIC_CRITICAL | PANIC_ACTIVE | PANIC_STABILIZING | PANIC_RECOVERED.

Definition value (s : t) : Z :=
  match s with
  | PANIC_CRITICAL => 1 | PANIC_ACTIVE => 2
  | PANIC_STABILIZING => 3 | PANIC_RECOVERED => 4
  end.

Definition ltb (a b : t) : bool := (value a <? value b)%Z.
End PanicStabilityState.

(** [l[-3:]] *)
Definition last3 {A} (l : list A) : list A := drop (length l - 3) l.

Module StabilityContext.
Record t := mk {
  session_id : UUID;
  user_id : UUID;
  started_at : datetime;
  current_severity : PanicSeverity.t;
  current_intensity : float;
  severity_history : list PanicSeverity.t;
  intensity_history : list float;
  breathing_cycles_completed : Z;
  grounding_steps_completed : Z;
  has_crisis_signals : bool;
  has_self_harm_signals : bool
}.

(** [elapsed_seconds], in microseconds, read at clock value [now]. *)
Definition elapsed_microseconds (now : datetime) (c : t) : Z :=
  (now - started_at c)%Z.

(** [elapsed_seconds < n] and [elapsed_seconds >= n] for an integer [n]. *)
Definition elapsed_seconds_lt (now : datetime) (c : t) (n : Z) : bool :=
  (elapsed_microseconds now c <? seconds n)%Z.

Definition elapsed_seconds_ge (now : datetime) (c : t) (n : Z) : bool :=
  (seconds n <=? elapsed_microseconds now c)%Z.

Definition has_completed_exercise (c : t) : bool :=
  (3 <=? breathing_cycles_completed c)%Z || (3 <=? grounding_steps_completed c)%Z.

Definition severity_trend (c : t) : Z :=
  if (length (severity_history c) <? 2)%nat then 0%Z
  else
    let recent := last3 (severity_history c) in
    if (length recent <? 2)%nat then 0%Z
    else
      let values := map PanicSeverity.value recent in
      (List.last values 0 - List.hd 0 values)%Z.

Definition intensity_trend (c : t) : float :=
  if (length (intensity_history c) <? 2)%nat then 0%float
  else
    let recent := last3 (intensity_history c) in
    if (length recent <? 2)%nat then 0%float
    else (List.last recent 0 - List.hd 0 recent)%float.
End StabilityContext.

Module StabilityEvaluation.
(** The [reason] text, by its template and the values formatted into it. *)
Inductive reason_text :=
| CrisisSignalsDetected          (* "Crisis or self-harm signals detected" *)
| SeverityAt (s : PanicSeverity.t)  (* f"Severity at {name}" *)
| ElapsedBelowThreshold (elapsed : Z)
    (* f"Elapsed time {elapsed:.0f}s < 60s threshold" *)
| SevereWithoutImprovement       (* "Severe panic without improvement trend" *)
| SustainedImprovement           (* "Sustained improvement with exercise completion" *)
| ImprovementWithExercise        (* "Improvement with exercise completion" *)
| NoExerciseCompleted.           (* "No regulation exercise completed" *)

Record t := mk {
  state : PanicStabilityState.t;
  reason : reason_text;
  timestamp : datetime;
  elapsed_microseconds : Z;
  severity_trend : Z;
  intensity_trend : float;
  exercise_completed : bool
}.
End StabilityEvaluation.

Module StabilityGate.
Import StabilityContext.

Definition MIN_TIME_FOR_STABILIZING_SECONDS : Z := 60.
Definition MIN_TIME_FOR_RECOVERED_SECONDS : Z := 180.
Definition INTENSITY_IMPROVEMENT_THRESHOLD : float := 0.2%float.

(** The keyword arguments every [StabilityEvaluation(...)] of [evaluate]
    shares. *)
Definition result (now : datetime) (context : t)
    (state : PanicStabilityState.t) (reason : StabilityEvaluation.reason_text)
  : StabilityEvaluation.t :=
  StabilityEvaluation.mk state reason now
    (elapsed_microseconds now context)
    (severity_trend context)
    (intensity_trend context)
    (has_completed_exercise context).

Definition intensity_improved (context : t) : bool :=
  (2 <=? length (intensity_history context))%nat &&
  match intensity_history context with
  | first :: _ =>
      (INTENSITY_IMPROVEMENT_THRESHOLD <=? first - current_intensity context)%float
  | [] => false
  end.

Definition evaluate (now : datetime) (context : t) : StabilityEvaluation.t :=
  if has_crisis_signals context || has_self_harm_signals context then
    result now context PanicStabilityState.PANIC_CRITICAL
      StabilityEvaluation.CrisisSignalsDetected
  else if PanicSeverity.geb (current_severity context) PanicSeverity.CRITICAL then
    result now context PanicStabilityState.PANIC_CRITICAL
      (StabilityEvaluation.SeverityAt (current_severity context))
  else if elapsed_seconds_lt now context MIN_TIME_FOR_STABILIZING_SECONDS then
    result now context PanicStabilityState.PANIC_ACTIVE
      (StabilityEvaluation.ElapsedBelowThreshold (elapsed_microseconds now context))
  else if PanicSeverity.geb (current_severity context) PanicSeverity.SEVERE
          && (0 <=? severity_trend context)%Z then
    result now context PanicStabilityState.PANIC_ACTIVE
      StabilityEvaluation.SevereWithoutImprovement
  else if has_completed_exercise context then
    if elapsed_seconds_ge now context MIN_TIME_FOR_RECOVERED_SECONDS
       && PanicSeverity.leb (current_severity context) PanicSeverity.MILD
       && intensity_improved context
       && (severity_trend context <? 0)%Z then
      result now context PanicStabilityState.PANIC_RECOVERED
        StabilityEvaluation.SustainedImprovement
    else
      result now context PanicStabilityState.PANIC_STABILIZING
        StabilityEvaluation.ImprovementWithExercise
  else
    result now context PanicStabilityState.PANIC_ACTIVE
      StabilityEvaluation.NoExerciseCompleted.
End StabilityGate.

(** ** services/llm/gemini_activation_gate.py *)

Module ActivationDenialReason.
Inductive t :=
| STABILITY_TOO_LOW
| CRISIS_SIGNALS
| NO_EXERCISE_COMPLETED
| TIME_THRESHOLD_NOT_MET
| GEMINI_DISABLED
| ERROR_THRESHOLD_EXCEEDED.
End ActivationDenialReason.

Module ActivationDecision.
(** The [reason] text, by its template and the values formatted into it. *)
Inductive reason_text :=
| DisabledViaConfiguration       (* "Gemini disabled via configuration" *)
| ErrorThresholdExceeded (threshold : Z)
    (* f"Error threshold ({threshold}) exceeded for session" *)
| CrisisOrSelfHarm               (* "Crisis or self-harm signals detected" *)
| TimeThresholdNotMet (elapsed : Z) (minimum : Z)
    (* f"Time threshold not met ({elapsed:.0f}s < {minimum}s)" *)
| NoRegulationExercise           (* "No regulation exercise completed" *)
| StabilityBelowRequired (s required : PanicStabilityState.t)
    (* f"Stability state {s.name} < required {required.name}" *)
| AllConditionsMet (s : PanicStabilityState.t).
    (* f"All conditions met (state: {s.name})" *)

Record t := mk {
  allowed : bool;
  reason : reason_text;
  denial_reason : option ActivationDenialReason.t;
  stability_state : option PanicStabilityState.t;
  timestamp : datetime
}.
End ActivationDecision.

Module GeminiActivationGate.
Import StabilityContext.

Record t := mk {
  _session_error_counts : gmap str Z;
  _gemini_disabled : bool
}.

Definition MIN_STABILITY_STATE := PanicStabilityState.PANIC_STABILIZING.
Definition MIN_TIME_SECONDS : Z := 60.
Definition ERROR_THRESHOLD : Z := 3.

(** [__init__]: no errors recorded; the kill-switch is read from the
    settings ([gemini_disabled], [False] when the setting is absent). *)
Definition init (settings_gemini_disabled : option bool) : t :=
  mk ∅ (default false settings_gemini_disabled).

(** [self._session_error_counts.get(session_key, 0)] *)
Definition error_count (self : t) (session_key : str) : Z :=
  default 0%Z (_session_error_counts self !! session_key).

Definition is_allowed (self : t) (now : datetime) (context : StabilityContext.t)
    (stability_eval : option StabilityEvaluation.t) : ActivationDecision.t :=
  let session_key := uuid_str (session_id context) in
  if _gemini_disabled self then
    ActivationDecision.mk false ActivationDecision.DisabledViaConfiguration
      (Some ActivationDenialReason.GEMINI_DISABLED) None now
  else if (ERROR_THRESHOLD <=? error_count self session_key)%Z then
    ActivationDecision.mk false (ActivationDecision.ErrorThresholdExceeded ERROR_THRESHOLD)
      (Some ActivationDenialReason.ERROR_THRESHOLD_EXCEEDED) None now
  else if has_crisis_signals context || has_self_harm_signals context then
    ActivationDecision.mk false ActivationDecision.CrisisOrSelfHarm
      (Some ActivationDenialReason.CRISIS_SIGNALS) None now
  else if elapsed_seconds_lt now context MIN_TIME_SECONDS then
    ActivationDecision.mk false
      (ActivationDecision.TimeThresholdNotMet (elapsed_microseconds now context)
         MIN_TIME_SECONDS)
      (Some ActivationDenialReason.TIME_THRESHOLD_NOT_MET) None now
  else if negb (has_completed_exercise context) then
    ActivationDecision.mk false ActivationDecision.NoRegulationExercise
      (Some ActivationDenialReason.NO_EXERCISE_COMPLETED) None now
  else
    let stability_eval :=
      match stability_eval with
      | None => StabilityGate.evaluate now context
      | Some e => e
      end in
    let state := StabilityEvaluation.state stability_eval in
    if PanicStabilityState.ltb state MIN_STABILITY_STATE then
      ActivationDecision.mk false
        (ActivationDecision.StabilityBelowRequired state MIN_STABILITY_STATE)
        (Some ActivationDenialReason.STABILITY_TOO_LOW) (Some state) now
    else
      ActivationDecision.mk true (ActivationDecision.AllConditionsMet state)
        None (Some state) now.

Definition record_error (self : t) (session_id : str) : t :=
  mk (<[session_id := (error_count self session_id + 1)%Z]> (_session_error_counts self))
     (_gemini_disabled self).

Definition clear_session (self : t) (session_id : str) : t :=
  mk (delete session_id (_session_error_counts self)) (_gemini_disabled self).

Definition disable (self : t) : t := mk (_session_error_counts self) true.
Definition enable (self : t) : t := mk (_session_error_counts self) false.

(** The six preconditions of the gate, in the order the specification
    lists them, each as the condition that must hold. *)
Inductive check :=
| KillSwitchOff
| ErrorCountBelowThreshold
| NoCrisisSignals
| TimeThresholdMet
| ExerciseCompleted
| StabilityHighEnough.

Definition priority_order : list check :=
  [KillSwitchOff; ErrorCountBelowThreshold; NoCrisisSignals; TimeThresholdMet;
   ExerciseCompleted; StabilityHighEnough].

(** The stability evaluation the gate uses: the one supplied, or the
    stability gate's own. *)
Definition evaluation_used (now : datetime) (context : StabilityContext.t)
    (stability_eval : option StabilityEvaluation.t) : StabilityEvaluation.t :=
  default (StabilityGate.evaluate now context) stability_eval.

Definition holds (self : t) (now : datetime) (context : StabilityContext.t)
    (stability_eval : option StabilityEvaluation.t) (c : check) : bool :=
  match c with
  | KillSwitchOff => negb (_gemini_disabled self)
  | ErrorCountBelowThreshold =>
      (error_count self (uuid_str (session_id context)) <? 3)%Z
  | NoCrisisSignals =>
      negb (has_crisis_signals context) && negb (has_self_harm_signals context)
  | TimeThresholdMet => elapsed_seconds_ge now context 60
  | ExerciseCompleted => has_completed_exercise context
  | StabilityHighEnough =>
      (PanicStabilityState.value PanicStabilityState.PANIC_STABILIZING <=?
       PanicStabilityState.value
         (StabilityEvaluation.state (evaluation_used now context stability_eval)))%Z
  end.

Definition denial_of (c : check) : ActivationDenialReason.t :=
  match c with
  | KillSwitchOff => ActivationDenialReason.GEMINI_DISABLED
  | ErrorCountBelowThreshold => ActivationDenialReason.ERROR_THRESHOLD_EXCEEDED
  | NoCrisisSignals => ActivationDenialReason.CRISIS_SIGNALS
  | TimeThresholdMet => ActivationDenialReason.TIME_THRESHOLD_NOT_MET
  | ExerciseCompleted => ActivationDenialReason.NO_EXERCISE_COMPLETED
  | StabilityHighEnough => ActivationDenialReason.STABILITY_TOO_LOW
  end.

(** The first check of the priority order that fails, if any. *)
Definition first_failing (self : t) (now : datetime) (context : StabilityContext.t)
    (stability_eval : option StabilityEvaluation.t) : option check :=
  List.find (fun c => negb (holds self now context stability_eval c)) priority_order.
End GeminiActivationGate.

(** The context of the unit tests' [allowed_context] fixture, started
    [age] seconds before the clock value [now = 0]. *)
Definition fixture_context (age : Z) : StabilityContext.t :=
  StabilityContext.mk 7 8 (- seconds age)%Z
    PanicSeverity.MILD 0.3%float
    [PanicSeverity.MODERATE; PanicSeverity.MILD] [0.6%float; 0.3%float]
    4 0 false false.

(** ** Values of free-form dictionaries *)

Definition str_eqb (a b : str) : bool := bool_decide (a = b).

(** The values the sources store in their [dict] attributes.  Such a
    dictionary is the list of its items in insertion order. *)
Inductive value :=
| VStr (s : str)
| VInt (n : Z)
| VFloat (x : float)
| VBool (b : bool)
| VStrList (l : list str)
| VRound3 (x : float)     (* round(x, 3) *)
| VIsoTime (t : Z).       (* t.isoformat(), t in microseconds *)

Abbreviation pydict := (list (str * value)) (only parsing).

(** [sum] over floats: the additions are made left to right from the
    integer 0, each rounded to binary64, as CPython does up to version
    3.11 (later versions compensate the rounding errors, which can change
    the last bit of a sum of three or more terms). *)
Definition fsum (l : list float) : float :=
  fold_left (fun acc x => (acc + x)%float) l 0%float.

(** ** domain/models/clinical_output.py *)

Module EmotionCategory.
Inductive t :=
| FEAR | DREAD | LOSS_OF_CONTROL | DISSOCIATION
| HELPLESSNESS | HYPERVIGILANCE | SHAME | CONFUSION.

Definition value (c : t) : str :=
  match c with
  | FEAR => py "fear"
  | DREAD => py "dread"
  | LOSS_OF_CONTROL => py "loss_of_control"
  | DISSOCIATION => py "dissociation"
  | HELPLESSNESS => py "helplessness"
  | HYPERVIGILANCE => py "hypervigilance"
  | SHAME => py "shame"
  | CONFUSION => py "confusion"
  end.

#[global] Instance eq_dec : EqDecision t.
Proof. solve_decision. Defined.
End EmotionCategory.

Module DistressType.
Inductive t := PHYSIOLOGICAL | COGNITIVE | BEHAVIORAL | EMOTIONAL.
End DistressType.

Module EmotionScore.
Record t := mk {
  category : EmotionCategory.t;
  confidence : float;
  intensity : float;
  is_primary : bool
}.

Definition set_is_primary (e : t) : t :=
  mk (category e) (confidence e) (intensity e) true.
End EmotionScore.

Module EmotionProfile.
Record t := mk {
  emotions : list EmotionScore.t;
  dominant_emotion : option EmotionCategory.t;
  emotional_volatility : float;
  timestamp : datetime
}.

(** Index of [max(emotions, key=lambda e: e.confidence)]: the first
    element no later one exceeds; [best] is the running maximum. *)
Fixpoint argmax_from (best : nat) (best_key : float) (i : nat)
    (l : list EmotionScore.t) : nat :=
  match l with
  | [] => best
  | e :: rest =>
      if (best_key <? EmotionScore.confidence e)%float
      then argmax_from i (EmotionScore.confidence e) (S i) rest
      else argmax_from best best_key (S i) rest
  end.

Definition argmax (l : list EmotionScore.t) : nat :=
  match l with
  | [] => O
  | e :: rest => argmax_from O (EmotionScore.confidence e) 1 rest
  end.

(** [__post_init__]: without a dominant emotion, the emotion of highest
    confidence becomes dominant and is marked primary in place. *)
Definition post_init (self : t) : t :=
  match dominant_emotion self, emotions self with
  | None, first :: _ =>
      let i := argmax (emotions self) in
      let primary := List.nth i (emotions self) first in
      mk (<[i := EmotionScore.set_is_primary primary]> (emotions self))
         (Some (EmotionScore.category primary))
         (emotional_volatility self) (timestamp self)
  | _, _ => self
  end.

(** [EmotionProfile()] with the defaults of the dataclass. *)
Definition default_at (now : datetime) : t := mk [] None 0%float now.

Fixpoint get_emotion_score_in (l : list EmotionScore.t)
    (category : EmotionCategory.t) : float :=
  match l with
  | [] => 0%float
  | emotion :: rest =>
      if bool_decide (EmotionScore.category emotion = category)
      then EmotionScore.confidence emotion
      else get_emotion_score_in rest category
  end.

Definition get_emotion_score (self : t) (category : EmotionCategory.t) : float :=
  get_emotion_score_in (emotions self) category.
End EmotionProfile.

Module DistressIndicator.
Record t := mk {
  indicator_type : DistressType.t;
  description : str;
  severity : float;
  source_text : str;
  clinical_notes : str
}.
End DistressIndicator.

Module DistressIndicators.
Record t := mk {
  physiological : list DistressIndicator.t;
  cognitive : list DistressIndicator.t;
  behavioral : list DistressIndicator.t;
  emotional : list DistressIndicator.t;
  overall_distress_level : float
}.

Definition all_indicators (self : t) : list DistressIndicator.t :=
  physiological self ++ cognitive self ++ behavioral self ++ emotional self.

Definition indicator_count (self : t) : Z :=
  Z.of_nat (length (all_indicators self)).

Definition default : t := mk [] [] [] [] 0%float.
End DistressIndicators.

(** [sorted(values, reverse=True)] on floats, as a stable insertion
    sort; it agrees with CPython's sort on every list without NaN. *)
Fixpoint insert_desc (x : float) (l : list float) : list float :=
  match l with
  | [] => [x]
  | y :: rest => if (y <? x)%float then x :: l else y :: insert_desc x rest
  end.

Definition sorted_desc (l : list float) : list float :=
  fold_right insert_desc [] l.

Module SeverityClassification.
Record t := mk {
  predicted_severity : PanicSeverity.t;
  (** the dictionary's items, in insertion order *)
  probabilities : list (PanicSeverity.t * float);
  confidence : float;
  uncertainty_flag : bool;
  model_version : str
}.

Definition set_uncertainty_flag (self : t) : t :=
  mk (predicted_severity self) (probabilities self) (confidence self) true
     (model_version self).

Definition post_init (self : t) : t :=
  if (confidence self <? 0.6)%float then set_uncertainty_flag self
  else
    match probabilities self with
    | [] => self
    | _ :: _ =>
        match sorted_desc (map snd (probabilities self)) with
        | p0 :: p1 :: _ =>
            if (p0 - p1 <? 0.15)%float then set_uncertainty_flag self else self
        | _ => self
        end
    end.

(** [SeverityClassification(predicted_severity, confidence=c)] *)
Definition make (severity : PanicSeverity.t) (c : float) : t :=
  post_init (mk severity [] c false (py "1.0.0")).
End SeverityClassification.

Module TriggerAnalysis.
Record t := mk {
  immediate_triggers : list str;
  historical_triggers : list str;
  temporal_patterns : list str;
  context_factors : list str
}.

Definition default : t := mk [] [] [] [].
End TriggerAnalysis.

Module ClinicalAssessment.
Record t := mk {
  assessment_id : UUID;
  user_id : option UUID;
  session_id : option UUID;
  message_id : option UUID;
  timestamp : datetime;
  severity : SeverityClassification.t;
  emotion_profile : EmotionProfile.t;
  distress_indicators : DistressIndicators.t;
  trigger_analysis : TriggerAnalysis.t;
  urgency : UrgencyLevel.t;
  requires_crisis_protocol : bool;
  requires_human_review : bool;
  confidence_score : float;
  uncertainty_flags : list str;
  raw_text_hash : str;
  model_versions : list (str * str);
  embeddings : option (list float)
}.

(** [__post_init__], applied to the fields the constructor received. *)
Definition post_init (self : t) : t :=
  let predicted := SeverityClassification.predicted_severity (severity self) in
  let uncertain := SeverityClassification.uncertainty_flag (severity self) in
  mk (assessment_id self) (user_id self) (session_id self) (message_id self)
     (timestamp self) (severity self) (emotion_profile self)
     (distress_indicators self) (trigger_analysis self)
     (UrgencyLevel.from_severity predicted)
     (if PanicSeverity.geb predicted PanicSeverity.CRITICAL then true
      else requires_crisis_protocol self)
     (if uncertain then true else requires_human_review self)
     (confidence_score self)
     (if uncertain then
        if bool_decide (py "severity_uncertainty" ∈ uncertainty_flags self)
        then uncertainty_flags self
        else uncertainty_flags self ++ [py "severity_uncertainty"]
      else uncertainty_flags self)
     (raw_text_hash self) (model_versions self) (embeddings self).

(** The arguments of [ClinicalAssessment(user_id=u, severity=s)]: every
    other field at the default of the dataclass; [fresh] is the [uuid4()]
    drawn for [assessment_id]. *)
Definition with_defaults (fresh : UUID) (now : datetime) (user : option UUID)
    (s : SeverityClassification.t) : t :=
  mk fresh user None None now s (EmotionProfile.default_at now)
     DistressIndicators.default TriggerAnalysis.default UrgencyLevel.ROUTINE
     false false 0%float [] [] [] None.

(** The assessment that call constructs. *)
Definition make (fresh : UUID) (now : datetime) (user : option UUID)
    (s : SeverityClassification.t) : t :=
  post_init (with_defaults fresh now user s).

Definition is_panic_detected (self : t) : bool :=
  PanicSeverity.gtb (SeverityClassification.predicted_severity (severity self))
    PanicSeverity.NONE.
End ClinicalAssessment.

(** ** domain/models/panic_event.py (the enumerations) *)

Module PanicTrigger.
Inductive t :=
| UNKNOWN | SOCIAL | HEALTH_ANXIETY | WORK_STRESS | RELATIONSHIP | FINANCIAL
| TRAUMA_REMINDER | PHYSICAL_SYMPTOMS | CAFFEINE | SLEEP_DEPRIVATION
| CROWDED_SPACE | OTHER.

Definition value (x : t) : str :=
  match x with
  | UNKNOWN => py "unknown"
  | SOCIAL => py "social"
  | HEALTH_ANXIETY => py "health_anxiety"
  | WORK_STRESS => py "work_stress"
  | RELATIONSHIP => py "relationship"
  | FINANCIAL => py "financial"
  | TRAUMA_REMINDER => py "trauma_reminder"
  | PHYSICAL_SYMPTOMS => py "physical_symptoms"
  | CAFFEINE => py "caffeine"
  | SLEEP_DEPRIVATION => py "sleep_deprivation"
  | CROWDED_SPACE => py "crowded_space"
  | OTHER => py "other"
  end.

Definition members : list t :=
  [UNKNOWN; SOCIAL; HEALTH_ANXIETY; WORK_STRESS; RELATIONSHIP; FINANCIAL;
   TRAUMA_REMINDER; PHYSICAL_SYMPTOMS; CAFFEINE; SLEEP_DEPRIVATION;
   CROWDED_SPACE; OTHER].

(** [PanicTrigger(s)]: the member of that value; [None] stands for the
    [ValueError]. *)
Definition of_value (s : str) : option t :=
  List.find (fun x => str_eqb (value x) s) members.

#[global] Instance eq_dec : EqDecision t.
Proof. solve_decision. Defined.
End PanicTrigger.

Module PanicIntervention.
Inductive t :=
| GROUNDING_TECHNIQUE | BREATHING_EXERCISE | COGNITIVE_REFRAME
| PROGRESSIVE_RELAXATION | VALIDATION | DISTRACTION | CRISIS_RESOURCES
| PROFESSIONAL_REFERRAL.

Definition value (x : t) : str :=
  match x with
  | GROUNDING_TECHNIQUE => py "grounding_technique"
  | BREATHING_EXERCISE => py "breathing_exercise"
  | COGNITIVE_REFRAME => py "cognitive_reframe"
  | PROGRESSIVE_RELAXATION => py "progressive_relaxation"
  | VALIDATION => py "validation"
  | DISTRACTION => py "distraction"
  | CRISIS_RESOURCES => py "crisis_resources"
  | PROFESSIONAL_REFERRAL => py "professional_referral"
  end.

Definition members : list t :=
  [GROUNDING_TECHNIQUE; BREATHING_EXERCISE; COGNITIVE_REFRAME;
   PROGRESSIVE_RELAXATION; VALIDATION; DISTRACTION; CRISIS_RESOURCES;
   PROFESSIONAL_REFERRAL].

Definition of_value (s : str) : option t :=
  List.find (fun x => str_eqb (value x) s) members.

#[global] Instance eq_dec : EqDecision t.
Proof. solve_decision. Defined.
End PanicIntervention.

(** ** services/decision/decision_engine.py *)

Module ResponseStrategy.
Inductive t := CHECK_IN | ACKNOWLEDGE | GROUND | INTERVENE | CRISIS.
End ResponseStrategy.

Module ResponseTone.
Inductive t := WARM | CALM | DIRECT | URGENT.
End ResponseTone.

Module DecisionContext.
Record t := mk {
  user_id : UUID;
  clinical_assessment : ClinicalAssessment.t;
  session_id : option UUID;
  session_message_count : Z;
  previous_panic_count : Z;
  last_intervention_used : option str;
  user_preferences : pydict
}.
End DecisionContext.

Module Decision.
Record t := mk {
  strategy : ResponseStrategy.t;
  tone : ResponseTone.t;
  primary_intervention : option PanicIntervention.t;
  secondary_interventions : list PanicIntervention.t;
  response_constraints : list str;
  prompt_modifiers : pydict;
  escalate_to_crisis : bool;
  require_consent_check : bool
}.
End Decision.

(** [l.remove(x)]: without the first occurrence of [x]. *)
Fixpoint remove_first `{EqDecision A} (x : A) (l : list A) : list A :=
  match l with
  | [] => []
  | y :: rest => if bool_decide (y = x) then rest else y :: remove_first x rest
  end.

(** [if x in l: l.remove(x); l.insert(0, x)] *)
Definition move_to_front `{EqDecision A} (x : A) (l : list A) : list A :=
  if bool_decide (x ∈ l) then x :: remove_first x l else l.

Module DecisionEngine.
Import ClinicalAssessment.

Definition SEVERITY_INTERVENTIONS (s : PanicSeverity.t) : list PanicIntervention.t :=
  match s with
  | PanicSeverity.NONE => []
  | PanicSeverity.MILD =>
      [PanicIntervention.VALIDATION; PanicIntervention.BREATHING_EXERCISE]
  | PanicSeverity.MODERATE =>
      [PanicIntervention.BREATHING_EXERCISE; PanicIntervention.GROUNDING_TECHNIQUE;
       PanicIntervention.VALIDATION]
  | PanicSeverity.SEVERE =>
      [PanicIntervention.GROUNDING_TECHNIQUE; PanicIntervention.BREATHING_EXERCISE;
       PanicIntervention.PROGRESSIVE_RELAXATION;
       PanicIntervention.PROFESSIONAL_REFERRAL]
  | PanicSeverity.CRITICAL =>
      [PanicIntervention.CRISIS_RESOURCES; PanicIntervention.GROUNDING_TECHNIQUE;
       PanicIntervention.PROFESSIONAL_REFERRAL]
  end.

Definition SEVERITY_STRATEGY (s : PanicSeverity.t) : ResponseStrategy.t :=
  match s with
  | PanicSeverity.NONE => ResponseStrategy.CHECK_IN
  | PanicSeverity.MILD => ResponseStrategy.ACKNOWLEDGE
  | PanicSeverity.MODERATE => ResponseStrategy.GROUND
  | PanicSeverity.SEVERE => ResponseStrategy.INTERVENE
  | PanicSeverity.CRITICAL => ResponseStrategy.CRISIS
  end.

Definition SEVERITY_TONE (s : PanicSeverity.t) : ResponseTone.t :=
  match s with
  | PanicSeverity.NONE => ResponseTone.WARM
  | PanicSeverity.MILD => ResponseTone.WARM
  | PanicSeverity.MODERATE => ResponseTone.CALM
  | PanicSeverity.SEVERE => ResponseTone.CALM
  | PanicSeverity.CRITICAL => ResponseTone.DIRECT
  end.

Definition UNIVERSAL_CONSTRAINTS : list str :=
  [py "NEVER provide medical diagnosis";
   py "NEVER prescribe medication or dosages";
   py "NEVER claim to be a replacement for professional help";
   py "NEVER minimize user's experience";
   py "ALWAYS validate user's feelings";
   py "ALWAYS use trauma-informed language"].

Definition _adjust_tone_for_emotions (base_tone : ResponseTone.t)
    (assessment : ClinicalAssessment.t) : ResponseTone.t :=
  let profile := emotion_profile assessment in
  match EmotionProfile.dominant_emotion profile with
  | None => base_tone
  | Some EmotionCategory.DISSOCIATION => ResponseTone.DIRECT
  | Some EmotionCategory.LOSS_OF_CONTROL => ResponseTone.CALM
  | Some _ =>
      if (0.7 <? EmotionProfile.emotional_volatility profile)%float
      then ResponseTone.CALM
      else base_tone
  end.

Definition _build_clinical_modifiers (context : DecisionContext.t) : pydict :=
  let assessment := DecisionContext.clinical_assessment context in
  [(py "severity_level",
    VStr (PanicSeverity.name
            (SeverityClassification.predicted_severity (severity assessment))));
   (py "confidence_score", VFloat (confidence_score assessment));
   (py "session_message_count", VInt (DecisionContext.session_message_count context));
   (py "is_recurring", VBool (0 <? DecisionContext.previous_panic_count context)%Z)]
  ++ match EmotionProfile.dominant_emotion (emotion_profile assessment) with
     | Some e => [(py "dominant_emotion", VStr (EmotionCategory.value e))]
     | None => []
     end
  ++ match TriggerAnalysis.immediate_triggers (trigger_analysis assessment) with
     | [] => []
     | l => [(py "triggers", VStrList l)]
     end
  ++ [(py "distress_level",
       VFloat (DistressIndicators.overall_distress_level
                 (distress_indicators assessment)))]
  ++ match uncertainty_flags assessment with
     | [] => []
     | _ :: _ => [(py "has_uncertainty", VBool true)]
     end.

Definition _crisis_decision (context : DecisionContext.t) : Decision.t :=
  Decision.mk ResponseStrategy.CRISIS ResponseTone.DIRECT
    (Some PanicIntervention.CRISIS_RESOURCES)
    [PanicIntervention.GROUNDING_TECHNIQUE; PanicIntervention.PROFESSIONAL_REFERRAL]
    (UNIVERSAL_CONSTRAINTS ++
     [py "MUST provide crisis hotline number";
      py "MUST recommend immediate professional help";
      py "Response MUST be clear and actionable"])
    [(py "include_crisis_hotline", VBool true);
     (py "include_emergency_grounding", VBool true)]
    true false.

Definition _select_interventions (severity : PanicSeverity.t)
    (last_intervention : option str) (triggers : list PanicTrigger.t)
  : list PanicIntervention.t :=
  let base_interventions := SEVERITY_INTERVENTIONS severity in
  let base_interventions :=
    match last_intervention with
    | None | Some [] => base_interventions
    | Some text =>
        match PanicIntervention.of_value text with
        | Some last => move_to_front last base_interventions
        | None => base_interventions
        end
    end in
  if bool_decide (PanicTrigger.HEALTH_ANXIETY ∈ triggers)
  then move_to_front PanicIntervention.GROUNDING_TECHNIQUE base_interventions
  else base_interventions.

Definition _build_constraints (severity : PanicSeverity.t) : list str :=
  UNIVERSAL_CONSTRAINTS
  ++ (if PanicSeverity.geb severity PanicSeverity.MODERATE
      then [py "Keep response focused and concise";
            py "Avoid lengthy explanations during crisis"]
      else [])
  ++ (if PanicSeverity.geb severity PanicSeverity.SEVERE
      then [py "Include option for professional help";
            py "Use simple, clear language"]
      else []).

Definition decide (context : DecisionContext.t) : Decision.t :=
  let assessment := DecisionContext.clinical_assessment context in
  let severity := SeverityClassification.predicted_severity (severity assessment) in
  if requires_crisis_protocol assessment then _crisis_decision context
  else
    let strategy := SEVERITY_STRATEGY severity in
    let tone := _adjust_tone_for_emotions (SEVERITY_TONE severity) assessment in
    let triggers :=
      PanicTrigger.UNKNOWN ::
      omap PanicTrigger.of_value
        (TriggerAnalysis.immediate_triggers (trigger_analysis assessment)) in
    let interventions :=
      _select_interventions severity
        (DecisionContext.last_intervention_used context) triggers in
    Decision.mk strategy tone
      (List.hd_error interventions)
      (List.tl interventions)
      (_build_constraints severity)
      (_build_clinical_modifiers context)
      (PanicSeverity.geb severity PanicSeverity.SEVERE)
      (requires_human_review assessment).
End DecisionEngine.

(** ** domain/models/risk_models.py *)

Module RiskLevel.
Inductive t := LOW | ELEVATED | HIGH | CRITICAL.

Definition value (l : t) : Z :=
  match l with LOW => 1 | ELEVATED => 2 | HIGH => 3 | CRITICAL => 4 end.

Definition geb (a b : t) : bool := (value b <=? value a)%Z.
Definition ltb (a b : t) : bool := (value a <? value b)%Z.
Definition gtb (a b : t) : bool := (value b <? value a)%Z.

(** [max(a, b)]: the first argument unless the second is greater. *)
Definition max (a b : t) : t := if gtb b a then b else a.

Definition name (l : t) : str :=
  match l with
  | LOW => py "LOW" | ELEVATED => py "ELEVATED"
  | HIGH => py "HIGH" | CRITICAL => py "CRITICAL"
  end.
End RiskLevel.

Module EscalationAction.
Inductive t := CONTINUE_SUPPORT | ENCOURAGE_HELP | PRESENT_RESOURCES | LOG_FOR_REVIEW.
End EscalationAction.

Module RiskSignalType.
Inductive t := LINGUISTIC | EMOTIONAL | BEHAVIORAL | HISTORICAL | CONTEXTUAL.

#[global] Instance eq_dec : EqDecision t.
Proof. solve_decision. Defined.
End RiskSignalType.

Module RiskSignal.
Record t := mk {
  signal_type : RiskSignalType.t;
  signal_name : str;
  description : str;
  weight : float;
  confidence : float;
  source : str
}.

Definition weighted_contribution (self : t) : float :=
  (weight self * confidence self)%float.
End RiskSignal.

(** [len(set(l))]: the number of distinct elements. *)
Definition distinct_count `{EqDecision A} (l : list A) : nat :=
  length (remove_dups l).

(** [len(l)] as a float, for a division by it. *)
Definition float_of_nat (n : nat) : float :=
  PrimFloat.of_uint63 (Uint63.of_Z (Z.of_nat n)).

Module RiskAssessment.
Record t := mk {
  assessment_id : UUID;
  user_id : option UUID;
  session_id : option UUID;
  timestamp : datetime;
  risk_level : RiskLevel.t;
  risk_score : float;
  confidence : float;
  signals : list RiskSignal.t;
  signal_count : Z;
  has_uncertainty : bool;
  uncertainty_reasons : list str;
  recommended_actions : list EscalationAction.t;
  requires_human_review : bool;
  thresholds_applied : pydict
}.

Definition post_init (self : t) : t :=
  let low := (confidence self <? 0.6)%float in
  mk (assessment_id self) (user_id self) (session_id self) (timestamp self)
     (risk_level self) (risk_score self) (confidence self) (signals self)
     (Z.of_nat (length (signals self)))
     (if low then true else has_uncertainty self)
     (if low then
        if bool_decide (py "low_confidence" ∈ uncertainty_reasons self)
        then uncertainty_reasons self
        else uncertainty_reasons self ++ [py "low_confidence"]
      else uncertainty_reasons self)
     (recommended_actions self)
     (if RiskLevel.geb (risk_level self) RiskLevel.CRITICAL then true
      else requires_human_review self)
     (thresholds_applied self).

(** [RiskAssessment(user_id=u, risk_level=l, risk_score=s)], every other
    field at the default of the dataclass. *)
Definition make (fresh : UUID) (now : datetime) (user : option UUID)
    (level : RiskLevel.t) (score : float) : t :=
  post_init (mk fresh user None now level score 0%float [] 0 false [] [] false []).

(** In-place updates made by the safety pipeline. *)
Definition extend_signals (self : t) (more : list RiskSignal.t) : t :=
  mk (assessment_id self) (user_id self) (session_id self) (timestamp self)
     (risk_level self) (risk_score self) (confidence self) (signals self ++ more)
     (signal_count self) (has_uncertainty self) (uncertainty_reasons self)
     (recommended_actions self) (requires_human_review self)
     (thresholds_applied self).

Definition set_risk_level (self : t) (level : RiskLevel.t) : t :=
  mk (assessment_id self) (user_id self) (session_id self) (timestamp self)
     level (risk_score self) (confidence self) (signals self)
     (signal_count self) (has_uncertainty self) (uncertainty_reasons self)
     (recommended_actions self) (requires_human_review self)
     (thresholds_applied self).

Definition set_requires_human_review (self : t) : t :=
  mk (assessment_id self) (user_id self) (session_id self) (timestamp self)
     (risk_level self) (risk_score self) (confidence self) (signals self)
     (signal_count self) (has_uncertainty self) (uncertainty_reasons self)
     (recommended_actions self) true (thresholds_applied self).

Definition get_signal_types (self : t) : list RiskSignalType.t :=
  remove_dups (map RiskSignal.signal_type (signals self)).

Definition has_multiple_signal_types (self : t) : bool :=
  (2 <=? length (get_signal_types self))%nat.
End RiskAssessment.

Module EscalationEvent.
Record t := mk {
  event_id : UUID;
  user_id : option UUID;
  session_id : option UUID;
  timestamp : datetime;
  risk_assessment_id : option UUID;
  previous_risk_level : RiskLevel.t;
  new_risk_level : RiskLevel.t;
  actions_taken : list EscalationAction.t;
  resources_provided : list str;
  ai_response_given : str;
  response_was_modified : bool;
  human_review_status : str;
  human_reviewer_id : option str;
  review_timestamp : option datetime;
  review_notes : str
}.
End EscalationEvent.

(** ** services/safety/risk_engine.py *)

Module RiskThresholds.
Record t := mk {
  critical_threshold : float;
  high_threshold : float;
  elevated_threshold : float;
  min_signals_for_critical : Z;
  min_signals_for_high : Z;
  low_confidence_threshold : float;
  require_multi_signal_types : bool
}.

(** [RiskThresholds()] *)
Definition default : t :=
  mk 0.85%float 0.65%float 0.40%float 3 2 0.5%float true.
End RiskThresholds.

(** An entry of the session history: its [risk_score] item, when the
    entry has one. *)
Module HistoryEntry.
Record t := mk { risk_score : option float }.

(** [h.get("risk_score", 0)] *)
Definition get_risk_score (h : t) : float := default 0%float (risk_score h).
End HistoryEntry.

Module RiskScoringEngine.
Import ClinicalAssessment.

Record t := mk { thresholds : RiskThresholds.t }.

(** [RiskScoringEngine(thresholds)] *)
Definition init (thresholds : option RiskThresholds.t) : t :=
  mk (default RiskThresholds.default thresholds).

(** The items of the dictionary, in the order it lists them. *)
Definition SIGNAL_WEIGHTS : list (str * float) :=
  [(py "severity_critical", 0.35%float);
   (py "severity_severe", 0.25%float);
   (py "severity_moderate", 0.15%float);
   (py "emotion_dread", 0.20%float);
   (py "emotion_dissociation", 0.25%float);
   (py "emotion_helplessness", 0.15%float);
   (py "emotion_loss_of_control", 0.20%float);
   (py "high_distress", 0.20%float);
   (py "crisis_protocol_active", 0.40%float);
   (py "high_volatility", 0.15%float);
   (py "uncertainty", (-0.05)%float)].

(** [SIGNAL_WEIGHTS.get(name, fallback)]; [SIGNAL_WEIGHTS[name]] is only
    used with keys of the dictionary. *)
Definition weight_of (name : str) (fallback : float) : float :=
  match List.find (fun item => str_eqb (fst item) name) SIGNAL_WEIGHTS with
  | Some item => snd item
  | None => fallback
  end.

Definition _extract_severity_signals (clinical : ClinicalAssessment.t)
  : list RiskSignal.t :=
  let severity := SeverityClassification.predicted_severity (severity clinical) in
  let confidence := SeverityClassification.confidence (ClinicalAssessment.severity clinical) in
  if PanicSeverity.geb severity PanicSeverity.CRITICAL then
    [RiskSignal.mk RiskSignalType.BEHAVIORAL (py "severity_critical")
       (py "Critical panic severity detected")
       (weight_of (py "severity_critical") 0) confidence (py "panic_classifier")]
  else if PanicSeverity.geb severity PanicSeverity.SEVERE then
    [RiskSignal.mk RiskSignalType.BEHAVIORAL (py "severity_severe")
       (py "Severe panic severity detected")
       (weight_of (py "severity_severe") 0) confidence (py "panic_classifier")]
  else if PanicSeverity.geb severity PanicSeverity.MODERATE then
    [RiskSignal.mk RiskSignalType.BEHAVIORAL (py "severity_moderate")
       (py "Moderate panic severity detected")
       (weight_of (py "severity_moderate") 0) confidence (py "panic_classifier")]
  else [].

(** The [risk_emotions] dictionary of [_extract_emotion_signals]. *)
Definition risk_emotions (c : EmotionCategory.t) : option str :=
  match c with
  | EmotionCategory.DREAD => Some (py "emotion_dread")
  | EmotionCategory.DISSOCIATION => Some (py "emotion_dissociation")
  | EmotionCategory.HELPLESSNESS => Some (py "emotion_helplessness")
  | EmotionCategory.LOSS_OF_CONTROL => Some (py "emotion_loss_of_control")
  | _ => None
  end.

Definition _extract_emotion_signals (clinical : ClinicalAssessment.t)
  : list RiskSignal.t :=
  let profile := emotion_profile clinical in
  omap (fun emotion =>
          match risk_emotions (EmotionScore.category emotion) with
          | Some signal_name =>
              if (0.5 <? EmotionScore.confidence emotion)%float then
                Some (RiskSignal.mk RiskSignalType.EMOTIONAL signal_name
                        (py "High " ++ EmotionCategory.value (EmotionScore.category emotion)
                           ++ py " detected")
                        (weight_of signal_name 0.1)
                        (EmotionScore.confidence emotion) (py "emotion_detector"))
              else None
          | None => None
          end)
       (EmotionProfile.emotions profile)
  ++ (if (0.7 <? EmotionProfile.emotional_volatility profile)%float then
        [RiskSignal.mk RiskSignalType.EMOTIONAL (py "high_volatility")
           (py "High emotional volatility detected")
           (weight_of (py "high_volatility") 0)
           (EmotionProfile.emotional_volatility profile) (py "emotion_detector")]
      else []).

Definition _extract_distress_signals (clinical : ClinicalAssessment.t)
  : list RiskSignal.t :=
  let distress := distress_indicators clinical in
  if (0.7 <? DistressIndicators.overall_distress_level distress)%float then
    [RiskSignal.mk RiskSignalType.BEHAVIORAL (py "high_distress")
       (py "High overall distress level")
       (weight_of (py "high_distress") 0)
       (DistressIndicators.overall_distress_level distress)
       (py "distress_indicators")]
  else [].

Definition _extract_historical_signals (session_history : list HistoryEntry.t)
  : list RiskSignal.t :=
  if (3 <=? length session_history)%nat
     && forallb (fun h => (0.4 <? HistoryEntry.get_risk_score h)%float)
          (last3 session_history)
  then
    [RiskSignal.mk RiskSignalType.HISTORICAL (py "sustained_risk")
       (py "Sustained elevated risk over session")
       0.15%float 0.8%float (py "session_history")]
  else [].

(** [min(1.0, x)] *)
Definition min_one (x : float) : float :=
  if (x <? 1)%float then x else 1%float.

Definition _calculate_risk_score (signals : list RiskSignal.t)
    (clinical : ClinicalAssessment.t) : float * float :=
  match signals with
  | [] => (0%float, 1%float)
  | _ :: _ =>
      let total_weight := fsum (map RiskSignal.weighted_contribution signals) in
      let max_weight := fsum (map (fun item => PrimFloat.abs (snd item)) SIGNAL_WEIGHTS) in
      let risk_score := min_one (total_weight / max_weight)%float in
      let avg_confidence :=
        (fsum (map RiskSignal.confidence signals) / float_of_nat (length signals))%float in
      let combined_confidence :=
        ((avg_confidence + confidence_score clinical) / 2)%float in
      (risk_score, combined_confidence)
  end.

Definition _classify_risk_level (self : t) (risk_score : float)
    (signals : list RiskSignal.t) : RiskLevel.t :=
  let th := thresholds self in
  let signal_count := Z.of_nat (length signals) in
  let signal_types :=
    Z.of_nat (distinct_count (map RiskSignal.signal_type signals)) in
  if (RiskThresholds.critical_threshold th <=? risk_score)%float then
    if (RiskThresholds.min_signals_for_critical th <=? signal_count)%Z then
      if negb (RiskThresholds.require_multi_signal_types th) || (2 <=? signal_types)%Z
      then RiskLevel.CRITICAL
      else RiskLevel.HIGH
    else RiskLevel.HIGH
  else if (RiskThresholds.high_threshold th <=? risk_score)%float then
    if (RiskThresholds.min_signals_for_high th <=? signal_count)%Z
    then RiskLevel.HIGH
    else RiskLevel.ELEVATED
  else if (RiskThresholds.elevated_threshold th <=? risk_score)%float then
    RiskLevel.ELEVATED
  else RiskLevel.LOW.

Definition _determine_actions (risk_level : RiskLevel.t)
  : list EscalationAction.t :=
  match risk_level with
  | RiskLevel.LOW => [EscalationAction.CONTINUE_SUPPORT]
  | RiskLevel.ELEVATED =>
      [EscalationAction.CONTINUE_SUPPORT; EscalationAction.LOG_FOR_REVIEW]
  | RiskLevel.HIGH =>
      [EscalationAction.ENCOURAGE_HELP; EscalationAction.PRESENT_RESOURCES;
       EscalationAction.LOG_FOR_REVIEW]
  | RiskLevel.CRITICAL =>
      [EscalationAction.PRESENT_RESOURCES; EscalationAction.ENCOURAGE_HELP;
       EscalationAction.LOG_FOR_REVIEW]
  end.

(** [assess]; [fresh] and [now] are the identifier and the timestamp the
    new [RiskAssessment] draws. *)
Definition assess (self : t) (fresh : UUID) (now : datetime)
    (clinical : ClinicalAssessment.t)
    (session_history : option (list HistoryEntry.t)) : RiskAssessment.t :=
  let th := thresholds self in
  let signals :=
    _extract_severity_signals clinical
    ++ _extract_emotion_signals clinical
    ++ _extract_distress_signals clinical
    ++ (if requires_crisis_protocol clinical then
          [RiskSignal.mk RiskSignalType.BEHAVIORAL (py "crisis_protocol_active")
             (py "Clinical assessment flagged crisis protocol")
             (weight_of (py "crisis_protocol_active") 0) 1%float
             (py "clinical_assessment")]
        else [])
    ++ match session_history with
       | None | Some [] => []
       | Some history => _extract_historical_signals history
       end in
  let '(risk_score, confidence) := _calculate_risk_score signals clinical in
  let risk_level := _classify_risk_level self risk_score signals in
  let actions := _determine_actions risk_level in
  let low := (confidence <? RiskThresholds.low_confidence_threshold th)%float in
  let uncertain := SeverityClassification.uncertainty_flag (severity clinical) in
  let has_uncertainty := low || uncertain in
  let uncertainty_reasons :=
    (if low then [py "low_confidence"] else [])
    ++ (if uncertain then [py "severity_uncertain"] else []) in
  let risk_level :=
    if has_uncertainty && RiskLevel.ltb risk_level RiskLevel.HIGH
       && (0.3 <? risk_score)%float
    then RiskLevel.max risk_level RiskLevel.ELEVATED
    else risk_level in
  RiskAssessment.post_init
    (RiskAssessment.mk fresh (user_id clinical) (session_id clinical) now
       risk_level risk_score confidence signals 0
       has_uncertainty uncertainty_reasons actions false
       [(py "critical", VFloat (RiskThresholds.critical_threshold th));
        (py "high", VFloat (RiskThresholds.high_threshold th));
        (py "elevated", VFloat (RiskThresholds.elevated_threshold th))]).
End RiskScoringEngine.

(** ** Characters and regular expressions (Python's [str] and [re])

    The sources match their texts with compiled patterns.  The patterns
    are embedded as syntax trees and run by a backtracking matcher with
    the priorities of Python's [re]: alternatives left to right, greedy
    repetition, leftmost match.

    Whether a non-ASCII character is alphanumeric or a decimal digit is a
    fact of the Unicode database, which is not part of the repository: the
    two predicates are the fields of [Unicode], consulted for the code
    points above 127 only. *)

Class Unicode := {
  unicode_isalnum : N -> bool;
  unicode_isdecimal : N -> bool
}.

(** A database without letters or digits above 127, for texts that are
    ASCII throughout. *)
Definition ascii_only : Unicode :=
  {| unicode_isalnum := fun _ => false; unicode_isdecimal := fun _ => false |}.

Module Char.
Definition between (lo hi c : N) : bool := ((lo <=? c) && (c <=? hi))%N.

(** [str.isspace] of one character ([\s] as well): the ASCII white
    space and the Unicode characters of bidirectional class WS, B or S or
    of category Zs. *)
Definition isspace (c : N) : bool :=
  between 9 13 c || between 28 32 c || (c =? 133)%N || (c =? 160)%N
  || (c =? 5760)%N || between 8192 8202 c || (c =? 8232)%N || (c =? 8233)%N
  || (c =? 8239)%N || (c =? 8287)%N || (c =? 12288)%N.

Definition is_ascii_digit (c : N) : bool := between 48 57 c.
Definition is_ascii_upper (c : N) : bool := between 65 90 c.
Definition is_ascii_lower (c : N) : bool := between 97 122 c.

Section WithUnicode.
Context `{Unicode}.

(** [\d] *)
Definition isdecimal (c : N) : bool :=
  if (c <? 128)%N then is_ascii_digit c else unicode_isdecimal c.

(** [\w]: alphanumeric or the underscore. *)
Definition isword (c : N) : bool :=
  if (c <? 128)%N
  then is_ascii_digit c || is_ascii_upper c || is_ascii_lower c || (c =? 95)%N
  else unicode_isalnum c.
End WithUnicode.

(** A pattern character [p] against a text character [c] under
    [re.IGNORECASE], for an ASCII [p] (every pattern of the sources is
    ASCII): a letter matches the characters whose lower case it is, which
    besides its two ASCII forms are the Kelvin sign for [k], the dotted
    capital I for [i], and the characters the [re] module adds as
    equivalent, dotless i for [i] and long s for [s]. *)
Definition matches_ignoring_case (p c : N) : bool :=
  (c =? p)%N
  || (is_ascii_lower p && (c =? p - 32)%N)
  || (is_ascii_upper p && (c =? p + 32)%N)
  || (((p =? 107) || (p =? 75)) && (c =? 8490))%N
  || (((p =? 105) || (p =? 73)) && ((c =? 304) || (c =? 305)))%N
  || (((p =? 115) || (p =? 83)) && (c =? 383))%N.
End Char.

(** [s.strip()] *)
Fixpoint lstrip (s : str) : str :=
  match s with
  | c :: s' => if Char.isspace c then lstrip s' else s
  | [] => []
  end.

Definition rstrip (s : str) : str := rev (lstrip (rev s)).
Definition strip (s : str) : str := rstrip (lstrip s).

Module Re.
Inductive regex :=
| Eps                              (* the empty expression *)
| Lit (c : N)                      (* a literal character *)
| Space                            (* \s *)
| Digit                            (* \d *)
| Dot                              (* . *)
| Boundary                         (* \b *)
| Seq (r1 r2 : regex)              (* r1r2 *)
| Alt (r1 r2 : regex)              (* r1|r2 *)
| Opt (r : regex)                  (* r? *)
| Rep (least : nat) (r : regex).   (* r{least,}; r* and r+ are Rep 0, Rep 1 *)

(** A compiled pattern: the expression and whether [re.I] is set. *)
Record pattern := compile { expr : regex; ignorecase : bool }.

(** The literal text [s]. *)
Definition txt (s : string) : regex :=
  fold_right (fun c r => Seq (Lit c) r) Eps (py s).

(** [(r|r1|...|rn)] *)
Fixpoint any_of (r : regex) (rs : list regex) : regex :=
  match rs with
  | [] => r
  | r' :: rs' => Alt r (any_of r' rs')
  end.

(** The concatenation of the expressions. *)
Definition seq (rs : list regex) : regex := fold_right Seq Eps rs.

Section Matcher.
Context `{Unicode}.
Variable icase : bool.

Definition lit_matches (p c : N) : bool :=
  if icase then Char.matches_ignoring_case p c else (c =? p)%N.

Definition isword_at (c : option N) : bool :=
  match c with Some x => Char.isword x | None => false end.

(** [m r prev s k]: match [r] at the start of [s], the character before
    being [prev]; on success continue with [k] on the character before
    and the text after the match.  The result is what the first
    successful continuation returns, in the order Python tries the
    alternatives.  A repetition is tried on its longest run first; its
    body is required to consume a character, as every repeated expression
    of the sources does. *)
Fixpoint m {X} (r : regex) (prev : option N) (s : str)
    (k : option N -> str -> option X) {struct r} : option X :=
  match r with
  | Eps => k prev s
  | Lit p =>
      match s with
      | c :: s' => if lit_matches p c then k (Some c) s' else None
      | [] => None
      end
  | Space =>
      match s with
      | c :: s' => if Char.isspace c then k (Some c) s' else None
      | [] => None
      end
  | Digit =>
      match s with
      | c :: s' => if Char.isdecimal c then k (Some c) s' else None
      | [] => None
      end
  | Dot =>
      match s with
      | c :: s' => if (c =? 10)%N then None else k (Some c) s'
      | [] => None
      end
  | Boundary =>
      if xorb (isword_at prev) (isword_at (List.hd_error s)) then k prev s else None
  | Seq r1 r2 => m r1 prev s (fun prev' s' => m r2 prev' s' k)
  | Alt r1 r2 =>
      match m r1 prev s k with
      | Some x => Some x
      | None => m r2 prev s k
      end
  | Opt r1 =>
      match m r1 prev s k with
      | Some x => Some x
      | None => k prev s
      end
  | Rep least r1 =>
      (fix rep (fuel count : nat) (prev : option N) (s : str) : option X :=
         let stop := if (least <=? count)%nat then k prev s else None in
         match fuel with
         | O => stop
         | S fuel' =>
             match m r1 prev s
                     (fun prev' s' =>
                        if (length s' <? length s)%nat
                        then rep fuel' (S count) prev' s'
                        else None) with
             | Some x => Some x
             | None => stop
             end
         end) (length s) O prev s
  end.

(** The length of the match of [r] at the start of [s], if there is one. *)
Definition match_here (r : regex) (prev : option N) (s : str) : option nat :=
  m r prev s (fun _ rest => Some (length s - length rest)%nat).

(** [pattern.search(s)]: the text before the leftmost match, the match
    ([group(0)]) and the text after it. *)
Fixpoint search_from (r : regex) (prev : option N) (s : str)
  : option (str * str * str) :=
  match match_here r prev s with
  | Some n => Some ([], take n s, drop n s)
  | None =>
      match s with
      | [] => None
      | c :: s' =>
          match search_from r (Some c) s' with
          | Some (before, matched, after) => Some (c :: before, matched, after)
          | None => None
          end
      end
  end.

(** [pattern.sub(repl, s)] for a pattern that does not match the empty
    string (none of the sources' does): [skip] counts the characters still
    inside the match being replaced. *)
Fixpoint sub_from (r : regex) (repl : str) (skip : nat) (prev : option N)
    (s : str) : str :=
  match s with
  | [] => []
  | c :: s' =>
      match skip with
      | S n => sub_from r repl n (Some c) s'
      | O =>
          match match_here r prev s with
          | Some (S n) => repl ++ sub_from r repl n (Some c) s'
          | _ => c :: sub_from r repl O (Some c) s'
          end
      end
  end.
End Matcher.

Section Api.
Context `{Unicode}.

Definition search (p : pattern) (s : str) : option (str * str * str) :=
  search_from (ignorecase p) (expr p) None s.

(** [bool(pattern.search(s))] *)
Definition found (p : pattern) (s : str) : bool :=
  match search p s with Some _ => true | None => false end.

(** [match.group(0)] of [pattern.search(s)] *)
Definition group0 (p : pattern) (s : str) : option str :=
  match search p s with Some (_, matched, _) => Some matched | None => None end.

Definition sub (p : pattern) (repl : str) (s : str) : str :=
  sub_from (ignorecase p) (expr p) repl O None s.
End Api.
End Re.

(** ** services/safety/safety_validator.py *)

Module SafetyViolation.
Record t := mk {
  rule_id : str;
  rule_description : str;
  matched_content : str;
  severity : str
}.
End SafetyViolation.

Module SafetyResult.
Record t := mk {
  is_safe : bool;
  original_response : str;
  filtered_response : str;
  violations : list SafetyViolation.t;
  was_modified : bool;
  blocked : bool
}.

(** [__post_init__]: an empty [filtered_response] is replaced by the
    original response. *)
Definition post_init (self : t) : t :=
  match filtered_response self with
  | [] =>
      mk (is_safe self) (original_response self) (original_response self)
         (violations self) (was_modified self) (blocked self)
  | _ :: _ => self
  end.
End SafetyResult.

(** The characters the sources write outside ASCII. *)
Definition bullet : str := [8226%N].
Definition newline : str := [10%N].

(** [repr] of a list of strings without quotes or backslashes. *)
Definition repr_list (l : list str) : str :=
  py "[" ++ join (py ", ") (map (fun s => py "'" ++ s ++ py "'") l) ++ py "]".

Module SafetyValidator.
Import Re.

Record t := mk { _strict_mode : bool }.

(** The whitespace of the patterns: [\s+] and [\s*]. *)
Definition ws : regex := Rep 1 Space.
Definition ws0 : regex := Rep 0 Space.

(** Each rule: its identifier, its pattern and its description. *)
Definition HARD_CONSTRAINT_PATTERNS : list (str * pattern * str) :=
  [(py "MEDICAL_DIAGNOSIS",
    compile
      (seq [txt "you ";
            any_of (txt "have") [txt "are suffering from"; txt "are experiencing"];
            ws;
            Opt (Seq (txt "a") ws);
            any_of (txt "panic disorder")
              [txt "anxiety disorder"; txt "depression"; txt "ptsd"; txt "bipolar";
               txt "schizophrenia"; txt "ocd"; txt "mental illness"]])
      true,
    py "Response contains medical diagnosis");
   (py "MEDICATION_ADVICE",
    compile
      (seq [any_of (txt "take") [txt "try"; txt "consider"];
            ws;
            Opt (Seq (Rep 1 Digit) ws0);
            any_of (txt "mg") [txt "milligram"; txt "pill"; txt "tablet"; txt "dose"]])
      true,
    py "Response contains medication dosage advice");
   (py "MEDICATION_RECOMMENDATION",
    compile
      (any_of (txt "xanax")
         [txt "valium"; txt "ativan"; txt "klonopin"; txt "prozac"; txt "zoloft";
          txt "lexapro"; txt "benzodiazepine"; txt "ssri"; txt "antidepressant";
          txt "anti-anxiety"; txt "anxiolytic"])
      true,
    py "Response recommends specific medication");
   (py "REPLACE_THERAPY",
    compile
      (seq [any_of (txt "don't need") [txt "no need for"; txt "instead of"; txt "better than"];
            ws;
            any_of (txt "therapy")
              [txt "therapist"; txt "doctor"; txt "professional"; txt "psychiatrist"]])
      true,
    py "Response discourages professional help");
   (py "GUARANTEE_CURE",
    compile
      (seq [any_of (txt "will") [txt "can"; txt "going to"];
            ws;
            any_of (txt "cure") [txt "fix"; txt "heal"; txt "eliminate"];
            ws;
            any_of (txt "your") [txt "the"];
            ws;
            any_of (txt "anxiety") [txt "panic"; txt "depression"; txt "condition"]])
      true,
    py "Response promises cure");
   (py "DISMISSIVE",
    compile
      (seq [Opt (Seq (txt "just") ws);
            any_of (txt "calm down")
              [txt "relax"; txt "stop worrying"; txt "get over it";
               seq [txt "it's "; Opt (txt "all "); txt "in your head"];
               seq [txt "don't be "; Opt (Seq (txt "so") ws); txt "dramatic"]]])
      true,
    py "Response is dismissive of user's experience")].

Definition FILTER_PATTERNS : list (str * pattern * str) :=
  [(py "EXCESSIVE_CERTAINTY",
    compile
      (seq [Boundary;
            any_of (txt "definitely")
              [txt "certainly"; txt "absolutely"; txt "100%"; txt "guaranteed"];
            Boundary])
      true,
    py "Response contains excessive certainty");
   (py "COMPARATIVE_MINIMIZING",
    compile
      (any_of (txt "others have it worse") [txt "could be worse"; txt "at least"])
      true,
    py "Response minimizes by comparison")].

Definition CRISIS_REQUIRED_ELEMENTS : list (str * pattern) :=
  [(py "CRISIS_HOTLINE",
    compile
      (any_of (txt "988")
         [seq [txt "crisis"; ws0; any_of (txt "line") [txt "hotline"]];
          seq [txt "suicide"; ws0; any_of (txt "prevention") [txt "hotline"]]])
      true);
   (py "PROFESSIONAL_HELP",
    compile
      (any_of (txt "professional")
         [txt "therapist"; txt "counselor"; txt "doctor"; txt "emergency"])
      true)].

Definition FALLBACK_RESPONSE : str :=
  py "I hear you, and I want to make sure you get the best support possible. "
  ++ py "What you're experiencing is real and valid. "
  ++ py "If you're in crisis, please reach out to the 988 Suicide & Crisis Lifeline "
  ++ py "by calling or texting 988. "
  ++ py "A trained counselor can provide immediate support. "
  ++ py "I'm here to listen whenever you need.".

Definition block : str := py "block".
Definition warning : str := py "warning".

Section WithUnicode.
Context `{Unicode}.

Definition _check_crisis_requirements (response : str) : list str :=
  omap (fun item : str * pattern =>
          if found (snd item) response then None else Some (fst item))
       CRISIS_REQUIRED_ELEMENTS.

Definition _append_crisis_resources (response : str) : str :=
  response
  ++ newline ++ newline ++ py "---" ++ newline
  ++ py "**If you're in crisis or having thoughts of self-harm:**" ++ newline
  ++ bullet ++ py " **988 Suicide & Crisis Lifeline**: Call or text 988 (US)" ++ newline
  ++ bullet ++ py " **Crisis Text Line**: Text HOME to 741741" ++ newline
  ++ bullet ++ py " **Emergency**: Call 911 or go to your nearest emergency room" ++ newline
  ++ py "You don't have to face this alone. Professional support is available 24/7.".

Definition _clean_response (response : str) : str :=
  let response := sub (compile (Rep 3 (Lit 10)) false) (newline ++ newline) response in
  let response := sub (compile (Rep 2 (Lit 32)) false) (py " ") response in
  strip response.

(** The violations of the hard constraints, in the order of the rules. *)
Definition hard_violations (response : str) : list SafetyViolation.t :=
  omap (fun rule : str * pattern * str =>
          let '(rule_id, pattern, description) := rule in
          match group0 pattern response with
          | Some matched =>
              Some (SafetyViolation.mk rule_id description matched block)
          | None => None
          end)
       HARD_CONSTRAINT_PATTERNS.

Definition is_block (v : SafetyViolation.t) : bool :=
  str_eqb (SafetyViolation.severity v) block.

(** One turn of the loop over [FILTER_PATTERNS]. *)
Definition apply_filter (state : list SafetyViolation.t * str)
    (rule : str * pattern * str) : list SafetyViolation.t * str :=
  let '(violations, filtered) := state in
  let '(rule_id, pattern, description) := rule in
  match group0 pattern filtered with
  | Some matched =>
      (violations ++ [SafetyViolation.mk rule_id description matched warning],
       sub pattern [] filtered)
  | None => state
  end.

(** The violations and the text after the soft filters, the crisis
    elements and the clean-up: what [validate] holds in [violations] and
    [filtered] when it builds its last result. *)
Definition filter_and_clean (violations : list SafetyViolation.t)
    (response : str) (is_crisis_response : bool)
  : list SafetyViolation.t * str :=
  let '(violations, filtered) :=
    fold_left apply_filter FILTER_PATTERNS (violations, response) in
  let '(violations, filtered) :=
    if is_crisis_response then
      match _check_crisis_requirements filtered with
      | [] => (violations, filtered)
      | missing_required =>
          (violations ++
           [SafetyViolation.mk (py "MISSING_CRISIS_ELEMENTS")
              (py "Added missing crisis elements: " ++ repr_list missing_required)
              [] warning],
           _append_crisis_resources filtered)
      end
    else (violations, filtered) in
  (violations, _clean_response filtered).

Definition validate (self : t) (response : str) (is_crisis_response : bool)
  : SafetyResult.t :=
  match response, strip response with
  | [], _ | _, [] =>
      SafetyResult.post_init
        (SafetyResult.mk false response FALLBACK_RESPONSE
           [SafetyViolation.mk (py "EMPTY_RESPONSE") (py "Response is empty") [] block]
           false true)
  | _, _ =>
      let violations := hard_violations response in
      if existsb is_block violations then
        SafetyResult.post_init
          (SafetyResult.mk false response FALLBACK_RESPONSE violations false true)
      else
        let '(violations, filtered) :=
          filter_and_clean violations response is_crisis_response in
        let was_modified := negb (str_eqb filtered response) in
        let is_safe := (length (List.filter is_block violations) =? 0)%nat in
        SafetyResult.post_init
          (SafetyResult.mk is_safe response filtered violations was_modified false)
  end.
End WithUnicode.
End SafetyValidator.

(** ** services/safety/crisis_detector.py *)

Module CrisisSignal.
Record t := mk {
  signal_name : str;
  description : str;
  category : str;
  weight : float;
  confidence : float;
  pattern_matched : str
}.
End CrisisSignal.

Module CrisisDetectionResult.
Record t := mk {
  has_crisis_signals : bool;
  signals : list CrisisSignal.t;
  linguistic_signal_count : Z;
  emotional_signal_count : Z;
  behavioral_signal_count : Z;
  combined_crisis_score : float;
  meets_multi_signal_requirement : bool
}.

(** [sum(1 for s in signals if s.category == name)] *)
Definition count_category (name : str) (signals : list CrisisSignal.t) : Z :=
  Z.of_nat
    (length (List.filter (fun s => str_eqb (CrisisSignal.category s) name) signals)).

(** [set(s.category for s in signals)], as the list of distinct
    categories. *)
Definition categories (signals : list CrisisSignal.t) : list str :=
  remove_dups (map CrisisSignal.category signals).

Definition post_init (self : t) : t :=
  mk (has_crisis_signals self) (signals self)
     (count_category (py "linguistic") (signals self))
     (count_category (py "emotional") (signals self))
     (count_category (py "behavioral") (signals self))
     (combined_crisis_score self)
     (2 <=? length (categories (signals self)))%nat.

(** [CrisisDetectionResult(has_crisis_signals=h, signals=l,
    combined_crisis_score=x)] *)
Definition make (has_signals : bool) (signals : list CrisisSignal.t)
    (combined_score : float) : t :=
  post_init (mk has_signals signals 0 0 0 combined_score false).

Definition to_risk_signals (self : t) : list RiskSignal.t :=
  map (fun s =>
         RiskSignal.mk
           (if str_eqb (CrisisSignal.category s) (py "linguistic")
            then RiskSignalType.LINGUISTIC
            else if str_eqb (CrisisSignal.category s) (py "emotional")
            then RiskSignalType.EMOTIONAL
            else RiskSignalType.BEHAVIORAL)
           (CrisisSignal.signal_name s) (CrisisSignal.description s)
           (CrisisSignal.weight s) (CrisisSignal.confidence s)
           (py "crisis_detector"))
      (signals self).
End CrisisDetectionResult.

Module CrisisDetector.
Import Re ClinicalAssessment.

Definition ws : regex := Rep 1 Space.

Definition LINGUISTIC_PATTERNS : list (str * pattern * float) :=
  [(py "direct_self_harm_intent",
    compile
      (seq [any_of (txt "want") [txt "going"; txt "plan"; txt "thinking about";
                                 txt "considering"];
            ws; Opt (Seq (txt "to") ws);
            any_of (txt "hurt") [txt "harm"; txt "kill"; txt "end"];
            ws;
            any_of (txt "myself") [txt "my life"; txt "it all"]])
      true,
    0.40%float);
   (py "suicide_ideation",
    compile
      (any_of
         (seq [any_of (txt "want") [txt "wish"; txt "rather"]; ws;
               Opt (Seq (txt "to") ws); Opt (Seq (txt "be") ws); txt "dead"])
         [seq [any_of (txt "don't") [txt "do not"]; ws; txt "want"; ws; txt "to"; ws;
               any_of (txt "live") [txt "be here"; txt "exist"]];
          seq [txt "wish"; ws; txt "i"; ws; any_of (txt "was") [txt "were"]; ws;
               Opt (Seq (txt "never") ws); txt "born"]])
      true,
    0.35%float);
   (py "method_reference",
    compile
      (any_of (txt "pills")
         [txt "overdose"; txt "cut"; txt "cutting"; txt "jump"; txt "jumping";
          txt "hanging"; txt "gun"; txt "weapon"])
      true,
    0.25%float);
   (py "hopelessness_expression",
    compile
      (any_of
         (seq [txt "no"; ws;
               any_of (seq [txt "way"; ws; txt "out"])
                 [txt "hope"; txt "point"; txt "reason"]])
         [seq [txt "never"; ws; txt "get"; ws; txt "better"];
          seq [txt "can't"; ws;
               any_of (seq [txt "go"; ws; txt "on"])
                 [seq [txt "take"; ws; any_of (txt "it") [txt "this"]; ws;
                       txt "anymore"]]];
          seq [txt "give"; ws; txt "up"]])
      true,
    0.20%float);
   (py "farewell_language",
    compile
      (any_of
         (seq [txt "goodbye"; ws; txt "forever"])
         [seq [txt "won't"; ws; txt "be"; ws;
               any_of (txt "here") [txt "around"; seq [txt "a"; ws; txt "problem"]]];
          seq [txt "better"; ws; txt "off"; ws; txt "without"; ws; txt "me"];
          seq [txt "saying"; ws; txt "goodbye"]])
      true,
    0.30%float);
   (py "burden_expression",
    compile
      (any_of
         (seq [any_of (txt "burden") [txt "bother"; txt "problem"]; ws;
               any_of (txt "to") [txt "for"]; ws;
               any_of (txt "everyone") [txt "you"; txt "them"; txt "others"]])
         [seq [txt "everyone"; Rep 0 Dot; txt "better"; Rep 0 Dot; txt "without";
               ws; txt "me"]])
      true,
    0.20%float)].

Definition MIN_SIGNALS_FOR_CONCERN : Z := 2.
Definition MIN_CATEGORIES_FOR_ESCALATION : Z := 2.

Definition _analyze_emotions (clinical : ClinicalAssessment.t)
  : list CrisisSignal.t :=
  let profile := emotion_profile clinical in
  let dread_score := EmotionProfile.get_emotion_score profile EmotionCategory.DREAD in
  let dissoc_score :=
    EmotionProfile.get_emotion_score profile EmotionCategory.DISSOCIATION in
  let helpless_score :=
    EmotionProfile.get_emotion_score profile EmotionCategory.HELPLESSNESS in
  (if (0.7 <? dread_score)%float then
     [CrisisSignal.mk (py "severe_dread") (py "Severe dread/impending doom detected")
        (py "emotional") 0.25%float dread_score []]
   else [])
  ++ (if (0.6 <? dissoc_score)%float then
        [CrisisSignal.mk (py "dissociation") (py "Significant dissociation detected")
           (py "emotional") 0.20%float dissoc_score []]
      else [])
  ++ (if (0.7 <? helpless_score)%float then
        [CrisisSignal.mk (py "severe_helplessness") (py "Severe helplessness detected")
           (py "emotional") 0.25%float helpless_score []]
      else [])
  ++ (if PanicSeverity.geb
           (SeverityClassification.predicted_severity (severity clinical))
           PanicSeverity.SEVERE
      then
        match EmotionProfile.emotions profile with
        | [] =>
            [CrisisSignal.mk (py "emotional_shutdown")
               (py "Emotional shutdown at high severity")
               (py "emotional") 0.20%float 0.7%float []]
        | _ :: _ => []
        end
      else []).

Definition _analyze_behavioral (clinical : ClinicalAssessment.t)
  : list CrisisSignal.t :=
  if PanicSeverity.geb
       (SeverityClassification.predicted_severity (severity clinical))
       PanicSeverity.CRITICAL
  then
    [CrisisSignal.mk (py "critical_severity") (py "Critical panic severity level")
       (py "behavioral") 0.30%float
       (SeverityClassification.confidence (severity clinical)) []]
  else [].

Definition _analyze_distress (clinical : ClinicalAssessment.t)
  : list CrisisSignal.t :=
  let distress := distress_indicators clinical in
  (if (0.8 <? DistressIndicators.overall_distress_level distress)%float then
     [CrisisSignal.mk (py "extreme_distress") (py "Extreme overall distress level")
        (py "behavioral") 0.25%float
        (DistressIndicators.overall_distress_level distress) []]
   else [])
  ++ (if (4 <=? DistressIndicators.indicator_count distress)%Z then
        [CrisisSignal.mk (py "multi_domain_distress")
           (py "Distress across multiple domains")
           (py "behavioral") 0.15%float 0.8%float []]
      else []).

Definition _calculate_combined_score (signals : list CrisisSignal.t) : float :=
  match signals with
  | [] => 0%float
  | _ :: _ =>
      let total :=
        fsum (map (fun s => (CrisisSignal.weight s * CrisisSignal.confidence s)%float)
                signals) in
      RiskScoringEngine.min_one total
  end.

Definition detect (clinical : ClinicalAssessment.t) : CrisisDetectionResult.t :=
  let signals :=
    _analyze_emotions clinical
    ++ _analyze_behavioral clinical
    ++ _analyze_distress clinical
    ++ (if requires_crisis_protocol clinical then
          [CrisisSignal.mk (py "crisis_protocol_flag")
             (py "Clinical pipeline flagged crisis")
             (py "behavioral") 0.35%float 1%float []]
        else []) in
  let combined_score := _calculate_combined_score signals in
  let has_signals := (MIN_SIGNALS_FOR_CONCERN <=? Z.of_nat (length signals))%Z in
  CrisisDetectionResult.make has_signals signals combined_score.
End CrisisDetector.

Module LinguisticCrisisAnalyzer.
Definition PATTERNS := CrisisDetector.LINGUISTIC_PATTERNS.

Definition analyze_text `{Unicode} (text : str) : list CrisisSignal.t :=
  match text, strip text with
  | [], _ | _, [] => []
  | _, _ =>
      omap (fun item : str * Re.pattern * float =>
              let '(signal_name, pattern, weight) := item in
              match Re.group0 pattern text with
              | Some matched =>
                  Some (CrisisSignal.mk signal_name
                          (py "Matched pattern: " ++ signal_name)
                          (py "linguistic") weight 0.9%float matched)
              | None => None
              end)
           PATTERNS
  end.
End LinguisticCrisisAnalyzer.

(** ** services/safety/emergency_resources.py *)

Module EmergencyResource.
Record t := mk {
  name : str;
  resource_type : str;
  contact : str;
  description : str;
  available_24_7 : bool;
  languages : list str
}.

(** f"• **{self.name}**: {self.contact} {availability}" *)
Definition format_for_user (self : t) : str :=
  let availability := if available_24_7 self then py "(24/7)" else [] in
  bullet ++ py " **" ++ name self ++ py "**: " ++ contact self ++ py " " ++ availability.
End EmergencyResource.

Module JurisdictionResources.
Record t := mk {
  country_code : str;
  country_name : str;
  region_code : option str;
  region_name : option str;
  resources : list EmergencyResource.t;
  emergency_number : str;
  mental_health_resources : list EmergencyResource.t
}.

Definition get_crisis_hotlines (self : t) : list EmergencyResource.t :=
  List.filter (fun r => str_eqb (EmergencyResource.resource_type r) (py "hotline"))
    (resources self).
End JurisdictionResources.

Module EmergencyResourceResolver.
Record t := mk { _resources : gmap str JurisdictionResources.t }.

Definition en : list str := [py "en"].

Definition DEFAULT_RESOURCES : JurisdictionResources.t :=
  JurisdictionResources.mk (py "INTL") (py "International") None None
    [EmergencyResource.mk (py "International Association for Suicide Prevention")
       (py "website") (py "https://www.iasp.info/resources/Crisis_Centres/")
       (py "Directory of crisis centers worldwide") true en;
     EmergencyResource.mk (py "Befrienders Worldwide")
       (py "website") (py "https://www.befrienders.org/")
       (py "Emotional support centers globally") true en]
    [] [].

Definition US_RESOURCES : JurisdictionResources.t :=
  JurisdictionResources.mk (py "US") (py "United States") None None
    [EmergencyResource.mk (py "988 Suicide & Crisis Lifeline") (py "hotline")
       (py "988") (py "National suicide prevention lifeline") true
       [py "en"; py "es"];
     EmergencyResource.mk (py "Crisis Text Line") (py "text")
       (py "Text HOME to 741741") (py "Text-based crisis support") true en;
     EmergencyResource.mk (py "SAMHSA National Helpline") (py "hotline")
       (py "1-800-662-4357") (py "Substance abuse and mental health") true en]
    (py "911") [].

Definition GB_RESOURCES : JurisdictionResources.t :=
  JurisdictionResources.mk (py "GB") (py "United Kingdom") None None
    [EmergencyResource.mk (py "Samaritans") (py "hotline") (py "116 123")
       (py "Emotional support for anyone in distress") true en;
     EmergencyResource.mk (py "SHOUT") (py "text") (py "Text SHOUT to 85258")
       (py "Text-based mental health support") true en]
    (py "999") [].

Definition SA_RESOURCES : JurisdictionResources.t :=
  JurisdictionResources.mk (py "SA") (py "Saudi Arabia") None None
    [EmergencyResource.mk (py "Mental Health Hotline") (py "hotline")
       (py "920033360") (py "National mental health support line") true
       [py "ar"; py "en"]]
    (py "911") [].

Definition AE_RESOURCES : JurisdictionResources.t :=
  JurisdictionResources.mk (py "AE") (py "United Arab Emirates") None None
    [EmergencyResource.mk (py "Dubai Health Authority Mental Health") (py "hotline")
       (py "800342") (py "Mental health support line") false
       [py "ar"; py "en"]]
    (py "999") [].

Definition EG_RESOURCES : JurisdictionResources.t :=
  JurisdictionResources.mk (py "EG") (py "Egypt") None None
    [EmergencyResource.mk (py "Befrienders Cairo") (py "hotline")
       (py "+20 2 7621602") (py "Emotional support helpline") false
       [py "ar"; py "en"]]
    (py "123") [].

Definition BUILT_IN_RESOURCES : gmap str JurisdictionResources.t :=
  <[py "EG" := EG_RESOURCES]>
    (<[py "AE" := AE_RESOURCES]>
       (<[py "SA" := SA_RESOURCES]>
          (<[py "GB" := GB_RESOURCES]>
             (<[py "US" := US_RESOURCES]> ∅)))).

(** [__init__]: the built-in resources, then the jurisdictions of the
    configuration file, if one was given and could be read, in its order. *)
Definition init (config : list (str * JurisdictionResources.t)) : t :=
  mk (fold_left (fun m item => <[fst item := snd item]> m) config BUILT_IN_RESOURCES).

Definition get_resources (self : t) (country_code : str) (region_code : option str)
  : JurisdictionResources.t :=
  let key :=
    match region_code with
    | None | Some [] => country_code
    | Some region => country_code ++ py ":" ++ region
    end in
  match _resources self !! key with
  | Some found => found
  | None =>
      match _resources self !! country_code with
      | Some found => found
      | None => DEFAULT_RESOURCES
      end
  end.

Definition format_crisis_message (self : t) (country_code : str)
    (include_emergency : bool) : str :=
  let resources := get_resources self country_code None in
  let lines :=
    [py "---";
     py "**If you're in crisis or having thoughts of self-harm:**" ++ newline]
    ++ (if include_emergency
           && negb (str_eqb (JurisdictionResources.emergency_number resources) [])
        then [bullet ++ py " **Emergency**: "
                ++ JurisdictionResources.emergency_number resources]
        else [])
    ++ map EmergencyResource.format_for_user
         (take 3 (JurisdictionResources.resources resources))
    ++ [[];
        py "You don't have to face this alone. Professional support is available."] in
  join newline lines.

Definition get_primary_hotline (self : t) (country_code : str)
  : option EmergencyResource.t :=
  List.hd_error
    (JurisdictionResources.get_crisis_hotlines (get_resources self country_code None)).
End EmergencyResourceResolver.

(** ** services/safety/escalation_manager.py *)

Module EscalationDecision.
Record t := mk {
  should_escalate : bool;
  current_level : RiskLevel.t;
  actions : list EscalationAction.t;
  response_modifications : pydict;
  resources_to_include : option str;
  log_event : option EscalationEvent.t
}.
End EscalationDecision.

Module EscalationManager.
Record t := mk {
  _resources : EmergencyResourceResolver.t;
  _event_log : list EscalationEvent.t
}.

(** [EscalationManager(resource_resolver)] *)
Definition init (resource_resolver : option EmergencyResourceResolver.t) : t :=
  mk (default (EmergencyResourceResolver.init []) resource_resolver) [].

Definition _build_modifications (level : RiskLevel.t) (risk : RiskAssessment.t)
  : pydict :=
  let entries (tone : string) (resources help brief crisis : bool) : pydict :=
    [(py "tone", VStr (py tone));
     (py "include_resources", VBool resources);
     (py "encourage_professional_help", VBool help);
     (py "keep_brief", VBool brief);
     (py "crisis_mode", VBool crisis)] in
  match level with
  | RiskLevel.LOW => entries "warm" false false false false
  | RiskLevel.ELEVATED => entries "calm" false true false false
  | RiskLevel.HIGH => entries "calm" true true true false
  | RiskLevel.CRITICAL => entries "direct" true true true true
  end
  ++ (if RiskAssessment.has_uncertainty risk
      then [(py "acknowledge_uncertainty", VBool true)]
      else []).

(** [fresh] and [now] are the identifier and the timestamp the new event
    draws. *)
Definition _create_event (fresh : UUID) (now : datetime) (risk : RiskAssessment.t)
    (previous_level : RiskLevel.t) (actions : list EscalationAction.t)
    (resources_provided : bool) : EscalationEvent.t :=
  EscalationEvent.mk fresh (RiskAssessment.user_id risk)
    (RiskAssessment.session_id risk) now
    (Some (RiskAssessment.assessment_id risk))
    previous_level (RiskAssessment.risk_level risk) actions
    (if resources_provided then [py "crisis_message"] else [])
    [] false (py "pending") None None [].

(** [evaluate] returns its decision and the manager with the audit log
    it leaves. *)
Definition evaluate (self : t) (fresh : UUID) (now : datetime)
    (risk : RiskAssessment.t) (country_code : str)
    (previous_level : option RiskLevel.t) : EscalationDecision.t * t :=
  let current_level := RiskAssessment.risk_level risk in
  let should_escalate :=
    match previous_level with
    | Some previous => RiskLevel.gtb current_level previous
    | None => false
    end in
  let actions := RiskAssessment.recommended_actions risk in
  let modifications := _build_modifications current_level risk in
  let resources_text :=
    if RiskLevel.geb current_level RiskLevel.HIGH
    then Some (EmergencyResourceResolver.format_crisis_message (_resources self)
                 country_code (RiskLevel.geb current_level RiskLevel.CRITICAL))
    else None in
  if should_escalate || RiskLevel.geb current_level RiskLevel.HIGH then
    let event :=
      _create_event fresh now risk (default RiskLevel.LOW previous_level) actions
        (match resources_text with
         | Some (_ :: _) => true
         | _ => false
         end) in
    (EscalationDecision.mk should_escalate current_level actions modifications
       resources_text (Some event),
     mk (_resources self) (_event_log self ++ [event]))
  else
    (EscalationDecision.mk should_escalate current_level actions modifications
       resources_text None,
     self).

Definition get_response_prefix (level : RiskLevel.t) : str :=
  match level with
  | RiskLevel.LOW => []
  | RiskLevel.ELEVATED =>
      py "I hear you, and I want you to know that what you're feeling is valid. "
  | RiskLevel.HIGH =>
      py "I'm really glad you're sharing this with me. "
      ++ py "What you're going through sounds incredibly difficult, "
      ++ py "and I want to make sure you have the support you need. "
  | RiskLevel.CRITICAL =>
      py "I hear you, and I'm concerned about what you're sharing. "
      ++ py "Your safety matters deeply. "
  end.

Definition get_response_suffix (self : t) (level : RiskLevel.t) (country_code : str)
  : str :=
  if RiskLevel.ltb level RiskLevel.HIGH then []
  else
    newline ++ newline
    ++ py "Please consider reaching out to a mental health professional "
    ++ py "or someone you trust. You don't have to go through this alone."
    ++ (if RiskLevel.geb level RiskLevel.HIGH
        then newline
             ++ EmergencyResourceResolver.format_crisis_message (_resources self)
                  country_code true
        else []).

Definition modify_response (self : t) (response : str)
    (decision : EscalationDecision.t) (country_code : str) : str :=
  let level := EscalationDecision.current_level decision in
  let prefix := get_response_prefix level in
  let suffix :=
    match EscalationDecision.resources_to_include decision with
    | Some ((_ :: _) as resources) => newline ++ resources
    | _ => get_response_suffix self level country_code
    end in
  strip (prefix ++ response ++ suffix).

Definition get_events (self : t) (user_id session_id : option UUID)
  : list EscalationEvent.t :=
  let events := _event_log self in
  let events :=
    match user_id with
    | Some u =>
        List.filter (fun e => bool_decide (EscalationEvent.user_id e = Some u)) events
    | None => events
    end in
  match session_id with
  | Some s =>
      List.filter (fun e => bool_decide (EscalationEvent.session_id e = Some s)) events
  | None => events
  end.
End EscalationManager.

(** ** services/safety/safety_pipeline.py *)

Module SafetyEvaluation.
Record t := mk {
  evaluation_id : UUID;
  timestamp : datetime;
  risk_assessment : option RiskAssessment.t;
  crisis_detection : option CrisisDetectionResult.t;
  escalation_decision : option EscalationDecision.t;
  final_risk_level : RiskLevel.t;
  requires_crisis_response : bool;
  requires_human_review : bool;
  response_valid : bool;
  response_was_modified : bool;
  final_response : str;
  audit_trail : pydict
}.
End SafetyEvaluation.

Module SafetyPipeline.
Record t := mk {
  _risk_engine : RiskScoringEngine.t;
  _escalation_manager : EscalationManager.t;
  _response_validator : SafetyValidator.t;
  _session_risk_cache : gmap UUID RiskLevel.t
}.

(** [SafetyPipeline(risk_thresholds, strict_mode)] *)
Definition init (risk_thresholds : option RiskThresholds.t) (strict_mode : bool) : t :=
  mk (RiskScoringEngine.init risk_thresholds) (EscalationManager.init None)
     (SafetyValidator.mk strict_mode) ∅.

(** The identifiers [evaluate] draws with [uuid4()]: its own, the risk
    assessment's and the escalation event's. *)
Record fresh_ids := ids { for_evaluation : UUID; for_risk : UUID; for_event : UUID }.

(** [evaluate] returns the evaluation and the pipeline with the risk
    cache and the audit log it leaves.  The items of [audit] are listed in
    the order the source sets them. *)
Definition evaluate `{Unicode} (self : t) (fresh : fresh_ids) (now : datetime)
    (clinical : ClinicalAssessment.t) (proposed_response : str)
    (country_code : str) (raw_text : option str) : SafetyEvaluation.t * t :=
  let evaluation_id := for_evaluation fresh in
  (* Step 1: risk scoring *)
  let risk_assessment :=
    RiskScoringEngine.assess (_risk_engine self) (for_risk fresh) now clinical None in
  let audit : pydict :=
    [(py "evaluation_id", VStr (uuid_str evaluation_id));
     (py "timestamp", VIsoTime now);
     (py "clinical_assessment_id",
      VStr (uuid_str (ClinicalAssessment.assessment_id clinical)));
     (py "risk_score", VRound3 (RiskAssessment.risk_score risk_assessment));
     (py "risk_level",
      VStr (RiskLevel.name (RiskAssessment.risk_level risk_assessment)))] in
  (* Step 2: crisis detection *)
  let crisis_result := CrisisDetector.detect clinical in
  let multi_signal :=
    CrisisDetectionResult.meets_multi_signal_requirement crisis_result in
  let audit :=
    audit ++
    [(py "crisis_signals",
      VInt (Z.of_nat (length (CrisisDetectionResult.signals crisis_result))));
     (py "multi_signal_met", VBool multi_signal)] in
  (* Step 3: merge crisis signals into risk *)
  let upgraded :=
    CrisisDetectionResult.has_crisis_signals crisis_result && multi_signal
    && RiskLevel.ltb (RiskAssessment.risk_level risk_assessment) RiskLevel.HIGH in
  let risk_assessment :=
    if CrisisDetectionResult.has_crisis_signals crisis_result then
      let merged :=
        RiskAssessment.extend_signals risk_assessment
          (CrisisDetectionResult.to_risk_signals crisis_result) in
      if upgraded then RiskAssessment.set_risk_level merged RiskLevel.HIGH else merged
    else risk_assessment in
  let audit :=
    audit ++ (if upgraded then [(py "risk_upgraded_by_crisis", VBool true)] else []) in
  (* Step 4: previous risk level of the session *)
  let previous_level :=
    match ClinicalAssessment.session_id clinical with
    | Some session => _session_risk_cache self !! session
    | None => None
    end in
  let cache :=
    match ClinicalAssessment.session_id clinical with
    | Some session =>
        <[session := RiskAssessment.risk_level risk_assessment]>
          (_session_risk_cache self)
    | None => _session_risk_cache self
    end in
  (* Step 5: escalation decision *)
  let '(escalation, manager) :=
    EscalationManager.evaluate (_escalation_manager self) (for_event fresh) now
      risk_assessment country_code previous_level in
  let audit :=
    audit ++ [(py "escalated", VBool (EscalationDecision.should_escalate escalation))] in
  (* Step 6: linguistic crisis check *)
  let linguistic_signals :=
    match raw_text with
    | None | Some [] => []
    | Some text => LinguisticCrisisAnalyzer.analyze_text text
    end in
  let flagged :=
    negb (EscalationDecision.should_escalate escalation)
    && (2 <=? length linguistic_signals)%nat in
  let risk_assessment :=
    if flagged then RiskAssessment.set_requires_human_review risk_assessment
    else risk_assessment in
  let audit :=
    audit
    ++ match linguistic_signals with
       | [] => []
       | _ :: _ =>
           [(py "linguistic_crisis_signals",
             VInt (Z.of_nat (length linguistic_signals)))]
       end
    ++ (if flagged then [(py "flagged_for_review", VBool true)] else []) in
  (* Step 7: validate the proposed response *)
  let is_crisis_response :=
    RiskLevel.geb (RiskAssessment.risk_level risk_assessment) RiskLevel.HIGH in
  let validation :=
    SafetyValidator.validate (_response_validator self) proposed_response
      is_crisis_response in
  let audit :=
    audit ++
    [(py "response_blocked", VBool (SafetyResult.blocked validation));
     (py "response_modified", VBool (SafetyResult.was_modified validation))] in
  (* Step 8: build the final response (both branches of the source make
     the same call) *)
  let final_response :=
    EscalationManager.modify_response manager
      (SafetyResult.filtered_response validation) escalation country_code in
  (* Step 9: final states *)
  let requires_crisis :=
    RiskLevel.geb (RiskAssessment.risk_level risk_assessment) RiskLevel.CRITICAL
    || ClinicalAssessment.requires_crisis_protocol clinical
    || multi_signal in
  let requires_review :=
    RiskAssessment.requires_human_review risk_assessment
    || match EscalationDecision.log_event escalation with
       | Some _ => true
       | None => false
       end in
  (SafetyEvaluation.mk evaluation_id now (Some risk_assessment) (Some crisis_result)
     (Some escalation) (RiskAssessment.risk_level risk_assessment)
     requires_crisis requires_review
     (SafetyResult.is_safe validation)
     (SafetyResult.was_modified validation
      || EscalationDecision.should_escalate escalation)
     final_response audit,
   mk (_risk_engine self) manager (_response_validator self) cache).

Definition validate_response_only `{Unicode} (self : t) (response : str)
    (is_crisis_response : bool) : SafetyResult.t :=
  SafetyValidator.validate (_response_validator self) response is_crisis_response.

Definition get_escalation_events (self : t) (session_id : UUID)
  : list EscalationEvent.t :=
  EscalationManager.get_events (_escalation_manager self) None (Some session_id).
End SafetyPipeline.

(** ** services/prompt/recovery_prompt_templates.py *)

Module RecoveryPromptType.
Inductive t := POST_BREATHING | POST_GROUNDING | RECOVERY_ENCOURAGEMENT | SESSION_CLOSING.

Definition value (x : t) : str :=
  match x with
  | POST_BREATHING => py "post_breathing"
  | POST_GROUNDING => py "post_grounding"
  | RECOVERY_ENCOURAGEMENT => py "recovery_encouragement"
  | SESSION_CLOSING => py "session_closing"
  end.
End RecoveryPromptType.



(** ** services/llm/gemini_supervisor.py *)





Module GeminiResponse.
Record t := mk {
  text : str;
  source : str;
  latency_ms : float;
  prompt_type : RecoveryPromptType.t;
  error : option str
}.
End GeminiResponse.


Module GeminiSupervisor.
Record t := mk {
  _provider : bool;          (* whether [self._provider] is set *)
  _initialized : bool;
  _gemini_available : bool
}.

(** [__init__]: [gemini_key] is the API key of the settings, if any. *)
Definition init (gemini_key : option str) : t :=
  mk false false
     match gemini_key with
     | Some (_ :: _) => true
     | _ => false
     end.





End GeminiSupervisor.

(** ** api/routes/panic_session.py (the session's state and its pure
    methods)

    [session_id] is kept as the [UUID] whose [str] the attribute holds
    ([create_session] sets it to [str(uuid4())]). *)

Module PanicSession.
Record t := mk {
  session_id : UUID;
  user_id : UUID;
  started_at : datetime;
  message_count : Z;
  current_phase : str;
  last_intensity : option float;
  severity_history : list PanicSeverity.t;
  intensity_history : list float;
  breathing_cycles_completed : Z;
  grounding_steps_completed : Z;
  has_crisis_signals : bool;
  current_stability_state : PanicStabilityState.t
}.

(** [__init__] *)
Definition init (session_id user_id : UUID) (now : datetime) : t :=
  mk session_id user_id now 0 (py "active") None [] [] 0 0 false
     PanicStabilityState.PANIC_ACTIVE.

Definition _build_stability_context (self : t) : StabilityContext.t :=
  StabilityContext.mk (session_id self) (user_id self) (started_at self)
    (List.last (severity_history self) PanicSeverity.MODERATE)
    match last_intensity self with
    | Some x => if (x =? 0)%float then 0.5%float else x
    | None => 0.5%float
    end
    (severity_history self) (intensity_history self)
    (breathing_cycles_completed self) (grounding_steps_completed self)
    (has_crisis_signals self) false.


Definition _generate_base_response (clinical : ClinicalAssessment.t) : str :=
  let severity :=
    SeverityClassification.predicted_severity (ClinicalAssessment.severity clinical) in
  if PanicSeverity.geb severity PanicSeverity.CRITICAL then
    py "I'm here with you. What you're feeling is intense, "
    ++ py "and I want to make sure you have the support you need."
  else if PanicSeverity.geb severity PanicSeverity.SEVERE then
    py "I hear you. This sounds very difficult right now. "
    ++ py "Let's focus on one thing at a time."
  else if PanicSeverity.geb severity PanicSeverity.MODERATE then
    py "I understand. Let's work through this together. "
    ++ py "Try to take a slow breath with me."
  else py "I'm here with you. How can I help right now?".

Definition _determine_phase (clinical : ClinicalAssessment.t) : str :=
  if ClinicalAssessment.requires_crisis_protocol clinical then py "escalated"
  else
    let severity :=
      SeverityClassification.predicted_severity (ClinicalAssessment.severity clinical) in
    if PanicSeverity.geb severity PanicSeverity.SEVERE then py "active"
    else if PanicSeverity.geb severity PanicSeverity.MODERATE then py "breathing"
    else py "calming".
End PanicSession.

(** ** Definitions used by the proofs *)

(** The white-space characters, listed. *)
Definition space_chars : list N :=
  [9; 10; 11; 12; 13; 28; 29; 30; 31; 32; 133; 160; 5760;
   8192; 8193; 8194; 8195; 8196; 8197; 8198; 8199; 8200; 8201; 8202;
   8232; 8233; 8239; 8287; 12288]%N.

(** A pattern character that no white-space character matches, with or
    without [re.I]. *)
Definition never_space (p : N) : bool :=
  forallb (fun c => negb (Char.matches_ignoring_case p c)) space_chars.

(** A sufficient syntactic condition for an expression to match neither
    at the end of the text nor in front of a white-space character: every
    way into it starts, after word boundaries at most, with a literal that
    no white space matches. *)
Fixpoint starts_with_text (r : Re.regex) : bool :=
  match r with
  | Re.Lit p => never_space p
  | Re.Seq Re.Boundary r2 => starts_with_text r2
  | Re.Seq r1 _ => starts_with_text r1
  | Re.Alt r1 r2 => starts_with_text r1 && starts_with_text r2
  | _ => false
  end.

(** The text is at its end or goes on with white space. *)
Definition at_blank (s : list N) : Prop :=
  match s with
  | [] => True
  | c :: _ => Char.isspace c = true
  end.

(** Step 3 of [SafetyPipeline.evaluate] on its own: the risk assessment
    after the crisis signals are merged into it. *)
Definition merge_crisis_signals (risk : RiskAssessment.t)
    (crisis : CrisisDetectionResult.t) : RiskAssessment.t :=
  if CrisisDetectionResult.has_crisis_signals crisis then
    let merged :=
      RiskAssessment.extend_signals risk
        (CrisisDetectionResult.to_risk_signals crisis) in
    if CrisisDetectionResult.has_crisis_signals crisis
       && CrisisDetectionResult.meets_multi_signal_requirement crisis
       && RiskLevel.ltb (RiskAssessment.risk_level risk) RiskLevel.HIGH
    then RiskAssessment.set_risk_level merged RiskLevel.HIGH
    else merged
  else risk.

(** A text with a character that is not white space. *)
Definition nonblank (s : list N) : Prop :=
  exists c, c ∈ s /\ Char.isspace c = false.

(** A property of each signal of a list written out. *)
Ltac listed_signals :=
  repeat first [apply List.Forall_nil | apply List.Forall_cons];
  cbn; auto 6.

Section ValidatorOutcome.
Context `{Unicode}.
Import SafetyValidator.

(** The three ways out of [validate]. *)
Inductive outcome (self : SafetyValidator.t) (response : str) (crisis : bool)
  : SafetyResult.t -> Prop :=
| Empty :
    response = [] \/ strip response = [] ->
    outcome self response crisis
      (SafetyResult.post_init
         (SafetyResult.mk false response FALLBACK_RESPONSE
            [SafetyViolation.mk (py "EMPTY_RESPONSE") (py "Response is empty") [] block]
            false true))
| Blocked :
    response <> [] -> strip response <> [] ->
    existsb is_block (hard_violations response) = true ->
    outcome self response crisis
      (SafetyResult.post_init
         (SafetyResult.mk false response FALLBACK_RESPONSE (hard_violations response)
            false true))
| Passed :
    response <> [] -> strip response <> [] ->
    existsb is_block (hard_violations response) = false ->
    outcome self response crisis
      (let '(violations, filtered) :=
         filter_and_clean (hard_violations response) response crisis in
       SafetyResult.post_init
         (SafetyResult.mk
            (length (List.filter is_block violations) =? 0)%nat
            response filtered violations
            (negb (str_eqb filtered response)) false)).
End ValidatorOutcome.

(** * Properties *)

(** ** Stability gate *)

(** C5: whenever the context carries crisis signals or self-harm signals,
    [StabilityGate.evaluate] returns the state PANIC_CRITICAL, whatever the
    current severity, the elapsed time, the trends and the exercise
    counters are. *)
Theorem crisis_signals_force_panic_critical :
  forall (now : datetime) (context : StabilityContext.t),
    StabilityContext.has_crisis_signals context = true \/
    StabilityContext.has_self_harm_signals context = true ->
    StabilityEvaluation.state (StabilityGate.evaluate now context)
    = PanicStabilityState.PANIC_CRITICAL.
Proof.
  intros now context Hsignal.
  unfold StabilityGate.evaluate.
  assert (Hor : StabilityContext.has_crisis_signals context
                || StabilityContext.has_self_harm_signals context = true).
  { apply orb_true_iff. exact Hsignal. }
  rewrite Hor. reflexivity.
Qed.

(** A context with crisis signals at severity MILD, two minutes into the
    session with an exercise completed. *)
Lemma crisis_signals_force_panic_critical_witness :
  StabilityContext.current_severity
    (StabilityContext.mk 1 2 0 PanicSeverity.MILD 0.3%float [] [] 4 0 true false)
  = PanicSeverity.MILD /\
  StabilityEvaluation.state
    (StabilityGate.evaluate (seconds 120)
       (StabilityContext.mk 1 2 0 PanicSeverity.MILD 0.3%float [] [] 4 0 true false))
  = PanicStabilityState.PANIC_CRITICAL.
Proof.
  split; [reflexivity |].
  apply crisis_signals_force_panic_critical. left. reflexivity.
Defined.

(** ** Activation gate *)

Section ActivationGate.
Import GeminiActivationGate.

Variables (self : GeminiActivationGate.t) (now : datetime)
          (context : StabilityContext.t)
          (stability_eval : option StabilityEvaluation.t).

Let decision := is_allowed self now context stability_eval.

(** The gate's two outputs are those of the first failing check. *)
Lemma is_allowed_first_failing :
  ActivationDecision.denial_reason decision
  = denial_of <$> first_failing self now context stability_eval
  /\ ActivationDecision.allowed decision
     = bool_decide (first_failing self now context stability_eval = None).
Proof.
  subst decision.
  unfold is_allowed, first_failing, priority_order, holds, evaluation_used,
    ERROR_THRESHOLD, MIN_TIME_SECONDS, MIN_STABILITY_STATE,
    StabilityContext.elapsed_seconds_lt, StabilityContext.elapsed_seconds_ge,
    PanicStabilityState.ltb.
  cbn [List.find].
  destruct (_gemini_disabled self); cbn [negb]; [split; reflexivity |].
  set (n := error_count self (uuid_str (StabilityContext.session_id context))).
  destruct (Z.leb_spec 3 n), (Z.ltb_spec n 3); try lia; cbn [negb];
    [split; reflexivity |].
  destruct (StabilityContext.has_crisis_signals context); cbn [negb andb orb];
    [split; reflexivity |].
  destruct (StabilityContext.has_self_harm_signals context); cbn [negb andb orb];
    [split; reflexivity |].
  set (e := StabilityContext.elapsed_microseconds now context).
  destruct (Z.ltb_spec e (seconds 60)), (Z.leb_spec (seconds 60) e); try lia;
    cbn [negb]; [split; reflexivity |].
  destruct (StabilityContext.has_completed_exercise context); cbn [negb];
    [| split; reflexivity].
  destruct stability_eval as [ev |]; cbv beta iota zeta delta [from_option id];
    match goal with
    | |- context [StabilityEvaluation.state ?x] =>
        destruct (StabilityEvaluation.state x); split; reflexivity
    end.
Qed.

(** A passed gate means every check of the priority order holds. *)
Lemma is_allowed_all_hold :
  ActivationDecision.allowed decision = true ->
  forall c, holds self now context stability_eval c = true.
Proof.
  intros Hallowed.
  destruct is_allowed_first_failing as [_ Hfirst].
  fold decision in Hfirst. rewrite Hallowed in Hfirst.
  symmetry in Hfirst. apply bool_decide_eq_true in Hfirst.
  intros c.
  destruct (holds self now context stability_eval c) eqn:Hc; [reflexivity |].
  exfalso.
  assert (Hin : List.In c priority_order) by (destruct c; cbn; tauto).
  pose proof (List.find_none _ _ Hfirst c Hin) as Hnone.
  cbn beta in Hnone. rewrite Hc in Hnone. discriminate.
Qed.

End ActivationGate.

(** C1: [GeminiActivationGate.is_allowed] allows only when the six
    conditions hold (kill-switch off, fewer than 3 session errors, no crisis
    or self-harm signals, at least 60 s elapsed, a regulation exercise
    completed, stability state at least PANIC_STABILIZING); the checks are
    made in that priority order and the first one that fails gives the
    denial reason.  At 30 s elapsed, with the earlier checks passing, the
    answer is a denial for TIME_THRESHOLD_NOT_MET; at 120 s with at least 3
    breathing cycles and the other preconditions satisfied it is allowed. *)
Theorem activation_gate_checks_in_priority_order :
  forall (self : GeminiActivationGate.t) (now : datetime)
         (context : StabilityContext.t)
         (stability_eval : option StabilityEvaluation.t),
    let decision := GeminiActivationGate.is_allowed self now context stability_eval in
    let state_used :=
      StabilityEvaluation.state
        (GeminiActivationGate.evaluation_used now context stability_eval) in
    let errors :=
      GeminiActivationGate.error_count self
        (uuid_str (StabilityContext.session_id context)) in
    (ActivationDecision.allowed decision = true ->
       GeminiActivationGate._gemini_disabled self = false /\
       (errors < 3)%Z /\
       StabilityContext.has_crisis_signals context = false /\
       StabilityContext.has_self_harm_signals context = false /\
       (seconds 60 <= StabilityContext.elapsed_microseconds now context)%Z /\
       StabilityContext.has_completed_exercise context = true /\
       (PanicStabilityState.value PanicStabilityState.PANIC_STABILIZING
        <= PanicStabilityState.value state_used)%Z)
    /\ ActivationDecision.denial_reason decision
       = GeminiActivationGate.denial_of
           <$> GeminiActivationGate.first_failing self now context stability_eval
    /\ ActivationDecision.allowed decision
       = bool_decide
           (GeminiActivationGate.first_failing self now context stability_eval = None)
    /\ (GeminiActivationGate._gemini_disabled self = false ->
        (errors < 3)%Z ->
        StabilityContext.has_crisis_signals context = false ->
        StabilityContext.has_self_harm_signals context = false ->
        StabilityContext.elapsed_microseconds now context = seconds 30 ->
        ActivationDecision.allowed decision = false /\
        ActivationDecision.denial_reason decision
        = Some ActivationDenialReason.TIME_THRESHOLD_NOT_MET)
    /\ (GeminiActivationGate._gemini_disabled self = false ->
        (errors < 3)%Z ->
        StabilityContext.has_crisis_signals context = false ->
        StabilityContext.has_self_harm_signals context = false ->
        (PanicStabilityState.value PanicStabilityState.PANIC_STABILIZING
         <= PanicStabilityState.value state_used)%Z ->
        StabilityContext.elapsed_microseconds now context = seconds 120 ->
        (3 <= StabilityContext.breathing_cycles_completed context)%Z ->
        ActivationDecision.allowed decision = true /\
        ActivationDecision.denial_reason decision = None).
Proof.
  intros self now context stability_eval decision state_used errors.
  pose proof (is_allowed_first_failing self now context stability_eval)
    as [Hreason Hallowed].
  fold decision in Hreason, Hallowed.
  split; [| split; [exact Hreason | split; [exact Hallowed |]]].
  - intros Hyes.
    pose proof (is_allowed_all_hold self now context stability_eval Hyes) as Hall.
    pose proof (Hall GeminiActivationGate.KillSwitchOff) as H1.
    pose proof (Hall GeminiActivationGate.ErrorCountBelowThreshold) as H2.
    pose proof (Hall GeminiActivationGate.NoCrisisSignals) as H3.
    pose proof (Hall GeminiActivationGate.TimeThresholdMet) as H4.
    pose proof (Hall GeminiActivationGate.ExerciseCompleted) as H5.
    pose proof (Hall GeminiActivationGate.StabilityHighEnough) as H6.
    cbn [GeminiActivationGate.holds] in H1, H2, H3, H4, H5, H6.
    apply negb_true_iff in H1.
    apply Z.ltb_lt in H2.
    apply andb_true_iff in H3 as [H3a H3b].
    apply negb_true_iff in H3a. apply negb_true_iff in H3b.
    apply Z.leb_le in H4. apply Z.leb_le in H6.
    repeat split; assumption.
  - assert (Hfirst :
      forall c,
        GeminiActivationGate.first_failing self now context stability_eval = c ->
        ActivationDecision.allowed decision
        = bool_decide (c = None)
        /\ ActivationDecision.denial_reason decision
           = GeminiActivationGate.denial_of <$> c).
    { intros c <-. split; assumption. }
    unfold GeminiActivationGate.first_failing, GeminiActivationGate.priority_order in Hfirst.
    cbn [List.find GeminiActivationGate.holds] in Hfirst.
    split.
    + intros Hoff Herr Hcrisis Hharm Htime.
      fold errors in Hfirst.
      rewrite Hoff, Hcrisis, Hharm in Hfirst.
      replace (errors <? 3)%Z with true in Hfirst
        by (symmetry; apply Z.ltb_lt; exact Herr).
      unfold StabilityContext.elapsed_seconds_ge in Hfirst.
      rewrite Htime in Hfirst.
      exact (Hfirst _ eq_refl).
    + intros Hoff Herr Hcrisis Hharm Hstate Htime Hbreath.
      fold errors in Hfirst. fold state_used in Hfirst.
      rewrite Hoff, Hcrisis, Hharm in Hfirst.
      replace (errors <? 3)%Z with true in Hfirst
        by (symmetry; apply Z.ltb_lt; exact Herr).
      unfold StabilityContext.elapsed_seconds_ge,
        StabilityContext.has_completed_exercise in Hfirst.
      rewrite Htime in Hfirst.
      replace (3 <=? StabilityContext.breathing_cycles_completed context)%Z
        with true in Hfirst by (symmetry; apply Z.leb_le; exact Hbreath).
      replace (PanicStabilityState.value PanicStabilityState.PANIC_STABILIZING
               <=? PanicStabilityState.value state_used)%Z
        with true in Hfirst by (symmetry; apply Z.leb_le; exact Hstate).
      exact (Hfirst _ eq_refl).
Qed.

(** The unit tests' fixture on a fresh gate: denied 30 s into the session,
    allowed 120 s into it. *)
Lemma activation_gate_checks_in_priority_order_witness :
  (let d := GeminiActivationGate.is_allowed (GeminiActivationGate.init None) 0
              (fixture_context 30) None in
   ActivationDecision.allowed d = false /\
   ActivationDecision.denial_reason d
   = Some ActivationDenialReason.TIME_THRESHOLD_NOT_MET)
  /\
  (let d := GeminiActivationGate.is_allowed (GeminiActivationGate.init None) 0
              (fixture_context 120) None in
   ActivationDecision.allowed d = true /\
   ActivationDecision.denial_reason d = None).
Proof.
  split.
  - apply (activation_gate_checks_in_priority_order
             (GeminiActivationGate.init None) 0 (fixture_context 30) None);
      vm_compute; reflexivity.
  - apply (activation_gate_checks_in_priority_order
             (GeminiActivationGate.init None) 0 (fixture_context 120) None);
      vm_compute; first [reflexivity | discriminate].
Defined.

(** ** Clinical assessment and decision engine *)

Lemma post_init_critical_requires_crisis_protocol :
  forall fields : ClinicalAssessment.t,
    SeverityClassification.predicted_severity (ClinicalAssessment.severity fields)
    = PanicSeverity.CRITICAL ->
    ClinicalAssessment.requires_crisis_protocol (ClinicalAssessment.post_init fields)
    = true.
Proof.
  intros fields Hcritical.
  unfold ClinicalAssessment.post_init.
  cbn [ClinicalAssessment.requires_crisis_protocol].
  rewrite Hcritical. reflexivity.
Qed.

Lemma crisis_protocol_short_circuits :
  forall context : DecisionContext.t,
    ClinicalAssessment.requires_crisis_protocol
      (DecisionContext.clinical_assessment context) = true ->
    DecisionEngine.decide context = DecisionEngine._crisis_decision context.
Proof.
  intros context Hflag. unfold DecisionEngine.decide.
  rewrite Hflag. reflexivity.
Qed.

(** C2: an assessment constructed with predicted severity CRITICAL has
    [requires_crisis_protocol] set, and [DecisionEngine.decide] on any
    context wrapping it returns strategy CRISIS, tone DIRECT, primary
    intervention CRISIS_RESOURCES and, among the constraints, that a crisis
    hotline number must be provided. *)
Theorem critical_severity_yields_crisis_decision :
  forall (fields : ClinicalAssessment.t) (context : DecisionContext.t),
    SeverityClassification.predicted_severity (ClinicalAssessment.severity fields)
    = PanicSeverity.CRITICAL ->
    DecisionContext.clinical_assessment context = ClinicalAssessment.post_init fields ->
    ClinicalAssessment.requires_crisis_protocol (ClinicalAssessment.post_init fields)
    = true
    /\ Decision.strategy (DecisionEngine.decide context) = ResponseStrategy.CRISIS
    /\ Decision.tone (DecisionEngine.decide context) = ResponseTone.DIRECT
    /\ Decision.primary_intervention (DecisionEngine.decide context)
       = Some PanicIntervention.CRISIS_RESOURCES
    /\ py "MUST provide crisis hotline number"
       ∈ Decision.response_constraints (DecisionEngine.decide context).
Proof.
  intros fields context Hcritical Hwraps.
  pose proof (post_init_critical_requires_crisis_protocol fields Hcritical) as Hflag.
  split; [exact Hflag |].
  rewrite crisis_protocol_short_circuits by (rewrite Hwraps; exact Hflag).
  unfold DecisionEngine._crisis_decision.
  cbn [Decision.strategy Decision.tone Decision.primary_intervention
       Decision.response_constraints].
  repeat split.
  apply elem_of_app. right. apply list_elem_of_here.
Qed.

(** The assessment of the unit tests (CRITICAL at confidence 0.9) in a
    first-message context. *)
Lemma critical_severity_yields_crisis_decision_witness :
  let fields :=
    ClinicalAssessment.with_defaults 1 0 (Some 2%N)
      (SeverityClassification.make PanicSeverity.CRITICAL 0.9%float) in
  let context :=
    DecisionContext.mk 2 (ClinicalAssessment.post_init fields) None 1 0 None [] in
  Decision.strategy (DecisionEngine.decide context) = ResponseStrategy.CRISIS
  /\ Decision.tone (DecisionEngine.decide context) = ResponseTone.DIRECT.
Proof.
  intros fields context.
  pose proof (critical_severity_yields_crisis_decision fields context
                eq_refl eq_refl) as (_ & Hstrategy & Htone & _).
  split; assumption.
Defined.

(** ** Risk scoring engine *)

(** C3: with the default thresholds, a risk score at or above the CRITICAL
    threshold 0.85 is classified CRITICAL exactly when there are at least 3
    signals spanning at least 2 distinct signal types, and HIGH otherwise. *)
Theorem critical_score_needs_three_signals_of_two_types :
  forall (risk_score : float) (signals : list RiskSignal.t),
    let level :=
      RiskScoringEngine._classify_risk_level (RiskScoringEngine.init None)
        risk_score signals in
    let signal_types := distinct_count (map RiskSignal.signal_type signals) in
    (0.85 <=? risk_score)%float = true ->
    (level = RiskLevel.CRITICAL <-> (3 <= length signals /\ 2 <= signal_types)%nat)
    /\ (~ (3 <= length signals /\ 2 <= signal_types)%nat -> level = RiskLevel.HIGH).
Proof.
  intros risk_score signals level signal_types Hscore.
  subst level signal_types.
  unfold RiskScoringEngine._classify_risk_level.
  cbn [RiskScoringEngine.init RiskScoringEngine.thresholds default from_option id
       RiskThresholds.default RiskThresholds.critical_threshold
       RiskThresholds.min_signals_for_critical
       RiskThresholds.require_multi_signal_types negb orb].
  rewrite Hscore.
  set (n := length signals).
  set (k := distinct_count (map RiskSignal.signal_type signals)).
  destruct (Z.leb_spec 3 (Z.of_nat n)) as [Hn | Hn].
  - destruct (Z.leb_spec 2 (Z.of_nat k)) as [Hk | Hk].
    + split; [split; [lia | reflexivity] | intros Hnot; exfalso; apply Hnot; lia].
    + split; [split; [discriminate | lia] | reflexivity].
  - split; [split; [discriminate | lia] | reflexivity].
Qed.

(** Score 0.9 with three behavioral signals: one signal type only, so HIGH. *)
Lemma critical_score_needs_three_signals_of_two_types_witness :
  let s := RiskSignal.mk RiskSignalType.BEHAVIORAL (py "high_distress")
             (py "High overall distress level") 0.2%float 0.9%float
             (py "distress_indicators") in
  RiskScoringEngine._classify_risk_level (RiskScoringEngine.init None)
    0.9%float [s; s; s] = RiskLevel.HIGH.
Proof.
  intros s.
  apply (critical_score_needs_three_signals_of_two_types 0.9%float [s; s; s]).
  - reflexivity.
  - vm_compute. lia.
Defined.

(** C7, as the sources have it: an assessment constructed with severity
    CRITICAL at confidence 0.9 and nothing else has its crisis-protocol flag
    set by [__post_init__], so [RiskScoringEngine.assess] produces exactly two
    signals, [severity_critical] and [crisis_protocol_active], both of the
    single type BEHAVIORAL, and the resulting level is not CRITICAL. *)
Theorem critical_severity_alone_gives_two_behavioral_signals :
  forall (fresh_clinical fresh_risk : UUID) (now : datetime) (user : option UUID),
    let clinical :=
      ClinicalAssessment.make fresh_clinical now user
        (SeverityClassification.make PanicSeverity.CRITICAL 0.9%float) in
    let result :=
      RiskScoringEngine.assess (RiskScoringEngine.init None) fresh_risk now
        clinical None in
    map RiskSignal.signal_name (RiskAssessment.signals result)
    = [py "severity_critical"; py "crisis_protocol_active"]
    /\ map RiskSignal.signal_type (RiskAssessment.signals result)
       = [RiskSignalType.BEHAVIORAL; RiskSignalType.BEHAVIORAL]
    /\ RiskAssessment.signal_count result = 2%Z
    /\ RiskAssessment.risk_level result <> RiskLevel.CRITICAL.
Proof.
  intros fresh_clinical fresh_risk now user clinical result.
  subst clinical result.
  vm_compute.
  repeat split. discriminate.
Qed.

(** C7, as stated, fails on the assessment of the unit test
    [test_critical_requires_multiple_signals]: two signals, not one, and the
    level ELEVATED, not HIGH (the score is 0.715 / 2.35, below every
    threshold; the low combined confidence lifts LOW to ELEVATED). *)
Lemma critical_severity_alone_is_elevated_with_two_signals :
  let clinical :=
    ClinicalAssessment.make 1 0 (Some 2%N)
      (SeverityClassification.make PanicSeverity.CRITICAL 0.9%float) in
  let result :=
    RiskScoringEngine.assess (RiskScoringEngine.init None) 3 0 clinical None in
  length (RiskAssessment.signals result) = 2%nat
  /\ RiskAssessment.risk_level result = RiskLevel.ELEVATED
  /\ ~ (length (RiskAssessment.signals result) = 1%nat
        /\ RiskAssessment.risk_level result = RiskLevel.HIGH).
Proof.
  vm_compute.
  split; [reflexivity | split; [reflexivity |]].
  intros [Hone _]. discriminate Hone.
Qed.

(** ** Crisis detector *)

(** A list has two distinct elements exactly when its set has two members. *)
Lemma two_distinct_iff `{EqDecision A} (l : list A) :
  (2 <= length (remove_dups l))%nat <-> exists x y, x ∈ l /\ y ∈ l /\ x <> y.
Proof.
  split.
  - intros Hlen.
    pose proof (NoDup_remove_dups l) as Hnodup.
    destruct (remove_dups l) as [| a [| b rest]] eqn:Hset; cbn in Hlen; try lia.
    exists a, b.
    assert (Ha : a ∈ remove_dups l) by (rewrite Hset; apply list_elem_of_here).
    assert (Hb : b ∈ remove_dups l)
      by (rewrite Hset; apply list_elem_of_further, list_elem_of_here).
    rewrite elem_of_remove_dups in Ha. rewrite elem_of_remove_dups in Hb.
    split; [exact Ha | split; [exact Hb |]].
    intros ->. apply NoDup_cons in Hnodup as [Hfresh _].
    apply Hfresh, list_elem_of_here.
  - intros (x & y & Hx & Hy & Hne).
    rewrite <- elem_of_remove_dups in Hx. rewrite <- elem_of_remove_dups in Hy.
    destruct (remove_dups l) as [| a [| b rest]]; cbn; try lia.
    + inversion Hx.
    + apply list_elem_of_singleton in Hx. apply list_elem_of_singleton in Hy.
      congruence.
Qed.

(** C4: for every list of crisis signals, the constructed
    [CrisisDetectionResult] has [meets_multi_signal_requirement] set exactly
    when two of the signals differ in category; signals of one single
    category never set it, whatever the combined crisis score is; and so it
    is for the result of [CrisisDetector.detect]. *)
Theorem multi_signal_requirement_iff_two_categories :
  forall (has_signals : bool) (signals : list CrisisSignal.t)
         (combined_score : float),
    let result := CrisisDetectionResult.make has_signals signals combined_score in
    (CrisisDetectionResult.meets_multi_signal_requirement result = true
     <-> exists s1 s2,
           s1 ∈ signals /\ s2 ∈ signals
           /\ CrisisSignal.category s1 <> CrisisSignal.category s2)
    /\ (forall category,
          (forall s, s ∈ signals -> CrisisSignal.category s = category) ->
          CrisisDetectionResult.meets_multi_signal_requirement result = false)
    /\ (forall clinical : ClinicalAssessment.t,
          let detected := CrisisDetector.detect clinical in
          CrisisDetectionResult.meets_multi_signal_requirement detected = true
          <-> exists s1 s2,
                s1 ∈ CrisisDetectionResult.signals detected
                /\ s2 ∈ CrisisDetectionResult.signals detected
                /\ CrisisSignal.category s1 <> CrisisSignal.category s2).
Proof.
  assert (Hmake :
    forall h (l : list CrisisSignal.t) x,
      CrisisDetectionResult.meets_multi_signal_requirement
        (CrisisDetectionResult.make h l x) = true
      <-> exists s1 s2,
            s1 ∈ l /\ s2 ∈ l /\ CrisisSignal.category s1 <> CrisisSignal.category s2).
  { intros h l x.
    unfold CrisisDetectionResult.make, CrisisDetectionResult.post_init,
      CrisisDetectionResult.categories.
    cbn [CrisisDetectionResult.meets_multi_signal_requirement
         CrisisDetectionResult.signals].
    rewrite Nat.leb_le, two_distinct_iff.
    split.
    - intros (c1 & c2 & H1 & H2 & Hne).
      apply list_elem_of_fmap in H1 as (s1 & -> & H1).
      apply list_elem_of_fmap in H2 as (s2 & -> & H2).
      exists s1, s2. auto.
    - intros (s1 & s2 & H1 & H2 & Hne).
      exists (CrisisSignal.category s1), (CrisisSignal.category s2).
      split; [| split; [| exact Hne]]; apply list_elem_of_fmap; eauto. }
  intros has_signals signals combined_score result. subst result.
  split; [apply Hmake | split].
  - intros category Hsame.
    apply not_true_is_false. intros Hmeets.
    apply Hmake in Hmeets as (s1 & s2 & H1 & H2 & Hne).
    apply Hne. rewrite (Hsame s1 H1), (Hsame s2 H2). reflexivity.
  - intros clinical detected. subst detected.
    unfold CrisisDetector.detect. rewrite Hmake. reflexivity.
Qed.

(** Three behavioral signals with the full combined score 1.0: one
    category only. *)
Lemma multi_signal_requirement_iff_two_categories_witness :
  let flag :=
    CrisisSignal.mk (py "crisis_protocol_flag") (py "Clinical pipeline flagged crisis")
      (py "behavioral") 0.35%float 1%float [] in
  CrisisDetectionResult.meets_multi_signal_requirement
    (CrisisDetectionResult.make false [flag; flag; flag] 1%float) = false.
Proof.
  intros flag.
  apply (multi_signal_requirement_iff_two_categories false [flag; flag; flag] 1%float)
    with (category := py "behavioral").
  intros s Hs.
  rewrite !elem_of_cons, elem_of_nil in Hs.
  destruct Hs as [-> | [-> | [-> | []]]]; reflexivity.
Defined.

(** ** Escalation manager *)

(** The boolean test that guards the creation of the event. *)
Lemma escalation_test_spec (current : RiskLevel.t) (previous_level : option RiskLevel.t) :
  match previous_level with
  | Some previous => RiskLevel.gtb current previous
  | None => false
  end || RiskLevel.geb current RiskLevel.HIGH = true
  <-> (exists previous,
         previous_level = Some previous
         /\ (RiskLevel.value previous < RiskLevel.value current)%Z)
      \/ (RiskLevel.value RiskLevel.HIGH <= RiskLevel.value current)%Z.
Proof.
  unfold RiskLevel.gtb, RiskLevel.geb.
  rewrite orb_true_iff, Z.leb_le.
  split; intros [Hrise | Hhigh]; try (right; exact Hhigh).
  - destruct previous_level as [previous |]; [| discriminate].
    left. exists previous. split; [reflexivity | apply Z.ltb_lt; exact Hrise].
  - destruct Hrise as (previous & -> & Hlt). left. apply Z.ltb_lt. exact Hlt.
Qed.

(** C8: [EscalationManager.evaluate] records an event (a non-null
    [log_event], appended to the audit log) exactly when the current level
    is strictly above the supplied previous level or is HIGH or above; and
    at level HIGH with country code "US", on the built-in resources, the
    decision's [resources_to_include] is present and contains the text of
    the 988 Suicide & Crisis Lifeline. *)
Theorem escalation_event_iff_rise_or_high :
  forall (self : EscalationManager.t) (fresh : UUID) (now : datetime)
         (risk : RiskAssessment.t) (country_code : str)
         (previous_level : option RiskLevel.t),
    let current := RiskAssessment.risk_level risk in
    let outcome :=
      EscalationManager.evaluate self fresh now risk country_code previous_level in
    (is_Some (EscalationDecision.log_event (fst outcome))
     <-> (exists previous,
            previous_level = Some previous
            /\ (RiskLevel.value previous < RiskLevel.value current)%Z)
         \/ (RiskLevel.value RiskLevel.HIGH <= RiskLevel.value current)%Z)
    /\ EscalationManager._event_log (snd outcome)
       = EscalationManager._event_log self
         ++ match EscalationDecision.log_event (fst outcome) with
            | Some event => [event]
            | None => []
            end
    /\ (EscalationManager._resources self = EmergencyResourceResolver.init [] ->
        current = RiskLevel.HIGH ->
        exists text,
          EscalationDecision.resources_to_include
            (fst (EscalationManager.evaluate self fresh now risk (py "US")
                    previous_level))
          = Some text
          /\ contains (py "988 Suicide & Crisis Lifeline") text = true).
Proof.
  intros self fresh now risk country_code previous_level current outcome.
  pose proof (escalation_test_spec current previous_level) as Htest.
  subst outcome. unfold EscalationManager.evaluate. fold current.
  split; [| split].
  - rewrite <- Htest.
    destruct (match previous_level with
              | Some previous => RiskLevel.gtb current previous
              | None => false
              end || RiskLevel.geb current RiskLevel.HIGH);
      cbn [fst EscalationDecision.log_event].
    + split; [reflexivity | intros _; eexists; reflexivity].
    + split; [intros [event Hevent]; discriminate | discriminate].
  - destruct (match previous_level with
              | Some previous => RiskLevel.gtb current previous
              | None => false
              end || RiskLevel.geb current RiskLevel.HIGH);
      cbn [fst snd EscalationDecision.log_event EscalationManager._event_log].
    + reflexivity.
    + symmetry. apply app_nil_r.
  - intros Hbuiltin Hhigh. rewrite Hhigh, Hbuiltin.
    match goal with
    | |- context [Some (EmergencyResourceResolver.format_crisis_message ?r ?c ?e)] =>
        exists (EmergencyResourceResolver.format_crisis_message r c e)
    end.
    split.
    + destruct (match previous_level with
                | Some previous => RiskLevel.gtb RiskLevel.HIGH previous
                | None => false
                end || RiskLevel.geb RiskLevel.HIGH RiskLevel.HIGH);
        reflexivity.
    + vm_compute. reflexivity.
Qed.

(** A HIGH assessment evaluated for "US" by a fresh manager, with no
    previous level: the event is recorded and the resources name the 988
    lifeline. *)
Lemma escalation_event_iff_rise_or_high_witness :
  let risk := RiskAssessment.make 1 0 (Some 2%N) RiskLevel.HIGH 0.7%float in
  let outcome :=
    EscalationManager.evaluate (EscalationManager.init None) 3 0 risk (py "US") None in
  is_Some (EscalationDecision.log_event (fst outcome))
  /\ exists text,
       EscalationDecision.resources_to_include (fst outcome) = Some text
       /\ contains (py "988 Suicide & Crisis Lifeline") text = true.
Proof.
  intros risk outcome.
  pose proof (escalation_event_iff_rise_or_high (EscalationManager.init None) 3 0
                risk (py "US") None) as (Hevent & _ & Hresources).
  split.
  - apply Hevent. right. vm_compute. discriminate.
  - apply Hresources; reflexivity.
Defined.

(** ** Safety validator *)

Section Validator.
Context `{Unicode}.
Import SafetyValidator.

Lemma fallback_not_empty : FALLBACK_RESPONSE <> [].
Proof. vm_compute. discriminate. Qed.

(** [__post_init__] leaves a non-empty text when one of its two texts is
    not empty. *)
Lemma post_init_not_empty (r : SafetyResult.t) :
  SafetyResult.original_response r <> [] \/ SafetyResult.filtered_response r <> [] ->
  SafetyResult.filtered_response (SafetyResult.post_init r) <> [].
Proof.
  unfold SafetyResult.post_init.
  destruct (SafetyResult.filtered_response r) as [| c rest] eqn:Hfiltered.
  - cbn [SafetyResult.filtered_response]. intros [Horiginal | Hnil]; congruence.
  - intros _. rewrite Hfiltered. discriminate.
Qed.

(** What [__post_init__] returns as the filtered text. *)
Lemma post_init_filtered (r : SafetyResult.t) :
  SafetyResult.filtered_response (SafetyResult.post_init r)
  = match SafetyResult.filtered_response r with
    | [] => SafetyResult.original_response r
    | text => text
    end.
Proof.
  unfold SafetyResult.post_init.
  destruct (SafetyResult.filtered_response r) eqn:Hfiltered;
    [reflexivity | exact Hfiltered].
Qed.

Lemma post_init_blocked (r : SafetyResult.t) :
  SafetyResult.blocked (SafetyResult.post_init r) = SafetyResult.blocked r.
Proof.
  unfold SafetyResult.post_init.
  destruct (SafetyResult.filtered_response r); reflexivity.
Qed.

Lemma validate_outcome (self : SafetyValidator.t) (response : str) (crisis : bool) :
  outcome self response crisis (validate self response crisis).
Proof.
  unfold validate.
  destruct response as [| c rest]; [apply Empty; left; reflexivity |].
  destruct (strip (c :: rest)) as [| c' rest'] eqn:Hstrip;
    [apply Empty; right; exact Hstrip |].
  destruct (existsb is_block (hard_violations (c :: rest))) eqn:Hblock.
  - apply Blocked; [discriminate | rewrite Hstrip; discriminate | exact Hblock].
  - pose proof (Passed self (c :: rest) crisis) as Hpassed.
    destruct (filter_and_clean (hard_violations (c :: rest)) (c :: rest) crisis)
      as [violations filtered].
    apply Hpassed; [discriminate | rewrite Hstrip; discriminate | exact Hblock].
Qed.

(** Every violation of a hard constraint has severity "block", so the
    response is blocked as soon as one hard pattern is found. *)
Lemma hard_match_blocks (response : str) :
  (exists rule, rule ∈ HARD_CONSTRAINT_PATTERNS
                /\ Re.found (snd (fst rule)) response = true) ->
  existsb is_block (hard_violations response) = true.
Proof.
  intros (rule & Hrule & Hfound).
  apply existsb_exists.
  unfold hard_violations.
  destruct rule as [[rule_id pattern] description]. cbn [fst snd] in Hfound.
  unfold Re.found in Hfound.
  destruct (Re.search pattern response) as [[[before matched] after] |] eqn:Hsearch;
    [| discriminate].
  exists (SafetyViolation.mk rule_id description matched block).
  split; [| reflexivity].
  apply list_elem_of_In, list_elem_of_omap.
  exists (rule_id, pattern, description). split; [exact Hrule |].
  cbn beta iota. unfold Re.group0. rewrite Hsearch. reflexivity.
Qed.

End Validator.

(** C6: for every input string, [SafetyValidator.validate] returns a
    non-empty [filtered_response]; whenever a hard-constraint pattern is
    found in the input, the result is blocked and its [filtered_response] is
    the fallback text; no hard-constraint pattern is found in the fallback
    text; and on "You should take 0.5mg of Xanax" the result is blocked and
    contains neither "Xanax" nor "mg". *)
Theorem validate_never_empty_and_blocks_hard_matches :
  forall (U : Unicode) (self : SafetyValidator.t) (response : str)
         (is_crisis_response : bool),
    let result := SafetyValidator.validate self response is_crisis_response in
    let example :=
      SafetyValidator.validate self (py "You should take 0.5mg of Xanax")
        is_crisis_response in
    SafetyResult.filtered_response result <> []
    /\ ((exists rule,
           rule ∈ SafetyValidator.HARD_CONSTRAINT_PATTERNS
           /\ Re.found (snd (fst rule)) response = true) ->
        SafetyResult.blocked result = true
        /\ SafetyResult.filtered_response result = SafetyValidator.FALLBACK_RESPONSE)
    /\ Forall (fun rule : str * Re.pattern * str =>
                 Re.found (snd (fst rule)) SafetyValidator.FALLBACK_RESPONSE = false)
         SafetyValidator.HARD_CONSTRAINT_PATTERNS
    /\ (SafetyResult.blocked example = true
        /\ contains (py "Xanax") (SafetyResult.filtered_response example) = false
        /\ contains (py "mg") (SafetyResult.filtered_response example) = false).
Proof.
  intros U self response is_crisis_response result example.
  split; [| split; [| split]].
  - subst result.
    destruct (validate_outcome self response is_crisis_response)
      as [Hempty | Hsome Hstrip Hblock | Hsome Hstrip Hpass].
    + apply post_init_not_empty. right. apply fallback_not_empty.
    + apply post_init_not_empty. right. apply fallback_not_empty.
    + destruct (SafetyValidator.filter_and_clean _ response is_crisis_response)
        as [violations filtered].
      apply post_init_not_empty. left. exact Hsome.
  - intros Hfound. subst result.
    pose proof (hard_match_blocks response Hfound) as Hblocks.
    destruct (validate_outcome self response is_crisis_response)
      as [Hempty | Hsome Hstrip Hblock | Hsome Hstrip Hpass].
    + rewrite post_init_blocked, post_init_filtered. split; reflexivity.
    + rewrite post_init_blocked, post_init_filtered. split; reflexivity.
    + congruence.
  - repeat constructor.
  - subst example. destruct is_crisis_response; vm_compute; repeat split.
Qed.

(** *** Blank texts and the soft filters *)

Lemma isspace_listed (c : N) : Char.isspace c = true -> c ∈ space_chars.
Proof.
  unfold Char.isspace, Char.between. intros Hspace.
  repeat rewrite orb_true_iff in Hspace.
  repeat rewrite andb_true_iff in Hspace.
  repeat rewrite N.leb_le in Hspace.
  repeat rewrite N.eqb_eq in Hspace.
  apply list_elem_of_In. unfold space_chars. cbn [In].
  assert (Hcases :
    (9 <= c <= 13 \/ 28 <= c <= 32 \/ c = 133 \/ c = 160 \/ c = 5760
     \/ 8192 <= c <= 8202 \/ c = 8232 \/ c = 8233 \/ c = 8239 \/ c = 8287
     \/ c = 12288)%N) by lia.
  clear Hspace. lia.
Qed.

Lemma never_space_spec (icase : bool) (p c : N) :
  never_space p = true -> Char.isspace c = true ->
  Re.lit_matches icase p c = false.
Proof.
  intros Hnever Hspace.
  apply isspace_listed, list_elem_of_In in Hspace.
  unfold never_space in Hnever. rewrite forallb_forall in Hnever.
  specialize (Hnever c Hspace). apply negb_true_iff in Hnever.
  unfold Re.lit_matches. destruct icase; [exact Hnever |].
  unfold Char.matches_ignoring_case in Hnever.
  repeat (apply orb_false_iff in Hnever as [Hnever _]).
  exact Hnever.
Qed.

Section BlankTexts.
Context `{Unicode}.
Variable icase : bool.

Lemma m_seq {X} (r1 r2 : Re.regex) (prev : option N) (s : str)
    (k : option N -> str -> option X) :
  Re.m icase (Re.Seq r1 r2) prev s k
  = Re.m icase r1 prev s (fun prev' s' => Re.m icase r2 prev' s' k).
Proof. reflexivity. Qed.

Lemma starts_with_text_fails (r : Re.regex) :
  starts_with_text r = true ->
  forall X (prev : option N) (s : str) (k : option N -> str -> option X),
    at_blank s -> Re.m icase r prev s k = None.
Proof.
  induction r as [| p | | | | | r1 IH1 r2 IH2 | r1 IH1 r2 IH2 | r1 IH1 | least r1 IH1];
    cbn [starts_with_text]; try discriminate; intros Hstarts X prev s k Hblank.
  - destruct s as [| c rest]; cbn [Re.m]; [reflexivity |].
    cbn [at_blank] in Hblank.
    rewrite (never_space_spec icase p c Hstarts Hblank). reflexivity.
  - rewrite m_seq.
    destruct r1; try discriminate; try (apply IH1; assumption).
    cbn [Re.m]. destruct (xorb _ _); [apply IH2; assumption | reflexivity].
  - apply andb_true_iff in Hstarts as [H1 H2]. cbn [Re.m].
    rewrite IH1 by assumption. apply IH2; assumption.
Qed.

Lemma search_blank (r : Re.regex) :
  starts_with_text r = true ->
  forall (s : str) (prev : option N),
    Forall (fun c => Char.isspace c = true) s ->
    Re.search_from icase r prev s = None.
Proof.
  intros Hstarts s. induction s as [| c rest IH]; intros prev Hall;
    cbn [Re.search_from]; unfold Re.match_here.
  - rewrite starts_with_text_fails by (exact Hstarts || exact I). reflexivity.
  - apply Forall_cons in Hall as [Hc Hrest].
    rewrite starts_with_text_fails by (exact Hstarts || exact Hc).
    rewrite IH by exact Hrest. reflexivity.
Qed.
End BlankTexts.

(** A text that [strip] empties consists of white space. *)
Lemma lstrip_nil_all_space (s : str) :
  lstrip s = [] -> Forall (fun c => Char.isspace c = true) s.
Proof.
  induction s as [| c rest IH]; cbn [lstrip]; intros Hnil; [constructor |].
  destruct (Char.isspace c) eqn:Hc; [| discriminate].
  constructor; [exact Hc | apply IH; exact Hnil].
Qed.

Lemma lstrip_suffix (s : str) : exists spaces,
  s = spaces ++ lstrip s /\ Forall (fun c => Char.isspace c = true) spaces.
Proof.
  induction s as [| c rest (spaces & Heq & Hall)]; cbn [lstrip].
  - exists []. split; [reflexivity | constructor].
  - destruct (Char.isspace c) eqn:Hc.
    + exists (c :: spaces). split; [cbn; congruence | constructor; assumption].
    + exists []. split; [reflexivity | constructor].
Qed.

Lemma strip_nil_all_space (s : str) :
  strip s = [] -> Forall (fun c => Char.isspace c = true) s.
Proof.
  unfold strip, rstrip. intros Hnil.
  assert (Hinner : lstrip (rev (lstrip s)) = []).
  { apply (f_equal (@rev N)) in Hnil. rewrite rev_involutive in Hnil. exact Hnil. }
  apply lstrip_nil_all_space in Hinner.
  destruct (lstrip_suffix s) as (spaces & Heq & Hspaces).
  rewrite Heq. apply Forall_app. split; [exact Hspaces |].
  apply Forall_forall. intros c Hc.
  rewrite Forall_forall in Hinner. apply Hinner.
  apply list_elem_of_In, in_rev. rewrite rev_involutive.
  apply list_elem_of_In. exact Hc.
Qed.

Section SoftFilters.
Context `{Unicode}.
Import SafetyValidator.

(** A filter whose pattern needs text leaves a blank text alone. *)
Lemma apply_filter_blank (violations : list SafetyViolation.t) (response : str)
    (rule_id description : list N) (pattern : Re.pattern) :
  starts_with_text (Re.expr pattern) = true ->
  Forall (fun c => Char.isspace c = true) response ->
  apply_filter (violations, response) (rule_id, pattern, description)
  = (violations, response).
Proof.
  intros Hstarts Hblank. unfold apply_filter, Re.group0, Re.search.
  rewrite search_blank by assumption. reflexivity.
Qed.

(** No soft filter matches in a blank text. *)
Lemma filters_skip_blank (violations : list SafetyViolation.t) (response : str) :
  strip response = [] ->
  fold_left apply_filter FILTER_PATTERNS (violations, response)
  = (violations, response).
Proof.
  intros Hblank. apply strip_nil_all_space in Hblank.
  unfold FILTER_PATTERNS. cbn [fold_left].
  rewrite !apply_filter_blank by (reflexivity || exact Hblank).
  reflexivity.
Qed.

Lemma no_hard_match_no_violation (response : str) :
  (forall rule, rule ∈ HARD_CONSTRAINT_PATTERNS ->
                Re.found (snd (fst rule)) response = false) ->
  hard_violations response = [].
Proof.
  intros Hnone. unfold hard_violations.
  induction HARD_CONSTRAINT_PATTERNS as [| [[rule_id pattern] description] rest IH];
    [reflexivity |].
  cbn [omap list_omap].
  pose proof (Hnone (rule_id, pattern, description) (list_elem_of_here _ _)) as Hhere.
  cbn [fst snd] in Hhere. unfold Re.found in Hhere. unfold Re.group0.
  destruct (Re.search pattern response) as [[[before matched] after] |];
    [discriminate |].
  apply IH. intros rule Hrule. apply Hnone. apply list_elem_of_further. exact Hrule.
Qed.
End SoftFilters.

(** C10: a non-empty input in which no hard-constraint pattern is found
    and of which the soft filters, having matched, leave nothing after the
    clean-up is returned unchanged as [filtered_response]:
    [SafetyResult.__post_init__] puts the original text back in place of the
    empty one, so the filtered word comes back unstripped. *)
Theorem emptied_by_soft_filters_returns_original :
  forall (U : Unicode) (self : SafetyValidator.t) (response : str)
         (is_crisis_response : bool),
    response <> [] ->
    (forall rule, rule ∈ SafetyValidator.HARD_CONSTRAINT_PATTERNS ->
                  Re.found (snd (fst rule)) response = false) ->
    fst (fold_left SafetyValidator.apply_filter SafetyValidator.FILTER_PATTERNS
           ([], response)) <> [] ->
    snd (SafetyValidator.filter_and_clean [] response is_crisis_response) = [] ->
    SafetyResult.filtered_response
      (SafetyValidator.validate self response is_crisis_response) = response
    /\ SafetyResult.blocked
         (SafetyValidator.validate self response is_crisis_response) = false.
Proof.
  intros U self response is_crisis_response Hsome Hclean Hmatched Hnothing.
  pose proof (no_hard_match_no_violation response Hclean) as Hnoviolation.
  destruct (validate_outcome self response is_crisis_response)
    as [[Hempty | Hblank] | _ _ Hblock | _ _ _].
  - contradiction.
  - exfalso. apply Hmatched.
    rewrite (filters_skip_blank [] response Hblank). reflexivity.
  - rewrite Hnoviolation in Hblock. discriminate.
  - rewrite Hnoviolation.
    destruct (SafetyValidator.filter_and_clean [] response is_crisis_response)
      as [violations filtered].
    cbn [snd] in Hnothing. subst filtered.
    rewrite post_init_filtered, post_init_blocked. split; reflexivity.
Qed.

(** The single word "definitely": stripped by the first soft filter,
    returned whole. *)
Lemma emptied_by_soft_filters_returns_original_witness :
  SafetyResult.filtered_response
    (@SafetyValidator.validate ascii_only (SafetyValidator.mk true)
       (py "definitely") false)
  = py "definitely"
  /\ snd (@SafetyValidator.filter_and_clean ascii_only [] (py "definitely") false) = [].
Proof.
  split; [| reflexivity].
  apply (emptied_by_soft_filters_returns_original ascii_only
           (SafetyValidator.mk true) (py "definitely") false).
  - discriminate.
  - intros rule Hrule.
    unfold SafetyValidator.HARD_CONSTRAINT_PATTERNS in Hrule.
    rewrite !elem_of_cons, elem_of_nil in Hrule.
    destruct Hrule as [-> | [-> | [-> | [-> | [-> | [-> | []]]]]]]; reflexivity.
  - vm_compute. discriminate.
  - reflexivity.
Defined.

(** ** Safety pipeline *)

(** C9 fails on the sources: the hard constraints are checked on the
    proposed response only, before the soft filters rewrite it.  For an
    assessment without panic and the proposed response "calm definitely
    down", no hard pattern is found, the soft filter strips "definitely" and
    the clean-up joins the rest into "calm down", which the pipeline returns
    as [final_response]; validated alone, that text is blocked for the hard
    constraint DISMISSIVE. *)
Theorem final_response_can_violate_hard_constraint :
  forall U : Unicode,
    let clinical :=
      ClinicalAssessment.make 1 0 (Some 2%N)
        (SeverityClassification.make PanicSeverity.NONE 0.9%float) in
    let evaluation :=
      fst (SafetyPipeline.evaluate (SafetyPipeline.init None true)
             (SafetyPipeline.ids 3 4 5) 0 clinical (py "calm definitely down")
             (py "US") None) in
    let again :=
      SafetyValidator.validate (SafetyValidator.mk true)
        (SafetyEvaluation.final_response evaluation) false in
    SafetyEvaluation.final_response evaluation = py "calm down"
    /\ SafetyEvaluation.response_valid evaluation = true
    /\ SafetyResult.blocked again = true
    /\ map (fun v => (SafetyViolation.rule_id v, SafetyViolation.severity v))
         (SafetyResult.violations again)
       = [(py "DISMISSIVE", py "block")].
Proof.
  intros U clinical evaluation again.
  subst clinical evaluation again.
  vm_compute. repeat split.
Qed.

(** * Further properties of the code *)

(** ** Stability gate and activation gate *)

Section StabilityStates.
Import StabilityContext StabilityGate.
Variables (now : datetime) (context : StabilityContext.t).

(** The state [evaluate] returns, read off its chain of tests. *)
Lemma evaluate_state_cases :
  StabilityEvaluation.state (evaluate now context)
  = if has_crisis_signals context || has_self_harm_signals context
    then PanicStabilityState.PANIC_CRITICAL
    else if (4 <=? PanicSeverity.value (current_severity context))%Z
    then PanicStabilityState.PANIC_CRITICAL
    else if (now - started_at context <? seconds 60)%Z
    then PanicStabilityState.PANIC_ACTIVE
    else if (3 <=? PanicSeverity.value (current_severity context))%Z
            && (0 <=? severity_trend context)%Z
    then PanicStabilityState.PANIC_ACTIVE
    else if has_completed_exercise context
    then if (seconds 180 <=? now - started_at context)%Z
            && (PanicSeverity.value (current_severity context) <=? 1)%Z
            && intensity_improved context
            && (severity_trend context <? 0)%Z
         then PanicStabilityState.PANIC_RECOVERED
         else PanicStabilityState.PANIC_STABILIZING
    else PanicStabilityState.PANIC_ACTIVE.
Proof.
  unfold evaluate, elapsed_seconds_lt, elapsed_seconds_ge, elapsed_microseconds,
    PanicSeverity.geb, PanicSeverity.leb, MIN_TIME_FOR_STABILIZING_SECONDS,
    MIN_TIME_FOR_RECOVERED_SECONDS.
  change (PanicSeverity.value PanicSeverity.CRITICAL) with 4%Z.
  change (PanicSeverity.value PanicSeverity.SEVERE) with 3%Z.
  change (PanicSeverity.value PanicSeverity.MILD) with 1%Z.
  repeat match goal with
         | |- context [if ?b then _ else _] => destruct b; try reflexivity
         end.
Qed.

Lemma stabilizing_spec :
  PanicStabilityState.ltb (StabilityEvaluation.state (evaluate now context))
    PanicStabilityState.PANIC_STABILIZING = false
  <-> has_crisis_signals context = false
      /\ has_self_harm_signals context = false
      /\ (PanicSeverity.value (current_severity context) < 4)%Z
      /\ (seconds 60 <= now - started_at context)%Z
      /\ has_completed_exercise context = true
      /\ ((PanicSeverity.value (current_severity context) < 3)%Z
          \/ (severity_trend context < 0)%Z).
Proof.
  rewrite evaluate_state_cases.
  destruct (has_crisis_signals context), (has_self_harm_signals context);
    cbn [orb]; try (split; [discriminate | intros (? & ? & _); discriminate]).
  destruct (Z.leb_spec 4 (PanicSeverity.value (current_severity context)));
    [split; [discriminate | intros (_ & _ & ? & _); lia] |].
  destruct (Z.ltb_spec (now - started_at context) (seconds 60));
    [split; [discriminate | intros (_ & _ & _ & ? & _); lia] |].
  destruct (Z.leb_spec 3 (PanicSeverity.value (current_severity context))),
    (Z.leb_spec 0 (severity_trend context)); cbn [andb];
    try (split; [discriminate | intros (_ & _ & _ & _ & _ & [? | ?]); lia]);
    (destruct (has_completed_exercise context);
     [| split; [discriminate | intros (_ & _ & _ & _ & ? & _); discriminate]]);
    (match goal with
     | |- context [if ?b then _ else _] => destruct b
     end);
    (split; [intros _; repeat split; try assumption; lia | reflexivity]).
Qed.
End StabilityStates.

(** X1: [StabilityGate.evaluate] reports PANIC_STABILIZING or
    PANIC_RECOVERED exactly when the context has neither crisis nor
    self-harm signals, the severity is below CRITICAL, at least 60 seconds
    have elapsed, a regulation exercise is completed (three breathing cycles
    or three grounding steps) and the severity is below SEVERE or its trend
    is falling. *)
Theorem stability_gate_stabilizing_iff :
  forall (now : datetime) (context : StabilityContext.t),
    PanicStabilityState.ltb
      (StabilityEvaluation.state (StabilityGate.evaluate now context))
      PanicStabilityState.PANIC_STABILIZING = false
    <-> StabilityContext.has_crisis_signals context = false
        /\ StabilityContext.has_self_harm_signals context = false
        /\ (PanicSeverity.value (StabilityContext.current_severity context) < 4)%Z
        /\ (seconds 60 <= now - StabilityContext.started_at context)%Z
        /\ ((3 <= StabilityContext.breathing_cycles_completed context)%Z
            \/ (3 <= StabilityContext.grounding_steps_completed context)%Z)
        /\ ((PanicSeverity.value (StabilityContext.current_severity context) < 3)%Z
            \/ (StabilityContext.severity_trend context < 0)%Z).
Proof.
  intros now context. rewrite stabilizing_spec.
  unfold StabilityContext.has_completed_exercise.
  rewrite orb_true_iff, !Z.leb_le. reflexivity.
Qed.

(** X2: [StabilityGate.evaluate] reports PANIC_RECOVERED exactly when
    there are no crisis or self-harm signals, at least 180 seconds have
    elapsed, a regulation exercise is completed, the severity is NONE or
    MILD, the severity trend is falling, and the intensity history has at
    least two samples with the current intensity at least 0.2 below the
    first one. *)
Theorem stability_gate_recovered_iff :
  forall (now : datetime) (context : StabilityContext.t),
    StabilityEvaluation.state (StabilityGate.evaluate now context)
    = PanicStabilityState.PANIC_RECOVERED
    <-> StabilityContext.has_crisis_signals context = false
        /\ StabilityContext.has_self_harm_signals context = false
        /\ (seconds 180 <= now - StabilityContext.started_at context)%Z
        /\ StabilityContext.has_completed_exercise context = true
        /\ (PanicSeverity.value (StabilityContext.current_severity context) <= 1)%Z
        /\ (StabilityContext.severity_trend context < 0)%Z
        /\ StabilityGate.intensity_improved context = true.
Proof.
  intros now context. rewrite evaluate_state_cases.
  destruct (StabilityContext.has_crisis_signals context),
    (StabilityContext.has_self_harm_signals context);
    cbn [orb]; try (split; [discriminate | intros (? & ? & _); discriminate]).
  unfold seconds.
  destruct (Z.leb_spec 4
              (PanicSeverity.value (StabilityContext.current_severity context)));
    [split; [discriminate | intros (_ & _ & _ & _ & ? & _); lia] |].
  destruct (Z.ltb_spec (now - StabilityContext.started_at context) (60 * 1000000));
    [split; [discriminate | intros (_ & _ & ? & _); lia] |].
  destruct (Z.leb_spec 3
              (PanicSeverity.value (StabilityContext.current_severity context))),
    (Z.leb_spec 0 (StabilityContext.severity_trend context)); cbn [andb];
    try (split; [discriminate | intros (_ & _ & _ & _ & ? & ? & _); lia]);
    (destruct (StabilityContext.has_completed_exercise context);
     [| split; [discriminate | intros (_ & _ & _ & ? & _); discriminate]]);
    destruct (Z.leb_spec (180 * 1000000) (now - StabilityContext.started_at context)),
      (Z.leb_spec
         (PanicSeverity.value (StabilityContext.current_severity context)) 1),
      (StabilityGate.intensity_improved context),
      (Z.ltb_spec (StabilityContext.severity_trend context) 0);
    cbn [andb];
    (split;
     [first [discriminate | intros _; repeat split; (assumption || lia)]
     | first [reflexivity
             | intros (_ & _ & ? & _ & ? & ? & ?); first [lia | discriminate]]]).
Qed.

(** X3: the severity trend reads the last three samples of the history
    only: it is the last severity minus the third from last, whatever came
    before. *)
Theorem severity_trend_reads_last_three :
  forall (context : StabilityContext.t) (older : list PanicSeverity.t)
         (a b c : PanicSeverity.t),
    StabilityContext.severity_history context = older ++ [a; b; c] ->
    StabilityContext.severity_trend context
    = (PanicSeverity.value c - PanicSeverity.value a)%Z.
Proof.
  intros context older a b c Hhistory.
  unfold StabilityContext.severity_trend, last3. rewrite Hhistory.
  rewrite length_app. cbn [length].
  replace (length older + 3 - 3)%nat with (length older) by lia.
  rewrite drop_app_length.
  destruct (Nat.ltb_spec (length older + 3) 2); [lia |].
  reflexivity.
Qed.

(** A history that rose to SEVERE and came back to MILD: the trend over
    MODERATE, SEVERE, MILD is 1 - 2. *)
Lemma severity_trend_reads_last_three_witness :
  StabilityContext.severity_trend
    (StabilityContext.mk 1 2 0 PanicSeverity.MILD 0.3%float
       [PanicSeverity.CRITICAL; PanicSeverity.MODERATE; PanicSeverity.SEVERE;
        PanicSeverity.MILD]
       [] 0 0 false false)
  = (-1)%Z.
Proof.
  apply (severity_trend_reads_last_three
           (StabilityContext.mk 1 2 0 PanicSeverity.MILD 0.3%float
              [PanicSeverity.CRITICAL; PanicSeverity.MODERATE; PanicSeverity.SEVERE;
               PanicSeverity.MILD]
              [] 0 0 false false)
           [PanicSeverity.CRITICAL] PanicSeverity.MODERATE PanicSeverity.SEVERE
           PanicSeverity.MILD).
  reflexivity.
Defined.

(** When the gate allows, on the stability gate's own evaluation. *)
Lemma gate_allows_spec :
  forall (self : GeminiActivationGate.t) (now : datetime)
         (context : StabilityContext.t),
    ActivationDecision.allowed (GeminiActivationGate.is_allowed self now context None)
    = true
    <-> GeminiActivationGate._gemini_disabled self = false
        /\ (GeminiActivationGate.error_count self
              (uuid_str (StabilityContext.session_id context)) < 3)%Z
        /\ StabilityContext.has_crisis_signals context = false
        /\ StabilityContext.has_self_harm_signals context = false
        /\ (seconds 60 <= now - StabilityContext.started_at context)%Z
        /\ StabilityContext.has_completed_exercise context = true
        /\ (PanicSeverity.value (StabilityContext.current_severity context) < 4)%Z
        /\ ((PanicSeverity.value (StabilityContext.current_severity context) < 3)%Z
            \/ (StabilityContext.severity_trend context < 0)%Z).
Proof.
  intros self now context.
  pose proof (stabilizing_spec now context) as Hstate.
  unfold GeminiActivationGate.is_allowed, GeminiActivationGate.ERROR_THRESHOLD,
    GeminiActivationGate.MIN_TIME_SECONDS, GeminiActivationGate.MIN_STABILITY_STATE,
    StabilityContext.elapsed_seconds_lt, StabilityContext.elapsed_microseconds.
  cbv zeta.
  destruct (GeminiActivationGate._gemini_disabled self);
    [split; [discriminate | intros (? & _); discriminate] |].
  destruct (Z.leb_spec 3
              (GeminiActivationGate.error_count self
                 (uuid_str (StabilityContext.session_id context))));
    [split; [discriminate | intros (_ & ? & _); lia] |].
  destruct (StabilityContext.has_crisis_signals context),
    (StabilityContext.has_self_harm_signals context);
    cbn [orb]; try (split; [discriminate | intros (_ & _ & ? & ? & _); discriminate]).
  destruct (Z.ltb_spec (now - StabilityContext.started_at context) (seconds 60));
    [split; [discriminate | intros (_ & _ & _ & _ & ? & _); lia] |].
  destruct (StabilityContext.has_completed_exercise context); cbn [negb];
    [| split; [discriminate | intros (_ & _ & _ & _ & _ & ? & _); discriminate]].
  destruct (PanicStabilityState.ltb
              (StabilityEvaluation.state (StabilityGate.evaluate now context))
              PanicStabilityState.PANIC_STABILIZING);
    cbn [ActivationDecision.allowed].
  - split; [discriminate |].
    intros (_ & _ & _ & _ & _ & _ & Hsev & Htrend).
    symmetry. apply Hstate. repeat split; assumption.
  - split; [| reflexivity]. intros _.
    destruct Hstate as [Hstate _].
    destruct (Hstate eq_refl) as (_ & _ & Hsev & _ & _ & Htrend).
    repeat split; assumption.
Qed.

(** X4: without a supplied evaluation, [GeminiActivationGate.is_allowed]
    runs the stability gate itself, and allows exactly when the kill-switch
    is off, the session has fewer than three recorded errors, there are no
    crisis or self-harm signals, at least 60 seconds have elapsed, a
    regulation exercise is completed, the severity is below CRITICAL, and
    the severity is below SEVERE or its trend is falling. *)
Theorem activation_gate_allows_iff :
  forall (self : GeminiActivationGate.t) (now : datetime)
         (context : StabilityContext.t),
    ActivationDecision.allowed (GeminiActivationGate.is_allowed self now context None)
    = true
    <-> GeminiActivationGate._gemini_disabled self = false
        /\ (GeminiActivationGate.error_count self
              (uuid_str (StabilityContext.session_id context)) < 3)%Z
        /\ StabilityContext.has_crisis_signals context = false
        /\ StabilityContext.has_self_harm_signals context = false
        /\ (seconds 60 <= now - StabilityContext.started_at context)%Z
        /\ StabilityContext.has_completed_exercise context = true
        /\ (PanicSeverity.value (StabilityContext.current_severity context) < 4)%Z
        /\ ((PanicSeverity.value (StabilityContext.current_severity context) < 3)%Z
            \/ (StabilityContext.severity_trend context < 0)%Z).
Proof. exact gate_allows_spec. Qed.

(** The count [record_error] leaves for each session. *)
Lemma error_count_record_error (gate : GeminiActivationGate.t) (session key : list N) :
  GeminiActivationGate.error_count (GeminiActivationGate.record_error gate session) key
  = if bool_decide (key = session)
    then (GeminiActivationGate.error_count gate session + 1)%Z
    else GeminiActivationGate.error_count gate key.
Proof.
  unfold GeminiActivationGate.error_count at 1, GeminiActivationGate.record_error.
  cbn [GeminiActivationGate._session_error_counts].
  case_bool_decide as Hkey.
  - subst key. rewrite lookup_insert_eq. reflexivity.
  - rewrite lookup_insert_ne by congruence. reflexivity.
Qed.

(** The decision depends on the gate through its kill-switch and the
    error count of the context's session only. *)
Lemma is_allowed_ext (gate gate' : GeminiActivationGate.t) (now : datetime)
    (context : StabilityContext.t) (stability_eval : option StabilityEvaluation.t) :
  GeminiActivationGate._gemini_disabled gate
  = GeminiActivationGate._gemini_disabled gate' ->
  GeminiActivationGate.error_count gate (uuid_str (StabilityContext.session_id context))
  = GeminiActivationGate.error_count gate'
      (uuid_str (StabilityContext.session_id context)) ->
  GeminiActivationGate.is_allowed gate now context stability_eval
  = GeminiActivationGate.is_allowed gate' now context stability_eval.
Proof.
  intros Hswitch Hcount. unfold GeminiActivationGate.is_allowed.
  rewrite Hswitch, Hcount. reflexivity.
Qed.

(** X5: the circuit breaker.  Once three errors have been recorded for a
    session, on a gate whose count for it was not negative and whose
    kill-switch is off, [is_allowed] denies every request of that session
    with ERROR_THRESHOLD_EXCEEDED, whatever the context holds and whatever
    stability evaluation is supplied. *)
Theorem three_errors_deny_the_session :
  forall (gate : GeminiActivationGate.t) (now : datetime)
         (context : StabilityContext.t)
         (stability_eval : option StabilityEvaluation.t),
    let key := uuid_str (StabilityContext.session_id context) in
    let tripped :=
      GeminiActivationGate.record_error
        (GeminiActivationGate.record_error
           (GeminiActivationGate.record_error gate key) key) key in
    let decision :=
      GeminiActivationGate.is_allowed tripped now context stability_eval in
    (0 <= GeminiActivationGate.error_count gate key)%Z ->
    GeminiActivationGate._gemini_disabled gate = false ->
    ActivationDecision.allowed decision = false
    /\ ActivationDecision.denial_reason decision
       = Some ActivationDenialReason.ERROR_THRESHOLD_EXCEEDED.
Proof.
  intros gate now context stability_eval key tripped decision Hcount Hswitch.
  assert (Htripped : (3 <= GeminiActivationGate.error_count tripped key)%Z).
  { subst tripped. rewrite !error_count_record_error.
    rewrite !bool_decide_eq_true_2 by reflexivity. lia. }
  subst decision. unfold GeminiActivationGate.is_allowed.
  change (GeminiActivationGate._gemini_disabled tripped)
    with (GeminiActivationGate._gemini_disabled gate).
  rewrite Hswitch. fold key.
  unfold GeminiActivationGate.ERROR_THRESHOLD.
  destruct (Z.leb_spec 3 (GeminiActivationGate.error_count tripped key)); [| lia].
  split; reflexivity.
Qed.

(** The context of the unit tests that would be allowed, after three
    errors of its session on a fresh gate. *)
Lemma three_errors_deny_the_session_witness :
  let key := uuid_str (StabilityContext.session_id (fixture_context 120)) in
  let gate := GeminiActivationGate.init None in
  ActivationDecision.allowed
    (GeminiActivationGate.is_allowed gate 0 (fixture_context 120) None) = true
  /\ ActivationDecision.denial_reason
       (GeminiActivationGate.is_allowed
          (GeminiActivationGate.record_error
             (GeminiActivationGate.record_error
                (GeminiActivationGate.record_error gate key) key) key)
          0 (fixture_context 120) None)
     = Some ActivationDenialReason.ERROR_THRESHOLD_EXCEEDED.
Proof.
  intros key gate. split; [vm_compute; reflexivity |].
  apply (three_errors_deny_the_session gate 0 (fixture_context 120) None).
  - vm_compute. discriminate.
  - reflexivity.
Defined.

(** X6: an error recorded for one session leaves the decision for every
    other session as it was. *)
Theorem errors_of_another_session_do_not_count :
  forall (gate : GeminiActivationGate.t) (session : list N) (now : datetime)
         (context : StabilityContext.t)
         (stability_eval : option StabilityEvaluation.t),
    session <> uuid_str (StabilityContext.session_id context) ->
    GeminiActivationGate.is_allowed
      (GeminiActivationGate.record_error gate session) now context stability_eval
    = GeminiActivationGate.is_allowed gate now context stability_eval.
Proof.
  intros gate session now context stability_eval Hother.
  apply is_allowed_ext; [reflexivity |].
  rewrite error_count_record_error.
  rewrite bool_decide_eq_false_2 by congruence. reflexivity.
Qed.

(** Three errors of session 9 and the request of session 7. *)
Lemma errors_of_another_session_do_not_count_witness :
  let other := uuid_str 9 in
  let gate :=
    GeminiActivationGate.record_error
      (GeminiActivationGate.record_error (GeminiActivationGate.init None) other)
      other in
  GeminiActivationGate.is_allowed (GeminiActivationGate.record_error gate other) 0
    (fixture_context 120) None
  = GeminiActivationGate.is_allowed gate 0 (fixture_context 120) None.
Proof.
  intros other gate.
  apply (errors_of_another_session_do_not_count gate other 0 (fixture_context 120) None).
  vm_compute. discriminate.
Defined.

(** X7: [clear_session] forgets the errors of its session: afterwards the
    decision for that session is the one of a gate that never recorded an
    error, and the counts of the other sessions are untouched. *)
Theorem clear_session_forgets_the_errors :
  forall (gate : GeminiActivationGate.t) (now : datetime)
         (context : StabilityContext.t)
         (stability_eval : option StabilityEvaluation.t),
    let key := uuid_str (StabilityContext.session_id context) in
    GeminiActivationGate.is_allowed
      (GeminiActivationGate.clear_session gate key) now context stability_eval
    = GeminiActivationGate.is_allowed
        (GeminiActivationGate.mk ∅ (GeminiActivationGate._gemini_disabled gate))
        now context stability_eval
    /\ forall other : list N,
         other <> key ->
         GeminiActivationGate.error_count
           (GeminiActivationGate.clear_session gate key) other
         = GeminiActivationGate.error_count gate other.
Proof.
  intros gate now context stability_eval key. split.
  - apply is_allowed_ext; [reflexivity |]. fold key.
    unfold GeminiActivationGate.error_count, GeminiActivationGate.clear_session.
    cbn [GeminiActivationGate._session_error_counts].
    rewrite lookup_delete_eq, lookup_empty. reflexivity.
  - intros other Hother.
    unfold GeminiActivationGate.error_count, GeminiActivationGate.clear_session.
    cbn [GeminiActivationGate._session_error_counts].
    rewrite lookup_delete_ne by congruence. reflexivity.
Qed.

(** ** Clinical assessment and decision engine *)

(** [Enum(value)] against [.value], for the two enumerations. *)
Lemma intervention_of_value_spec (x : PanicIntervention.t) (s : list N) :
  PanicIntervention.of_value s = Some x <-> PanicIntervention.value x = s.
Proof.
  split.
  - unfold PanicIntervention.of_value. intros Hfind.
    apply find_some in Hfind as [_ Heq].
    unfold str_eqb in Heq. apply bool_decide_eq_true_1 in Heq. exact Heq.
  - intros <-. destruct x; vm_compute; reflexivity.
Qed.

Lemma trigger_of_value_spec (x : PanicTrigger.t) (s : list N) :
  PanicTrigger.of_value s = Some x <-> PanicTrigger.value x = s.
Proof.
  split.
  - unfold PanicTrigger.of_value. intros Hfind.
    apply find_some in Hfind as [_ Heq].
    unfold str_eqb in Heq. apply bool_decide_eq_true_1 in Heq. exact Heq.
  - intros <-. destruct x; vm_compute; reflexivity.
Qed.

(** X8: the values of [PanicIntervention] and of [PanicTrigger] name
    their members: constructing a member from a string succeeds exactly on
    the value of that member, so [Enum(value)] and [.value] are inverse to
    each other and no two members share a value. *)
Theorem enum_values_round_trip :
  (forall (x : PanicIntervention.t) (s : list N),
     PanicIntervention.of_value s = Some x <-> PanicIntervention.value x = s)
  /\ (forall (x : PanicTrigger.t) (s : list N),
        PanicTrigger.of_value s = Some x <-> PanicTrigger.value x = s)
  /\ (forall x y : PanicIntervention.t,
        PanicIntervention.value x = PanicIntervention.value y -> x = y)
  /\ (forall x y : PanicTrigger.t,
        PanicTrigger.value x = PanicTrigger.value y -> x = y).
Proof.
  split; [exact intervention_of_value_spec |].
  split; [exact trigger_of_value_spec |].
  split; intros x y Hsame.
  - apply intervention_of_value_spec in Hsame.
    assert (Hy : PanicIntervention.of_value (PanicIntervention.value y) = Some y)
      by (apply intervention_of_value_spec; reflexivity).
    congruence.
  - apply trigger_of_value_spec in Hsame.
    assert (Hy : PanicTrigger.of_value (PanicTrigger.value y) = Some y)
      by (apply trigger_of_value_spec; reflexivity).
    congruence.
Qed.

(** X9: [ClinicalAssessment.__post_init__] normalises: applied to an
    assessment it has already produced it changes nothing, so the
    uncertainty flag is listed once and the derived fields are stable. *)
Theorem clinical_post_init_idempotent :
  forall fields : ClinicalAssessment.t,
    ClinicalAssessment.post_init (ClinicalAssessment.post_init fields)
    = ClinicalAssessment.post_init fields.
Proof.
  intros fields. unfold ClinicalAssessment.post_init.
  cbn [ClinicalAssessment.severity ClinicalAssessment.assessment_id
       ClinicalAssessment.user_id ClinicalAssessment.session_id
       ClinicalAssessment.message_id ClinicalAssessment.timestamp
       ClinicalAssessment.emotion_profile ClinicalAssessment.distress_indicators
       ClinicalAssessment.trigger_analysis ClinicalAssessment.requires_crisis_protocol
       ClinicalAssessment.requires_human_review ClinicalAssessment.confidence_score
       ClinicalAssessment.uncertainty_flags ClinicalAssessment.raw_text_hash
       ClinicalAssessment.model_versions ClinicalAssessment.embeddings].
  assert (Hlisted :
    bool_decide
      (py "severity_uncertainty"
       ∈ ClinicalAssessment.uncertainty_flags fields ++ [py "severity_uncertainty"])
    = true).
  { apply bool_decide_eq_true_2, elem_of_app. right. apply list_elem_of_here. }
  destruct (PanicSeverity.geb _ _);
    destruct (SeverityClassification.uncertainty_flag _); try reflexivity;
    destruct (bool_decide
                (py "severity_uncertainty"
                 ∈ ClinicalAssessment.uncertainty_flags fields)) eqn:Hbefore;
    rewrite ?Hbefore, ?Hlisted; reflexivity.
Qed.

(** X10: a severity classification whose confidence is below 0.6 marks
    itself uncertain, and the assessment constructed from it requires human
    review and lists the flag "severity_uncertainty" once, whatever the
    predicted severity is. *)
Theorem low_confidence_requires_human_review :
  forall (fresh : UUID) (now : datetime) (user : option UUID)
         (severity : PanicSeverity.t) (confidence : float),
    (confidence <? 0.6)%float = true ->
    let assessment :=
      ClinicalAssessment.make fresh now user
        (SeverityClassification.make severity confidence) in
    SeverityClassification.uncertainty_flag (ClinicalAssessment.severity assessment)
    = true
    /\ ClinicalAssessment.requires_human_review assessment = true
    /\ ClinicalAssessment.uncertainty_flags assessment = [py "severity_uncertainty"].
Proof.
  intros fresh now user severity confidence Hlow assessment. subst assessment.
  unfold ClinicalAssessment.make, ClinicalAssessment.with_defaults,
    ClinicalAssessment.post_init, SeverityClassification.make,
    SeverityClassification.post_init.
  cbn [SeverityClassification.confidence ClinicalAssessment.severity
       ClinicalAssessment.requires_human_review ClinicalAssessment.uncertainty_flags].
  rewrite Hlow.
  cbn [SeverityClassification.set_uncertainty_flag
       SeverityClassification.uncertainty_flag].
  repeat split.
Qed.

(** A MILD classification at confidence 0.5. *)
Lemma low_confidence_requires_human_review_witness :
  ClinicalAssessment.requires_human_review
    (ClinicalAssessment.make 1 0 (Some 2%N)
       (SeverityClassification.make PanicSeverity.MILD 0.5%float))
  = true.
Proof.
  apply (low_confidence_requires_human_review 1 0 (Some 2%N) PanicSeverity.MILD
           0.5%float).
  reflexivity.
Defined.

(** X11: every decision carries the six universal constraints, in their
    order, at the head of its response constraints: no severity and no
    crisis protocol drops one of them. *)
Theorem decisions_keep_universal_constraints :
  forall context : DecisionContext.t,
    exists more : list (list N),
      Decision.response_constraints (DecisionEngine.decide context)
      = DecisionEngine.UNIVERSAL_CONSTRAINTS ++ more.
Proof.
  intros context. unfold DecisionEngine.decide.
  destruct (ClinicalAssessment.requires_crisis_protocol _);
    cbn [Decision.response_constraints DecisionEngine._crisis_decision
         DecisionEngine._build_constraints];
    eexists; reflexivity.
Qed.

(** [l.remove(x); l.insert(0, x)] reorders and no more. *)
Lemma remove_first_perm `{EqDecision A} (x : A) (l : list A) :
  x ∈ l -> x :: remove_first x l ≡ₚ l.
Proof.
  induction l as [| y rest IH]; intros Hin; [inversion Hin |].
  cbn [remove_first]. case_bool_decide as Hy.
  - subst y. reflexivity.
  - apply elem_of_cons in Hin as [-> | Hin]; [congruence |].
    rewrite Permutation_swap. f_equiv. apply IH. exact Hin.
Qed.

Lemma move_to_front_perm `{EqDecision A} (x : A) (l : list A) :
  move_to_front x l ≡ₚ l.
Proof.
  unfold move_to_front. case_bool_decide as Hin; [| reflexivity].
  apply remove_first_perm. exact Hin.
Qed.

Lemma move_to_front_hd `{EqDecision A} (x : A) (l : list A) :
  x ∈ l -> List.hd_error (move_to_front x l) = Some x.
Proof.
  intros Hin. unfold move_to_front.
  rewrite bool_decide_eq_true_2 by exact Hin. reflexivity.
Qed.

(** What the first rule of [_select_interventions] leaves is still the
    list of the severity, reordered: it has the same members. *)
Lemma select_interventions_first_rule (severity : PanicSeverity.t)
    (last_intervention : option (list N)) :
  match last_intervention with
  | None | Some [] => DecisionEngine.SEVERITY_INTERVENTIONS severity
  | Some text =>
      match PanicIntervention.of_value text with
      | Some last => move_to_front last (DecisionEngine.SEVERITY_INTERVENTIONS severity)
      | None => DecisionEngine.SEVERITY_INTERVENTIONS severity
      end
  end ≡ₚ DecisionEngine.SEVERITY_INTERVENTIONS severity.
Proof.
  destruct last_intervention as [[| c text] |]; try reflexivity.
  destruct (PanicIntervention.of_value (c :: text)); [| reflexivity].
  apply move_to_front_perm.
Qed.

Lemma select_interventions_perm (severity : PanicSeverity.t)
    (last_intervention : option (list N)) (triggers : list PanicTrigger.t) :
  DecisionEngine._select_interventions severity last_intervention triggers
  ≡ₚ DecisionEngine.SEVERITY_INTERVENTIONS severity.
Proof.
  unfold DecisionEngine._select_interventions.
  case_bool_decide; [rewrite move_to_front_perm |];
    apply select_interventions_first_rule.
Qed.

(** X12: outside the crisis protocol, the interventions of a decision,
    the primary one followed by the secondary ones, are the interventions
    listed for the severity, reordered: the last successful intervention and
    the triggers change the order only, none is added and none is lost. *)
Theorem interventions_are_those_of_the_severity :
  forall context : DecisionContext.t,
    let assessment := DecisionContext.clinical_assessment context in
    let decision := DecisionEngine.decide context in
    ClinicalAssessment.requires_crisis_protocol assessment = false ->
    option_list (Decision.primary_intervention decision)
      ++ Decision.secondary_interventions decision
    ≡ₚ DecisionEngine.SEVERITY_INTERVENTIONS
         (SeverityClassification.predicted_severity
            (ClinicalAssessment.severity assessment)).
Proof.
  intros context assessment decision Hflag. subst decision.
  unfold DecisionEngine.decide. fold assessment. rewrite Hflag.
  cbn [Decision.primary_intervention Decision.secondary_interventions].
  rewrite <- (select_interventions_perm _
                (DecisionContext.last_intervention_used context)
                (PanicTrigger.UNKNOWN ::
                 omap PanicTrigger.of_value
                   (TriggerAnalysis.immediate_triggers
                      (ClinicalAssessment.trigger_analysis assessment)))).
  destruct (DecisionEngine._select_interventions _ _ _); reflexivity.
Qed.

(** A SEVERE assessment, breathing having helped last: breathing comes
    first, and the four interventions of SEVERE are all there. *)
Lemma interventions_are_those_of_the_severity_witness :
  let assessment :=
    ClinicalAssessment.make 1 0 (Some 2%N)
      (SeverityClassification.make PanicSeverity.SEVERE 0.9%float) in
  let context :=
    DecisionContext.mk 2 assessment None 3 0 (Some (py "breathing_exercise")) [] in
  Decision.primary_intervention (DecisionEngine.decide context)
  = Some PanicIntervention.BREATHING_EXERCISE
  /\ option_list (Decision.primary_intervention (DecisionEngine.decide context))
       ++ Decision.secondary_interventions (DecisionEngine.decide context)
     ≡ₚ DecisionEngine.SEVERITY_INTERVENTIONS PanicSeverity.SEVERE.
Proof.
  intros assessment context. split; [vm_compute; reflexivity |].
  apply (interventions_are_those_of_the_severity context). reflexivity.
Defined.

(** The triggers [decide] recognises hold HEALTH_ANXIETY exactly when the
    assessment lists the string "health_anxiety". *)
Lemma health_anxiety_recognised (immediate_triggers : list (list N)) :
  PanicTrigger.HEALTH_ANXIETY
  ∈ PanicTrigger.UNKNOWN :: omap PanicTrigger.of_value immediate_triggers
  <-> py "health_anxiety" ∈ immediate_triggers.
Proof.
  rewrite elem_of_cons, list_elem_of_omap.
  split.
  - intros [Hunknown | (text & Hin & Hvalue)]; [discriminate |].
    apply trigger_of_value_spec in Hvalue. subst text. exact Hin.
  - intros Hin. right. exists (py "health_anxiety"). split; [exact Hin |].
    vm_compute. reflexivity.
Qed.

(** X13: outside the crisis protocol, when the assessment lists the
    trigger "health_anxiety" and the severity is MODERATE or above, the
    primary intervention is the grounding technique, whatever intervention
    was used last. *)
Theorem health_anxiety_puts_grounding_first :
  forall context : DecisionContext.t,
    let assessment := DecisionContext.clinical_assessment context in
    ClinicalAssessment.requires_crisis_protocol assessment = false ->
    PanicSeverity.geb
      (SeverityClassification.predicted_severity
         (ClinicalAssessment.severity assessment))
      PanicSeverity.MODERATE = true ->
    py "health_anxiety"
    ∈ TriggerAnalysis.immediate_triggers
        (ClinicalAssessment.trigger_analysis assessment) ->
    Decision.primary_intervention (DecisionEngine.decide context)
    = Some PanicIntervention.GROUNDING_TECHNIQUE.
Proof.
  intros context assessment Hflag Hseverity Htrigger.
  unfold DecisionEngine.decide. fold assessment. rewrite Hflag.
  cbn [Decision.primary_intervention].
  unfold DecisionEngine._select_interventions.
  rewrite bool_decide_eq_true_2 by (apply health_anxiety_recognised; exact Htrigger).
  apply move_to_front_hd.
  rewrite select_interventions_first_rule.
  destruct (SeverityClassification.predicted_severity
              (ClinicalAssessment.severity assessment));
    try discriminate Hseverity; cbn [DecisionEngine.SEVERITY_INTERVENTIONS];
    rewrite !elem_of_cons; auto.
Qed.

(** A MODERATE assessment with the trigger, breathing having helped
    last: grounding still comes first. *)
Lemma health_anxiety_puts_grounding_first_witness :
  let made :=
    ClinicalAssessment.with_defaults 1 0 (Some 2%N)
      (SeverityClassification.make PanicSeverity.MODERATE 0.9%float) in
  let assessment :=
    ClinicalAssessment.post_init
      (ClinicalAssessment.mk
         (ClinicalAssessment.assessment_id made) (ClinicalAssessment.user_id made)
         None None 0 (ClinicalAssessment.severity made)
         (ClinicalAssessment.emotion_profile made)
         (ClinicalAssessment.distress_indicators made)
         (TriggerAnalysis.mk [py "health_anxiety"] [] [] [])
         UrgencyLevel.ROUTINE false false 0%float [] [] [] None) in
  Decision.primary_intervention
    (DecisionEngine.decide
       (DecisionContext.mk 2 assessment None 3 0 (Some (py "breathing_exercise")) []))
  = Some PanicIntervention.GROUNDING_TECHNIQUE.
Proof.
  intros made assessment.
  apply (health_anxiety_puts_grounding_first
           (DecisionContext.mk 2 assessment None 3 0
              (Some (py "breathing_exercise")) [])).
  - reflexivity.
  - reflexivity.
  - apply list_elem_of_here.
Defined.

(** X14: outside the crisis protocol and without the trigger
    "health_anxiety", the intervention used last, when it is one listed for
    the severity, becomes the primary intervention. *)
Theorem last_successful_intervention_comes_first :
  forall (context : DecisionContext.t) (last : PanicIntervention.t),
    let assessment := DecisionContext.clinical_assessment context in
    ClinicalAssessment.requires_crisis_protocol assessment = false ->
    DecisionContext.last_intervention_used context
    = Some (PanicIntervention.value last) ->
    last ∈ DecisionEngine.SEVERITY_INTERVENTIONS
             (SeverityClassification.predicted_severity
                (ClinicalAssessment.severity assessment)) ->
    py "health_anxiety"
    ∉ TriggerAnalysis.immediate_triggers
        (ClinicalAssessment.trigger_analysis assessment) ->
    Decision.primary_intervention (DecisionEngine.decide context) = Some last.
Proof.
  intros context last assessment Hflag Hlast Hlisted Htrigger.
  unfold DecisionEngine.decide. fold assessment. rewrite Hflag.
  cbn [Decision.primary_intervention].
  unfold DecisionEngine._select_interventions.
  rewrite bool_decide_eq_false_2
    by (rewrite health_anxiety_recognised; exact Htrigger).
  rewrite Hlast.
  assert (Hvalue : PanicIntervention.of_value (PanicIntervention.value last)
                   = Some last)
    by (apply intervention_of_value_spec; reflexivity).
  rewrite Hvalue.
  destruct (PanicIntervention.value last) eqn:Htext;
    [destruct last; discriminate Htext |].
  apply move_to_front_hd. exact Hlisted.
Qed.

(** A MODERATE assessment, validation having helped last: it moves from
    the third place to the first. *)
Lemma last_successful_intervention_comes_first_witness :
  let assessment :=
    ClinicalAssessment.make 1 0 (Some 2%N)
      (SeverityClassification.make PanicSeverity.MODERATE 0.9%float) in
  Decision.primary_intervention
    (DecisionEngine.decide
       (DecisionContext.mk 2 assessment None 3 0 (Some (py "validation")) []))
  = Some PanicIntervention.VALIDATION.
Proof.
  intros assessment.
  apply (last_successful_intervention_comes_first
           (DecisionContext.mk 2 assessment None 3 0 (Some (py "validation")) [])
           PanicIntervention.VALIDATION).
  - reflexivity.
  - reflexivity.
  - cbn. rewrite !elem_of_cons. auto.
  - cbn. apply not_elem_of_nil.
Defined.

(** ** Risk scoring engine *)

Section RiskAssessments.
Import RiskScoringEngine.
Variables (self : RiskScoringEngine.t) (fresh : UUID) (now : datetime)
          (clinical : ClinicalAssessment.t)
          (session_history : option (list HistoryEntry.t)).

Let result := assess self fresh now clinical session_history.

(** The signals [assess] collects, in its order. *)
Lemma assess_signals :
  RiskAssessment.signals result
  = _extract_severity_signals clinical
    ++ _extract_emotion_signals clinical
    ++ _extract_distress_signals clinical
    ++ (if ClinicalAssessment.requires_crisis_protocol clinical then
          [RiskSignal.mk RiskSignalType.BEHAVIORAL (py "crisis_protocol_active")
             (py "Clinical assessment flagged crisis protocol")
             (weight_of (py "crisis_protocol_active") 0) 1%float
             (py "clinical_assessment")]
        else [])
    ++ match session_history with
       | None | Some [] => []
       | Some history => _extract_historical_signals history
       end.
Proof.
  subst result. unfold assess.
  destruct (_calculate_risk_score _ clinical) as [score confidence].
  reflexivity.
Qed.

(** The fields of the assessment that depend on the score and the
    signals. *)
Lemma assess_fields :
  let signals := RiskAssessment.signals result in
  let score := RiskAssessment.risk_score result in
  let classified := _classify_risk_level self score signals in
  _calculate_risk_score signals clinical
  = (score, RiskAssessment.confidence result)
  /\ RiskAssessment.recommended_actions result = _determine_actions classified
  /\ (RiskAssessment.risk_level result = classified
      \/ RiskAssessment.risk_level result = RiskLevel.max classified RiskLevel.ELEVATED
         /\ RiskLevel.ltb classified RiskLevel.HIGH = true
         /\ (0.3 <? score)%float = true)
  /\ RiskAssessment.requires_human_review result
     = RiskLevel.geb (RiskAssessment.risk_level result) RiskLevel.CRITICAL
  /\ RiskAssessment.signal_count result = Z.of_nat (length signals).
Proof.
  subst result. unfold assess. cbv zeta.
  match goal with
  | |- context [_calculate_risk_score ?collected clinical] =>
      lazymatch collected with
      | _ ++ _ =>
          destruct (_calculate_risk_score collected clinical)
            as [score confidence] eqn:Hscore
      end
  end.
  cbn [RiskAssessment.post_init RiskAssessment.signals RiskAssessment.risk_score
       RiskAssessment.confidence RiskAssessment.recommended_actions
       RiskAssessment.risk_level RiskAssessment.requires_human_review
       RiskAssessment.signal_count].
  cbv zeta.
  split; [exact Hscore |].
  split; [reflexivity |].
  split; [| split; [| reflexivity]].
  - match goal with
    | |- context [if ?b then RiskLevel.max _ _ else _] => destruct b eqn:Hrule
    end; [right | left; reflexivity].
    apply andb_true_iff in Hrule as [Hrule Hscore'].
    apply andb_true_iff in Hrule as [_ Hbelow].
    split; [reflexivity | split; assumption].
  - match goal with
    | |- (if ?b then true else false) = _ => destruct b; reflexivity
    end.
Qed.
End RiskAssessments.

(** With the default thresholds, a classification is CRITICAL only on a
    score of at least 0.85 with three signals of two types. *)
Lemma classify_critical_inv (score : float) (signals : list RiskSignal.t) :
  RiskScoringEngine._classify_risk_level (RiskScoringEngine.init None) score signals
  = RiskLevel.CRITICAL ->
  (0.85 <=? score)%float = true
  /\ (3 <= length signals)%nat
  /\ (2 <= distinct_count (map RiskSignal.signal_type signals))%nat.
Proof.
  unfold RiskScoringEngine._classify_risk_level.
  cbn [RiskScoringEngine.init RiskScoringEngine.thresholds default from_option id
       RiskThresholds.default RiskThresholds.critical_threshold
       RiskThresholds.high_threshold RiskThresholds.elevated_threshold
       RiskThresholds.min_signals_for_critical RiskThresholds.min_signals_for_high
       RiskThresholds.require_multi_signal_types negb orb].
  destruct (0.85 <=? score)%float.
  - destruct (Z.leb_spec 3 (Z.of_nat (length signals))); [| discriminate].
    destruct (Z.leb_spec 2
                (Z.of_nat (distinct_count (map RiskSignal.signal_type signals))));
      [| discriminate].
    intros _. repeat split; lia.
  - destruct (0.65 <=? score)%float.
    + destruct (2 <=? Z.of_nat (length signals))%Z; discriminate.
    + destruct (0.4 <=? score)%float; discriminate.
Qed.

(** X15: with the default thresholds, [RiskScoringEngine.assess] returns
    CRITICAL only for a score of at least 0.85 carried by at least three
    signals of at least two types (the uncertainty rule never produces
    CRITICAL), and it requires human review exactly when the level is
    CRITICAL; [signal_count] is the number of signals. *)
Theorem assess_critical_only_with_three_signals_of_two_types :
  forall (fresh : UUID) (now : datetime) (clinical : ClinicalAssessment.t)
         (session_history : option (list HistoryEntry.t)),
    let result :=
      RiskScoringEngine.assess (RiskScoringEngine.init None) fresh now clinical
        session_history in
    (RiskAssessment.risk_level result = RiskLevel.CRITICAL ->
     (0.85 <=? RiskAssessment.risk_score result)%float = true
     /\ (3 <= length (RiskAssessment.signals result))%nat
     /\ (2 <= distinct_count
                (map RiskSignal.signal_type (RiskAssessment.signals result)))%nat)
    /\ (RiskAssessment.requires_human_review result = true
        <-> RiskAssessment.risk_level result = RiskLevel.CRITICAL)
    /\ RiskAssessment.signal_count result
       = Z.of_nat (length (RiskAssessment.signals result)).
Proof.
  intros fresh now clinical session_history result.
  destruct (assess_fields (RiskScoringEngine.init None) fresh now clinical
              session_history) as (_ & _ & Hlevel & Hreview & Hcount).
  fold result in Hlevel, Hreview, Hcount.
  split; [| split; [| exact Hcount]].
  - intros Hcritical. apply classify_critical_inv.
    destruct Hlevel as [<- | (Hraised & Hbelow & _)]; [exact Hcritical |].
    rewrite Hcritical in Hraised.
    destruct (RiskScoringEngine._classify_risk_level _ _ _);
      try discriminate Hraised; discriminate Hbelow.
  - rewrite Hreview.
    destruct (RiskAssessment.risk_level result); cbn;
      split; (reflexivity || discriminate).
Qed.

(** X16: the uncertainty rule of [assess] never lowers a level: the
    level returned is at least the one classified from the score and the
    signals, and differs from it only by lifting LOW to ELEVATED on a score
    above 0.3; the recommended actions are those of the classified level,
    chosen before the rule applies. *)
Theorem uncertainty_only_raises_the_level :
  forall (self : RiskScoringEngine.t) (fresh : UUID) (now : datetime)
         (clinical : ClinicalAssessment.t)
         (session_history : option (list HistoryEntry.t)),
    let result := RiskScoringEngine.assess self fresh now clinical session_history in
    let classified :=
      RiskScoringEngine._classify_risk_level self (RiskAssessment.risk_score result)
        (RiskAssessment.signals result) in
    RiskLevel.geb (RiskAssessment.risk_level result) classified = true
    /\ (RiskAssessment.risk_level result <> classified ->
        classified = RiskLevel.LOW
        /\ RiskAssessment.risk_level result = RiskLevel.ELEVATED
        /\ (0.3 <? RiskAssessment.risk_score result)%float = true)
    /\ RiskAssessment.recommended_actions result
       = RiskScoringEngine._determine_actions classified.
Proof.
  intros self fresh now clinical session_history result classified.
  destruct (assess_fields self fresh now clinical session_history)
    as (_ & Hactions & Hlevel & _).
  fold result in Hactions, Hlevel. fold classified in Hactions, Hlevel.
  split; [| split; [| exact Hactions]].
  - destruct Hlevel as [-> | (-> & _ & _)]; destruct classified; reflexivity.
  - intros Hdiffers.
    destruct Hlevel as [Hsame | (Hraised & Hbelow & Hscore)]; [contradiction |].
    rewrite Hraised in Hdiffers |- *.
    destruct classified; try discriminate Hbelow;
      [repeat split; assumption | exfalso; apply Hdiffers; reflexivity].
Qed.

(** The types of the signals the extractors produce. *)
Lemma assess_signal_types (self : RiskScoringEngine.t) (fresh : UUID) (now : datetime)
    (clinical : ClinicalAssessment.t) (session_history : option (list HistoryEntry.t)) :
  Forall (fun s =>
            RiskSignal.signal_type s = RiskSignalType.BEHAVIORAL
            \/ RiskSignal.signal_type s = RiskSignalType.EMOTIONAL
            \/ (RiskSignal.signal_type s = RiskSignalType.HISTORICAL
                /\ is_Some session_history))
    (RiskAssessment.signals
       (RiskScoringEngine.assess self fresh now clinical session_history)).
Proof.
  rewrite assess_signals, !Forall_app.
  split; [| split; [| split; [| split]]].
  - unfold RiskScoringEngine._extract_severity_signals.
    repeat match goal with
           | |- context [if ?b then _ else _] => destruct b
           end;
      listed_signals.
  - unfold RiskScoringEngine._extract_emotion_signals.
    rewrite Forall_app. split.
    + apply Forall_forall. intros s Hs.
      apply list_elem_of_omap in Hs as (emotion & _ & Hs).
      destruct (RiskScoringEngine.risk_emotions _); [| discriminate].
      destruct (0.5 <? _)%float; [| discriminate].
      injection Hs as <-. right. left. reflexivity.
    + destruct (0.7 <? _)%float; listed_signals.
  - unfold RiskScoringEngine._extract_distress_signals.
    destruct (0.7 <? _)%float; listed_signals.
  - destruct (ClinicalAssessment.requires_crisis_protocol clinical); listed_signals.
  - destruct session_history as [[| entry history] |]; try constructor.
    unfold RiskScoringEngine._extract_historical_signals.
    destruct (_ && _); listed_signals.
Qed.

(** X17: with the default thresholds and without a session history,
    which is how the safety pipeline calls it, [assess] returns CRITICAL
    only when an emotional signal stands beside a behavioral one among its
    signals: without a history the extractors produce signals of these two
    types only, and CRITICAL needs two types. *)
Theorem critical_needs_emotional_and_behavioral_signals :
  forall (fresh : UUID) (now : datetime) (clinical : ClinicalAssessment.t),
    let result :=
      RiskScoringEngine.assess (RiskScoringEngine.init None) fresh now clinical None in
    RiskAssessment.risk_level result = RiskLevel.CRITICAL ->
    (exists s, s ∈ RiskAssessment.signals result
               /\ RiskSignal.signal_type s = RiskSignalType.EMOTIONAL)
    /\ (exists s, s ∈ RiskAssessment.signals result
                  /\ RiskSignal.signal_type s = RiskSignalType.BEHAVIORAL).
Proof.
  intros fresh now clinical result Hcritical.
  destruct (assess_fields (RiskScoringEngine.init None) fresh now clinical None)
    as (_ & _ & Hlevel & _).
  fold result in Hlevel.
  assert (Hclassified :
    RiskScoringEngine._classify_risk_level (RiskScoringEngine.init None)
      (RiskAssessment.risk_score result) (RiskAssessment.signals result)
    = RiskLevel.CRITICAL).
  { destruct Hlevel as [<- | (Hraised & Hbelow & _)]; [exact Hcritical |].
    rewrite Hcritical in Hraised.
    destruct (RiskScoringEngine._classify_risk_level _ _ _);
      try discriminate Hraised; discriminate Hbelow. }
  apply classify_critical_inv in Hclassified as (_ & _ & Htypes).
  apply two_distinct_iff in Htypes as (x & y & Hx & Hy & Hne).
  apply list_elem_of_fmap in Hx as (sx & -> & Hx).
  apply list_elem_of_fmap in Hy as (sy & -> & Hy).
  pose proof (assess_signal_types (RiskScoringEngine.init None) fresh now clinical
                None) as Hall.
  fold result in Hall. rewrite Forall_forall in Hall.
  destruct (Hall sx Hx) as [Hsx | [Hsx | [_ [? Hnone]]]]; try discriminate Hnone;
    destruct (Hall sy Hy) as [Hsy | [Hsy | [_ [? Hnone]]]]; try discriminate Hnone;
    try (exfalso; apply Hne; congruence);
    split; eauto.
Qed.

(** A critical assessment under crisis protocol with full distress and
    volatility and five emotions of full confidence: nine signals, the
    score 2.15 / 2.35, the level CRITICAL. *)
Lemma critical_needs_emotional_and_behavioral_signals_witness :
  let emotion category := EmotionScore.mk category 1%float 1%float false in
  let clinical :=
    ClinicalAssessment.post_init
      (ClinicalAssessment.mk 1 (Some 2%N) None None 0
         (SeverityClassification.make PanicSeverity.CRITICAL 1%float)
         (EmotionProfile.mk
            [emotion EmotionCategory.DREAD; emotion EmotionCategory.DISSOCIATION;
             emotion EmotionCategory.HELPLESSNESS;
             emotion EmotionCategory.LOSS_OF_CONTROL;
             emotion EmotionCategory.DISSOCIATION]
            (Some EmotionCategory.DREAD) 1%float 0)
         (DistressIndicators.mk [] [] [] [] 1%float)
         TriggerAnalysis.default UrgencyLevel.ROUTINE false false 0.9%float
         [] [] [] None) in
  let result :=
    RiskScoringEngine.assess (RiskScoringEngine.init None) 3 0 clinical None in
  RiskAssessment.risk_level result = RiskLevel.CRITICAL
  /\ (exists s, s ∈ RiskAssessment.signals result
                /\ RiskSignal.signal_type s = RiskSignalType.EMOTIONAL).
Proof.
  intros emotion clinical result.
  assert (Hcritical : RiskAssessment.risk_level result = RiskLevel.CRITICAL)
    by (vm_compute; reflexivity).
  split; [exact Hcritical |].
  apply (critical_needs_emotional_and_behavioral_signals 3 0 clinical).
  exact Hcritical.
Defined.

(** X18: with the default thresholds, an assessment for which no signal
    is extracted is LOW with score 0, recommends continued support only and
    requires no human review, also when the severity classification is
    flagged uncertain. *)
Theorem no_signal_means_low_risk :
  forall (fresh : UUID) (now : datetime) (clinical : ClinicalAssessment.t)
         (session_history : option (list HistoryEntry.t)),
    let result :=
      RiskScoringEngine.assess (RiskScoringEngine.init None) fresh now clinical
        session_history in
    RiskAssessment.signals result = [] ->
    RiskAssessment.risk_level result = RiskLevel.LOW
    /\ RiskAssessment.risk_score result = 0%float
    /\ RiskAssessment.recommended_actions result = [EscalationAction.CONTINUE_SUPPORT]
    /\ RiskAssessment.requires_human_review result = false.
Proof.
  intros fresh now clinical session_history result Hnone.
  destruct (assess_fields (RiskScoringEngine.init None) fresh now clinical
              session_history) as (Hscore & Hactions & Hlevel & Hreview & _).
  fold result in Hscore, Hactions, Hlevel, Hreview.
  rewrite Hnone in Hscore, Hactions, Hlevel.
  cbn [RiskScoringEngine._calculate_risk_score] in Hscore.
  injection Hscore as Hzero _.
  rewrite <- Hzero in Hactions, Hlevel.
  assert (Hlow : RiskAssessment.risk_level result = RiskLevel.LOW).
  { destruct Hlevel as [Hlevel | (_ & _ & Hscore)];
      [exact Hlevel | discriminate Hscore]. }
  rewrite Hreview, Hlow.
  repeat split; [symmetry; exact Hzero | exact Hactions].
Qed.

(** An assessment without panic, its classification uncertain. *)
Lemma no_signal_means_low_risk_witness :
  RiskAssessment.risk_level
    (RiskScoringEngine.assess (RiskScoringEngine.init None) 3 0
       (ClinicalAssessment.make 1 0 (Some 2%N)
          (SeverityClassification.make PanicSeverity.NONE 0.5%float))
       None)
  = RiskLevel.LOW.
Proof.
  apply (no_signal_means_low_risk 3 0
           (ClinicalAssessment.make 1 0 (Some 2%N)
              (SeverityClassification.make PanicSeverity.NONE 0.5%float))
           None).
  vm_compute. reflexivity.
Defined.

(** ** Safety pipeline *)

Section PipelineFields.
Context `{Unicode}.
Variables (self : SafetyPipeline.t) (fresh : SafetyPipeline.fresh_ids)
          (now : datetime) (clinical : ClinicalAssessment.t)
          (proposed_response country_code : list N) (raw_text : option (list N)).

Let engine_risk :=
  RiskScoringEngine.assess (SafetyPipeline._risk_engine self)
    (SafetyPipeline.for_risk fresh) now clinical None.
Let crisis := CrisisDetector.detect clinical.
Let risk := merge_crisis_signals engine_risk crisis.
Let previous_level :=
  match ClinicalAssessment.session_id clinical with
  | Some session => SafetyPipeline._session_risk_cache self !! session
  | None => None
  end.
Let escalated :=
  EscalationManager.evaluate (SafetyPipeline._escalation_manager self)
    (SafetyPipeline.for_event fresh) now risk country_code previous_level.
Let validation :=
  SafetyValidator.validate (SafetyPipeline._response_validator self) proposed_response
    (RiskLevel.geb (RiskAssessment.risk_level risk) RiskLevel.HIGH).
Let outcome :=
  SafetyPipeline.evaluate self fresh now clinical proposed_response country_code
    raw_text.

(** The results of [evaluate], by the steps that produce them. *)
Lemma pipeline_evaluate_fields :
  SafetyEvaluation.final_risk_level (fst outcome) = RiskAssessment.risk_level risk
  /\ SafetyEvaluation.escalation_decision (fst outcome) = Some (fst escalated)
  /\ SafetyEvaluation.crisis_detection (fst outcome) = Some crisis
  /\ SafetyEvaluation.final_response (fst outcome)
     = EscalationManager.modify_response (snd escalated)
         (SafetyResult.filtered_response validation) (fst escalated) country_code
  /\ SafetyEvaluation.response_valid (fst outcome) = SafetyResult.is_safe validation
  /\ SafetyEvaluation.requires_crisis_response (fst outcome)
     = RiskLevel.geb (RiskAssessment.risk_level risk) RiskLevel.CRITICAL
       || ClinicalAssessment.requires_crisis_protocol clinical
       || CrisisDetectionResult.meets_multi_signal_requirement crisis
  /\ (is_Some (EscalationDecision.log_event (fst escalated)) ->
      SafetyEvaluation.requires_human_review (fst outcome) = true)
  /\ SafetyPipeline._session_risk_cache (snd outcome)
     = match ClinicalAssessment.session_id clinical with
       | Some session =>
           <[session := RiskAssessment.risk_level risk]>
             (SafetyPipeline._session_risk_cache self)
       | None => SafetyPipeline._session_risk_cache self
       end
  /\ SafetyPipeline._escalation_manager (snd outcome) = snd escalated
  /\ SafetyEvaluation.response_was_modified (fst outcome)
     = SafetyResult.was_modified validation
       || EscalationDecision.should_escalate (fst escalated).
Proof.
  subst outcome. unfold SafetyPipeline.evaluate. cbv zeta.
  fold engine_risk. fold crisis.
  change (if CrisisDetectionResult.has_crisis_signals crisis
          then
            if CrisisDetectionResult.has_crisis_signals crisis
               && CrisisDetectionResult.meets_multi_signal_requirement crisis
               && RiskLevel.ltb (RiskAssessment.risk_level engine_risk) RiskLevel.HIGH
            then
              RiskAssessment.set_risk_level
                (RiskAssessment.extend_signals engine_risk
                   (CrisisDetectionResult.to_risk_signals crisis)) RiskLevel.HIGH
            else
              RiskAssessment.extend_signals engine_risk
                (CrisisDetectionResult.to_risk_signals crisis)
          else engine_risk)
    with risk.
  fold previous_level. fold escalated.
  destruct escalated as [escalation manager] eqn:Hescalated.
  assert (Hlevel : forall flagged : bool,
            RiskAssessment.risk_level
              (if flagged then RiskAssessment.set_requires_human_review risk else risk)
            = RiskAssessment.risk_level risk)
    by (intros []; reflexivity).
  cbn [fst snd SafetyEvaluation.final_risk_level SafetyEvaluation.escalation_decision
       SafetyEvaluation.crisis_detection SafetyEvaluation.final_response
       SafetyEvaluation.response_valid SafetyEvaluation.requires_crisis_response
       SafetyEvaluation.requires_human_review SafetyPipeline._session_risk_cache
       SafetyPipeline._escalation_manager SafetyEvaluation.response_was_modified].
  rewrite !Hlevel. fold validation.
  repeat split.
  intros [event Hevent]. rewrite Hevent. apply orb_true_r.
Qed.
End PipelineFields.

(** ** Crisis detector *)

(** The signals [detect] collects, in its order. *)
Lemma detect_signals (clinical : ClinicalAssessment.t) :
  CrisisDetectionResult.signals (CrisisDetector.detect clinical)
  = CrisisDetector._analyze_emotions clinical
    ++ CrisisDetector._analyze_behavioral clinical
    ++ CrisisDetector._analyze_distress clinical
    ++ (if ClinicalAssessment.requires_crisis_protocol clinical then
          [CrisisSignal.mk (py "crisis_protocol_flag")
             (py "Clinical pipeline flagged crisis")
             (py "behavioral") 0.35%float 1%float []]
        else []).
Proof. reflexivity. Qed.

Lemma detect_categories (clinical : ClinicalAssessment.t) :
  Forall (fun s =>
            CrisisSignal.category s = py "emotional"
            \/ CrisisSignal.category s = py "behavioral")
    (CrisisDetectionResult.signals (CrisisDetector.detect clinical)).
Proof.
  rewrite detect_signals.
  unfold CrisisDetector._analyze_emotions, CrisisDetector._analyze_behavioral,
    CrisisDetector._analyze_distress.
  cbv zeta. rewrite !Forall_app.
  repeat split;
    repeat match goal with
           | |- context [if ?b then _ else _] => destruct b
           | |- context [match ?l with [] => _ | _ :: _ => _ end] => destruct l
           end;
    listed_signals.
Qed.

(** Signals of the two categories, counted by category. *)
Lemma count_two_categories (signals : list CrisisSignal.t) :
  Forall (fun s =>
            CrisisSignal.category s = py "emotional"
            \/ CrisisSignal.category s = py "behavioral") signals ->
  CrisisDetectionResult.count_category (py "linguistic") signals = 0%Z
  /\ (CrisisDetectionResult.count_category (py "emotional") signals
      + CrisisDetectionResult.count_category (py "behavioral") signals
      = Z.of_nat (length signals))%Z.
Proof.
  unfold CrisisDetectionResult.count_category.
  induction 1 as [| s rest Hs _ [IHnone IHsum]]; [split; reflexivity |].
  cbn [List.filter length].
  destruct Hs as [-> | ->];
    match goal with
    | |- context [str_eqb ?a ?b] =>
        change (str_eqb (py "emotional") (py "linguistic")) with false;
        change (str_eqb (py "behavioral") (py "linguistic")) with false;
        change (str_eqb (py "emotional") (py "emotional")) with true;
        change (str_eqb (py "behavioral") (py "behavioral")) with true;
        change (str_eqb (py "emotional") (py "behavioral")) with false;
        change (str_eqb (py "behavioral") (py "emotional")) with false
    end;
    cbn [length]; split; lia.
Qed.

Lemma detect_has_signals (clinical : ClinicalAssessment.t) :
  CrisisDetectionResult.has_crisis_signals (CrisisDetector.detect clinical) = true
  <-> (2 <= length (CrisisDetectionResult.signals (CrisisDetector.detect clinical)))%nat.
Proof.
  unfold CrisisDetector.detect, CrisisDetectionResult.make.
  cbn [CrisisDetectionResult.post_init CrisisDetectionResult.has_crisis_signals
       CrisisDetectionResult.signals].
  unfold CrisisDetector.MIN_SIGNALS_FOR_CONCERN.
  rewrite Z.leb_le. lia.
Qed.

(** X19: [CrisisDetector.detect] works from the clinical assessment
    alone: each of its signals is of category "emotional" or "behavioral",
    its linguistic count is 0, the two other counts add up to the number of
    signals, none of the risk signals it hands to the pipeline is of type
    LINGUISTIC, and it reports crisis signals exactly when it found two. *)
Theorem detect_never_reports_linguistic_signals :
  forall clinical : ClinicalAssessment.t,
    let detected := CrisisDetector.detect clinical in
    CrisisDetectionResult.linguistic_signal_count detected = 0%Z
    /\ (CrisisDetectionResult.emotional_signal_count detected
        + CrisisDetectionResult.behavioral_signal_count detected
        = Z.of_nat (length (CrisisDetectionResult.signals detected)))%Z
    /\ Forall (fun s => RiskSignal.signal_type s <> RiskSignalType.LINGUISTIC)
         (CrisisDetectionResult.to_risk_signals detected)
    /\ (CrisisDetectionResult.has_crisis_signals detected = true
        <-> (2 <= length (CrisisDetectionResult.signals detected))%nat).
Proof.
  intros clinical detected.
  pose proof (detect_categories clinical) as Hall. fold detected in Hall.
  destruct (count_two_categories _ Hall) as [Hnone Hsum].
  split; [exact Hnone | split; [exact Hsum | split]].
  - unfold CrisisDetectionResult.to_risk_signals.
    apply Forall_fmap. eapply Forall_impl; [exact Hall |].
    intros s [Hs | Hs]; cbn [RiskSignal.signal_type compose]; rewrite Hs;
      vm_compute; discriminate.
  - apply detect_has_signals.
Qed.

(** The escalation manager records an event for every assessment at HIGH
    or above. *)
Lemma high_level_is_logged (manager : EscalationManager.t) (fresh : UUID)
    (now : datetime) (risk : RiskAssessment.t) (country_code : list N)
    (previous_level : option RiskLevel.t) :
  RiskLevel.geb (RiskAssessment.risk_level risk) RiskLevel.HIGH = true ->
  is_Some (EscalationDecision.log_event
             (fst (EscalationManager.evaluate manager fresh now risk country_code
                     previous_level))).
Proof.
  intros Hhigh. unfold EscalationManager.evaluate. rewrite Hhigh, orb_true_r.
  cbn [fst EscalationDecision.log_event]. eexists. reflexivity.
Qed.

(** The [should_escalate] of a decision compares the level with the
    previous one. *)
Lemma should_escalate_spec (manager : EscalationManager.t) (fresh : UUID)
    (now : datetime) (risk : RiskAssessment.t) (country_code : list N)
    (previous_level : option RiskLevel.t) :
  EscalationDecision.should_escalate
    (fst (EscalationManager.evaluate manager fresh now risk country_code
            previous_level))
  = match previous_level with
    | Some previous => RiskLevel.gtb (RiskAssessment.risk_level risk) previous
    | None => false
    end.
Proof.
  unfold EscalationManager.evaluate.
  destruct (_ || _); reflexivity.
Qed.

(** The audit log after [evaluate]: the event of the decision, if there
    is one, is appended. *)
Lemma escalation_event_log (manager : EscalationManager.t) (fresh : UUID)
    (now : datetime) (risk : RiskAssessment.t) (country_code : list N)
    (previous_level : option RiskLevel.t) :
  EscalationManager._event_log
    (snd (EscalationManager.evaluate manager fresh now risk country_code
            previous_level))
  = EscalationManager._event_log manager
    ++ match EscalationDecision.log_event
               (fst (EscalationManager.evaluate manager fresh now risk country_code
                       previous_level)) with
       | Some event => [event]
       | None => []
       end.
Proof.
  unfold EscalationManager.evaluate.
  destruct (_ || _);
    cbn [fst snd EscalationDecision.log_event EscalationManager._event_log].
  - reflexivity.
  - symmetry. apply app_nil_r.
Qed.

(** The level after the crisis signals are merged. *)
Lemma merge_crisis_signals_level (risk : RiskAssessment.t)
    (crisis : CrisisDetectionResult.t) :
  RiskAssessment.risk_level (merge_crisis_signals risk crisis)
  = if CrisisDetectionResult.has_crisis_signals crisis
       && CrisisDetectionResult.meets_multi_signal_requirement crisis
       && RiskLevel.ltb (RiskAssessment.risk_level risk) RiskLevel.HIGH
    then RiskLevel.HIGH
    else RiskAssessment.risk_level risk.
Proof.
  unfold merge_crisis_signals.
  destruct (CrisisDetectionResult.has_crisis_signals crisis),
    (CrisisDetectionResult.meets_multi_signal_requirement crisis),
    (RiskLevel.ltb (RiskAssessment.risk_level risk) RiskLevel.HIGH);
    reflexivity.
Qed.

(** X20: an assessment constructed with severity CRITICAL and no emotion
    scores is never treated below HIGH by the safety pipeline, however low
    the risk engine scores it: the crisis detector finds an emotional signal
    (the shutdown) beside behavioral ones, the level is lifted to HIGH, a
    crisis response and a human review are required, and the escalation
    event is recorded. *)
Theorem critical_without_emotions_is_treated_high :
  forall (U : Unicode) (self : SafetyPipeline.t) (fresh : SafetyPipeline.fresh_ids)
         (now : datetime) (fields : ClinicalAssessment.t)
         (proposed_response country_code : list N) (raw_text : option (list N)),
    SeverityClassification.predicted_severity (ClinicalAssessment.severity fields)
    = PanicSeverity.CRITICAL ->
    EmotionProfile.emotions (ClinicalAssessment.emotion_profile fields) = [] ->
    let outcome :=
      SafetyPipeline.evaluate self fresh now (ClinicalAssessment.post_init fields)
        proposed_response country_code raw_text in
    RiskLevel.geb (SafetyEvaluation.final_risk_level (fst outcome)) RiskLevel.HIGH
    = true
    /\ SafetyEvaluation.requires_crisis_response (fst outcome) = true
    /\ SafetyEvaluation.requires_human_review (fst outcome) = true
    /\ (exists decision event,
          SafetyEvaluation.escalation_decision (fst outcome) = Some decision
          /\ EscalationDecision.log_event decision = Some event
          /\ event ∈ EscalationManager._event_log
                       (SafetyPipeline._escalation_manager (snd outcome))).
Proof.
  intros U self fresh now fields proposed_response country_code raw_text
    Hcritical Hemotions outcome.
  set (clinical := ClinicalAssessment.post_init fields) in *.
  pose proof (pipeline_evaluate_fields self fresh now clinical proposed_response
                country_code raw_text)
    as (Hlevel & Hdecision & _ & _ & _ & Hcrisis & Hreview & _ & Hmanager & _).
  cbv zeta in Hlevel, Hdecision, Hcrisis, Hreview, Hmanager.
  fold outcome in Hlevel, Hdecision, Hcrisis, Hreview, Hmanager.
  set (detected := CrisisDetector.detect clinical) in *.
  assert (Hsignals :
    exists more,
      CrisisDetectionResult.signals detected
      = CrisisSignal.mk (py "emotional_shutdown")
          (py "Emotional shutdown at high severity") (py "emotional")
          0.20%float 0.7%float []
        :: CrisisSignal.mk (py "critical_severity") (py "Critical panic severity level")
             (py "behavioral") 0.30%float
             (SeverityClassification.confidence (ClinicalAssessment.severity fields))
             []
        :: more).
  { subst detected. rewrite detect_signals.
    unfold CrisisDetector._analyze_emotions, CrisisDetector._analyze_behavioral.
    subst clinical.
    cbn [ClinicalAssessment.post_init ClinicalAssessment.emotion_profile
         ClinicalAssessment.severity].
    unfold EmotionProfile.get_emotion_score.
    rewrite Hemotions, Hcritical.
    cbn [EmotionProfile.get_emotion_score_in].
    eexists. vm_compute PanicSeverity.geb.
    change (0.7 <? 0)%float with false. change (0.6 <? 0)%float with false.
    cbn [app]. reflexivity. }
  destruct Hsignals as [more Hsignals].
  assert (Hhas : CrisisDetectionResult.has_crisis_signals detected = true).
  { apply detect_has_signals.
    fold detected. rewrite Hsignals. cbn [length]. lia. }
  assert (Hmulti : CrisisDetectionResult.meets_multi_signal_requirement detected = true).
  { subst detected. unfold CrisisDetector.detect, CrisisDetectionResult.make.
    cbn [CrisisDetectionResult.post_init
         CrisisDetectionResult.meets_multi_signal_requirement
         CrisisDetectionResult.signals].
    apply Nat.leb_le. unfold CrisisDetectionResult.categories.
    apply two_distinct_iff. exists (py "emotional"), (py "behavioral").
    change (CrisisDetector._analyze_emotions clinical
            ++ CrisisDetector._analyze_behavioral clinical
            ++ CrisisDetector._analyze_distress clinical
            ++ (if ClinicalAssessment.requires_crisis_protocol clinical then
                  [CrisisSignal.mk (py "crisis_protocol_flag")
                     (py "Clinical pipeline flagged crisis")
                     (py "behavioral") 0.35%float 1%float []]
                else []))
      with (CrisisDetectionResult.signals (CrisisDetector.detect clinical)).
    rewrite Hsignals. cbn [map CrisisSignal.category].
    rewrite !elem_of_cons.
    split; [auto | split; [auto | discriminate]]. }
  assert (Hhigh :
    RiskLevel.geb (SafetyEvaluation.final_risk_level (fst outcome)) RiskLevel.HIGH
    = true).
  { rewrite Hlevel, merge_crisis_signals_level, Hhas, Hmulti.
    cbn [andb].
    destruct (RiskAssessment.risk_level (RiskScoringEngine.assess _ _ _ _ _));
      reflexivity. }
  rewrite Hlevel in Hhigh.
  match type of Hdecision with
  | _ = Some (fst (EscalationManager.evaluate ?manager ?id ?time ?risk ?cc ?previous)) =>
      pose proof (high_level_is_logged manager id time risk cc previous Hhigh)
        as Hevent;
      pose proof (escalation_event_log manager id time risk cc previous) as Hlog
  end.
  split; [rewrite Hlevel; exact Hhigh | split; [| split]].
  - rewrite Hcrisis, Hmulti. apply orb_true_r.
  - apply Hreview. exact Hevent.
  - destruct Hevent as [event Hevent].
    eexists. exists event.
    split; [exact Hdecision | split; [exact Hevent |]].
    rewrite Hmanager, Hlog, Hevent.
    apply elem_of_app. right. apply list_elem_of_here.
Qed.

(** The assessment of the unit tests, severity CRITICAL at confidence
    0.9 and nothing else: the risk engine says ELEVATED, the pipeline
    HIGH. *)
Lemma critical_without_emotions_is_treated_high_witness :
  let fields :=
    ClinicalAssessment.with_defaults 1 0 (Some 2%N)
      (SeverityClassification.make PanicSeverity.CRITICAL 0.9%float) in
  let outcome :=
    @SafetyPipeline.evaluate ascii_only (SafetyPipeline.init None true)
      (SafetyPipeline.ids 3 4 5) 0 (ClinicalAssessment.post_init fields)
      (py "I'm here with you.") (py "US") None in
  RiskAssessment.risk_level
    (RiskScoringEngine.assess (RiskScoringEngine.init None) 4 0
       (ClinicalAssessment.post_init fields) None) = RiskLevel.ELEVATED
  /\ RiskLevel.geb (SafetyEvaluation.final_risk_level (fst outcome)) RiskLevel.HIGH
     = true.
Proof.
  intros fields outcome. split; [vm_compute; reflexivity |].
  apply (critical_without_emotions_is_treated_high ascii_only
           (SafetyPipeline.init None true) (SafetyPipeline.ids 3 4 5) 0 fields
           (py "I'm here with you.") (py "US") None);
    reflexivity.
Defined.

(** X21: the pipeline remembers the last level of each session.  After
    an evaluation of a session, its cache holds the final level under that
    session and every other session's entry is untouched; and the next
    evaluation of the same session reports an escalation exactly when its
    level is strictly above the remembered one. *)
Theorem next_evaluation_escalates_iff_level_rose :
  forall (U : Unicode) (self : SafetyPipeline.t)
         (fresh1 fresh2 : SafetyPipeline.fresh_ids) (now1 now2 : datetime)
         (clinical1 clinical2 : ClinicalAssessment.t)
         (response1 response2 country1 country2 : list N)
         (raw1 raw2 : option (list N)) (session : UUID),
    ClinicalAssessment.session_id clinical1 = Some session ->
    ClinicalAssessment.session_id clinical2 = Some session ->
    let first :=
      SafetyPipeline.evaluate self fresh1 now1 clinical1 response1 country1 raw1 in
    let second :=
      SafetyPipeline.evaluate (snd first) fresh2 now2 clinical2 response2 country2
        raw2 in
    SafetyPipeline._session_risk_cache (snd first) !! session
    = Some (SafetyEvaluation.final_risk_level (fst first))
    /\ (forall other : UUID,
          other <> session ->
          SafetyPipeline._session_risk_cache (snd first) !! other
          = SafetyPipeline._session_risk_cache self !! other)
    /\ EscalationDecision.should_escalate
         <$> SafetyEvaluation.escalation_decision (fst second)
       = Some (RiskLevel.gtb (SafetyEvaluation.final_risk_level (fst second))
                 (SafetyEvaluation.final_risk_level (fst first))).
Proof.
  intros U self fresh1 fresh2 now1 now2 clinical1 clinical2 response1 response2
    country1 country2 raw1 raw2 session Hsession1 Hsession2 first second.
  pose proof (pipeline_evaluate_fields self fresh1 now1 clinical1 response1 country1
                raw1) as (Hlevel1 & _ & _ & _ & _ & _ & _ & Hcache1 & _).
  fold first in Hlevel1, Hcache1. rewrite Hsession1 in Hcache1.
  assert (Hremembered :
    SafetyPipeline._session_risk_cache (snd first) !! session
    = Some (SafetyEvaluation.final_risk_level (fst first))).
  { rewrite Hcache1, Hlevel1. apply lookup_insert_eq. }
  split; [exact Hremembered | split].
  - intros other Hother. rewrite Hcache1. apply lookup_insert_ne. congruence.
  - pose proof (pipeline_evaluate_fields (snd first) fresh2 now2 clinical2 response2
                  country2 raw2) as (Hlevel2 & Hdecision2 & _).
    fold second in Hlevel2, Hdecision2.
    rewrite Hdecision2. cbn [fmap option_fmap option_map].
    rewrite should_escalate_spec, Hsession2, Hremembered, Hlevel2.
    reflexivity.
Qed.

(** Two messages of session 7 on a fresh pipeline, the first without
    panic and the second CRITICAL: the second evaluation escalates. *)
Lemma next_evaluation_escalates_iff_level_rose_witness :
  let assessment severity :=
    ClinicalAssessment.post_init
      (ClinicalAssessment.mk 1 (Some 2%N) (Some 7%N) None 0
         (SeverityClassification.make severity 0.9%float)
         (EmotionProfile.default_at 0) DistressIndicators.default
         TriggerAnalysis.default UrgencyLevel.ROUTINE false false 0%float
         [] [] [] None) in
  let first :=
    @SafetyPipeline.evaluate ascii_only (SafetyPipeline.init None true)
      (SafetyPipeline.ids 3 4 5) 0 (assessment PanicSeverity.NONE)
      (py "I'm here with you.") (py "US") None in
  let second :=
    @SafetyPipeline.evaluate ascii_only (snd first) (SafetyPipeline.ids 6 7 8) 1
      (assessment PanicSeverity.CRITICAL) (py "I'm here with you.") (py "US") None in
  SafetyEvaluation.final_risk_level (fst first) = RiskLevel.LOW
  /\ SafetyEvaluation.final_risk_level (fst second) = RiskLevel.HIGH
  /\ EscalationDecision.should_escalate
       <$> SafetyEvaluation.escalation_decision (fst second)
     = Some (RiskLevel.gtb (SafetyEvaluation.final_risk_level (fst second))
               (SafetyEvaluation.final_risk_level (fst first))).
Proof.
  intros assessment first second.
  split; [vm_compute; reflexivity | split; [vm_compute; reflexivity |]].
  apply (next_evaluation_escalates_iff_level_rose ascii_only
           (SafetyPipeline.init None true) (SafetyPipeline.ids 3 4 5)
           (SafetyPipeline.ids 6 7 8) 0 1 (assessment PanicSeverity.NONE)
           (assessment PanicSeverity.CRITICAL) (py "I'm here with you.")
           (py "I'm here with you.") (py "US") (py "US") None None 7%N);
    reflexivity.
Defined.

(** X22: the first evaluation of a session, and every evaluation
    without a session identifier, reports no escalation, whatever the level
    is: there is no previous level to rise from.  At HIGH or CRITICAL the
    event is recorded all the same and the response is modified only if the
    validator modified it. *)
Theorem first_evaluation_never_escalates :
  forall (U : Unicode) (self : SafetyPipeline.t) (fresh : SafetyPipeline.fresh_ids)
         (now : datetime) (clinical : ClinicalAssessment.t)
         (proposed_response country_code : list N) (raw_text : option (list N)),
    match ClinicalAssessment.session_id clinical with
    | Some session => SafetyPipeline._session_risk_cache self !! session = None
    | None => True
    end ->
    let outcome :=
      SafetyPipeline.evaluate self fresh now clinical proposed_response country_code
        raw_text in
    EscalationDecision.should_escalate
      <$> SafetyEvaluation.escalation_decision (fst outcome) = Some false
    /\ SafetyEvaluation.response_was_modified (fst outcome)
       = SafetyResult.was_modified
           (SafetyValidator.validate (SafetyPipeline._response_validator self)
              proposed_response
              (RiskLevel.geb (SafetyEvaluation.final_risk_level (fst outcome))
                 RiskLevel.HIGH)).
Proof.
  intros U self fresh now clinical proposed_response country_code raw_text Hnew
    outcome.
  pose proof (pipeline_evaluate_fields self fresh now clinical proposed_response
                country_code raw_text)
    as (Hlevel & Hdecision & _ & _ & _ & _ & _ & _ & _ & Hmodified).
  fold outcome in Hlevel, Hdecision, Hmodified.
  assert (Hprevious :
    match ClinicalAssessment.session_id clinical with
    | Some session => SafetyPipeline._session_risk_cache self !! session
    | None => None
    end = None).
  { destruct (ClinicalAssessment.session_id clinical); [exact Hnew | reflexivity]. }
  split.
  - rewrite Hdecision. cbn [fmap option_fmap option_map].
    rewrite should_escalate_spec, Hprevious. reflexivity.
  - rewrite Hmodified, should_escalate_spec, Hprevious, orb_false_r, Hlevel.
    reflexivity.
Qed.

(** A CRITICAL first message on a fresh pipeline: HIGH, recorded, and
    not reported as an escalation. *)
Lemma first_evaluation_never_escalates_witness :
  let clinical :=
    ClinicalAssessment.post_init
      (ClinicalAssessment.mk 1 (Some 2%N) (Some 7%N) None 0
         (SeverityClassification.make PanicSeverity.CRITICAL 0.9%float)
         (EmotionProfile.default_at 0) DistressIndicators.default
         TriggerAnalysis.default UrgencyLevel.ROUTINE false false 0%float
         [] [] [] None) in
  let outcome :=
    @SafetyPipeline.evaluate ascii_only (SafetyPipeline.init None true)
      (SafetyPipeline.ids 3 4 5) 0 clinical (py "I'm here with you.") (py "US") None in
  SafetyEvaluation.final_risk_level (fst outcome) = RiskLevel.HIGH
  /\ EscalationDecision.should_escalate
       <$> SafetyEvaluation.escalation_decision (fst outcome) = Some false.
Proof.
  intros clinical outcome. split; [vm_compute; reflexivity |].
  apply (first_evaluation_never_escalates ascii_only (SafetyPipeline.init None true)
           (SafetyPipeline.ids 3 4 5) 0 clinical (py "I'm here with you.") (py "US")
           None).
  reflexivity.
Defined.

(** ** Safety validator *)

Lemma nonblank_cons_iff (c : N) (s : list N) :
  nonblank (c :: s) <-> Char.isspace c = false \/ nonblank s.
Proof.
  unfold nonblank. split.
  - intros (x & Hx & Hspace). apply elem_of_cons in Hx as [-> | Hx]; eauto.
  - intros [Hc | (x & Hx & Hspace)].
    + exists c. split; [apply list_elem_of_here | exact Hc].
    + exists x. split; [apply list_elem_of_further; exact Hx | exact Hspace].
Qed.

Lemma nonblank_app (s t : list N) : nonblank (s ++ t) <-> nonblank s \/ nonblank t.
Proof.
  unfold nonblank. split.
  - intros (x & Hx & Hspace). apply elem_of_app in Hx as [Hx | Hx]; eauto.
  - intros [(x & Hx & Hspace) | (x & Hx & Hspace)];
      exists x; (split; [apply elem_of_app; auto | exact Hspace]).
Qed.

Lemma nonblank_rev (s : list N) : nonblank (rev s) <-> nonblank s.
Proof.
  unfold nonblank. split; intros (x & Hx & Hspace); exists x;
    (split; [| exact Hspace]); apply list_elem_of_In; apply list_elem_of_In in Hx;
    [apply in_rev | apply in_rev in Hx]; exact Hx.
Qed.

Lemma nonblank_lstrip (s : list N) : nonblank (lstrip s) <-> nonblank s.
Proof.
  induction s as [| c rest IH]; [reflexivity |].
  cbn [lstrip]. destruct (Char.isspace c) eqn:Hc; [| reflexivity].
  rewrite IH, nonblank_cons_iff.
  split; [auto | intros [Hfalse | Hrest]; [congruence | exact Hrest]].
Qed.

Lemma lstrip_nonblank (s : list N) : lstrip s <> [] <-> nonblank s.
Proof.
  induction s as [| c rest IH]; cbn [lstrip].
  - split; [congruence | intros (x & Hx & _); inversion Hx].
  - rewrite nonblank_cons_iff. destruct (Char.isspace c) eqn:Hc.
    + rewrite IH. split; [auto | intros [Hfalse | Hrest]; [congruence | exact Hrest]].
    + split; [auto | discriminate].
Qed.

(** [strip] keeps what is not white space; it empties the blank texts
    only. *)
Lemma nonblank_strip (s : list N) : nonblank (strip s) <-> nonblank s.
Proof.
  unfold strip, rstrip. rewrite nonblank_rev, nonblank_lstrip, nonblank_rev.
  apply nonblank_lstrip.
Qed.

Lemma strip_nonblank (s : list N) : strip s <> [] <-> nonblank s.
Proof.
  unfold strip, rstrip.
  rewrite <- nonblank_lstrip, <- (nonblank_rev (lstrip s)), <- lstrip_nonblank.
  split; intros Hne Hnil; apply Hne.
  - rewrite Hnil. reflexivity.
  - apply (f_equal (@rev N)) in Hnil. rewrite rev_involutive in Hnil. exact Hnil.
Qed.

Lemma nonblank_not_nil (s : list N) : nonblank s -> s <> [].
Proof. intros (x & Hx & _) ->. inversion Hx. Qed.

Section ValidatorResults.
Context `{Unicode}.
Import SafetyValidator.

(** The soft filters and the crisis elements add warnings only. *)
Lemma apply_filter_warnings (state : list SafetyViolation.t * list N)
    (rule : list N * Re.pattern * list N) :
  Forall (fun v => is_block v = false) (fst state) ->
  Forall (fun v => is_block v = false) (fst (apply_filter state rule)).
Proof.
  destruct state as [violations filtered], rule as [[rule_id pattern] description].
  cbn [apply_filter fst]. intros Hall.
  destruct (Re.group0 pattern filtered); [| exact Hall].
  cbn [fst]. apply Forall_app. split; [exact Hall |].
  repeat constructor.
Qed.

Lemma filter_and_clean_warnings (violations : list SafetyViolation.t)
    (response : list N) (is_crisis_response : bool) :
  Forall (fun v => is_block v = false) violations ->
  Forall (fun v => is_block v = false)
    (fst (filter_and_clean violations response is_crisis_response)).
Proof.
  intros Hall. unfold filter_and_clean.
  assert (Hfiltered :
    Forall (fun v => is_block v = false)
      (fst (fold_left apply_filter FILTER_PATTERNS (violations, response)))).
  { unfold FILTER_PATTERNS. cbn [fold_left].
    repeat apply apply_filter_warnings. exact Hall. }
  destruct (fold_left apply_filter FILTER_PATTERNS (violations, response))
    as [violations' filtered].
  cbn [fst] in Hfiltered.
  destruct is_crisis_response; [| exact Hfiltered].
  destruct (_check_crisis_requirements filtered); [exact Hfiltered |].
  cbn [fst]. apply Forall_app. split; [exact Hfiltered |].
  repeat constructor.
Qed.

Lemma no_block_filter (violations : list SafetyViolation.t) :
  Forall (fun v => is_block v = false) violations <->
  existsb is_block violations = false.
Proof.
  induction violations as [| v rest IH]; cbn [existsb].
  - split; [reflexivity | constructor].
  - rewrite Forall_cons, IH, orb_false_iff. reflexivity.
Qed.

Lemma no_block_is_safe (violations : list SafetyViolation.t) :
  Forall (fun v => is_block v = false) violations ->
  (length (List.filter is_block violations) =? 0)%nat = true.
Proof.
  induction 1 as [| v rest Hv _ IH]; [reflexivity |].
  cbn [List.filter]. rewrite Hv. exact IH.
Qed.

(** A block among the hard violations is the match of a hard pattern. *)
Lemma block_is_hard_match (response : list N) :
  existsb is_block (hard_violations response) = true ->
  exists rule, rule ∈ HARD_CONSTRAINT_PATTERNS
               /\ Re.found (snd (fst rule)) response = true.
Proof.
  intros Hblock. apply existsb_exists in Hblock as (v & Hv & _).
  apply list_elem_of_In in Hv. unfold hard_violations in Hv.
  apply list_elem_of_omap in Hv as ([[rule_id pattern] description] & Hrule & Hv).
  exists (rule_id, pattern, description). split; [exact Hrule |].
  cbn [fst snd]. unfold Re.found. unfold Re.group0 in Hv.
  destruct (Re.search pattern response) as [[[before matched] after] |];
    [reflexivity | discriminate].
Qed.

(** The text [validate] returns holds a character that is not white
    space. *)
Lemma validate_nonblank (self : SafetyValidator.t) (response : list N)
    (is_crisis_response : bool) :
  nonblank (SafetyResult.filtered_response (validate self response is_crisis_response)).
Proof.
  assert (Hfallback : nonblank FALLBACK_RESPONSE).
  { exists 73%N. split; [apply list_elem_of_here | reflexivity]. }
  destruct (validate_outcome self response is_crisis_response)
    as [Hempty | Hnonempty Hstrip Hblock | Hnonempty Hstrip Hblock].
  - exact Hfallback.
  - exact Hfallback.
  - destruct (filter_and_clean (hard_violations response) response is_crisis_response)
      as [violations filtered] eqn:Hclean.
    rewrite post_init_filtered.
    cbn [SafetyResult.filtered_response SafetyResult.original_response].
    destruct filtered as [| c rest] eqn:Hfiltered.
    + apply strip_nonblank. exact Hstrip.
    + rewrite <- Hfiltered.
      assert (Hstripped : filtered = snd (filter_and_clean (hard_violations response)
                                            response is_crisis_response))
        by (rewrite Hclean, Hfiltered; reflexivity).
      unfold filter_and_clean in Hstripped.
      destruct (fold_left apply_filter FILTER_PATTERNS
                  (hard_violations response, response)) as [found text].
      assert (Hshape : exists text', filtered = _clean_response text').
      { destruct is_crisis_response;
          [destruct (_check_crisis_requirements text) |];
          cbn [snd] in Hstripped; eexists; exact Hstripped. }
      destruct Hshape as [text' Hshape].
      unfold _clean_response in Hshape. cbv zeta in Hshape.
      rewrite <- Hfiltered in *. rewrite Hshape.
      apply nonblank_strip, strip_nonblank. rewrite <- Hshape.
      rewrite Hfiltered. discriminate.
Qed.
End ValidatorResults.

(** X23: the safety pipeline never delivers an empty or blank response:
    for every proposed response the validator's [filtered_response], and the
    [final_response] built from it, hold a character that is not white
    space. *)
Theorem pipeline_response_is_never_blank :
  forall (U : Unicode) (self : SafetyPipeline.t) (fresh : SafetyPipeline.fresh_ids)
         (now : datetime) (clinical : ClinicalAssessment.t)
         (proposed_response country_code : list N) (raw_text : option (list N))
         (is_crisis_response : bool),
    let evaluation :=
      fst (SafetyPipeline.evaluate self fresh now clinical proposed_response
             country_code raw_text) in
    let validated :=
      SafetyPipeline.validate_response_only self proposed_response
        is_crisis_response in
    SafetyEvaluation.final_response evaluation <> []
    /\ (exists c, c ∈ SafetyEvaluation.final_response evaluation
                  /\ Char.isspace c = false)
    /\ (exists c, c ∈ SafetyResult.filtered_response validated
                  /\ Char.isspace c = false).
Proof.
  intros U self fresh now clinical proposed_response country_code raw_text
    is_crisis_response evaluation validated.
  pose proof (pipeline_evaluate_fields self fresh now clinical proposed_response
                country_code raw_text) as (_ & _ & _ & Hfinal & _).
  fold evaluation in Hfinal.
  assert (Hnonblank : nonblank (SafetyEvaluation.final_response evaluation)).
  { rewrite Hfinal. unfold EscalationManager.modify_response. cbv zeta.
    apply nonblank_strip, nonblank_app. right.
    apply nonblank_app. left. apply validate_nonblank. }
  split; [apply nonblank_not_nil; exact Hnonblank | split; [exact Hnonblank |]].
  apply validate_nonblank.
Qed.

(** X24: [validate] blocks exactly the responses that are empty or blank
    and those in which a hard-constraint pattern is found.  A blocked result
    carries the fallback text with [was_modified] off and is unsafe; every
    other result is safe and carries no violation of severity "block": the
    soft filters and the crisis elements only warn. *)
Theorem validate_blocks_iff_blank_or_hard_match :
  forall (U : Unicode) (self : SafetyValidator.t) (response : list N)
         (is_crisis_response : bool),
    let result := SafetyValidator.validate self response is_crisis_response in
    (SafetyResult.blocked result = true
     <-> strip response = []
         \/ exists rule, rule ∈ SafetyValidator.HARD_CONSTRAINT_PATTERNS
                         /\ Re.found (snd (fst rule)) response = true)
    /\ SafetyResult.is_safe result = negb (SafetyResult.blocked result)
    /\ (SafetyResult.blocked result = true ->
        SafetyResult.filtered_response result = SafetyValidator.FALLBACK_RESPONSE
        /\ SafetyResult.was_modified result = false)
    /\ (SafetyResult.blocked result = false ->
        Forall (fun v => SafetyViolation.severity v <> SafetyValidator.block)
          (SafetyResult.violations result)).
Proof.
  intros U self response is_crisis_response result.
  assert (Hpost : forall r,
            SafetyResult.filtered_response r <> [] -> SafetyResult.post_init r = r).
  { intros r Hr. unfold SafetyResult.post_init.
    destruct (SafetyResult.filtered_response r); [contradiction | reflexivity]. }
  assert (Hfields : forall r,
            SafetyResult.blocked (SafetyResult.post_init r) = SafetyResult.blocked r
            /\ SafetyResult.is_safe (SafetyResult.post_init r) = SafetyResult.is_safe r
            /\ SafetyResult.violations (SafetyResult.post_init r)
               = SafetyResult.violations r).
  { intros r. unfold SafetyResult.post_init.
    destruct (SafetyResult.filtered_response r); repeat split. }
  subst result.
  destruct (validate_outcome self response is_crisis_response)
    as [Hempty | Hnonempty Hstrip Hblock | Hnonempty Hstrip Hblock].
  - rewrite Hpost by apply fallback_not_empty.
    cbn [SafetyResult.blocked SafetyResult.is_safe SafetyResult.filtered_response
         SafetyResult.was_modified negb].
    repeat split; try discriminate.
    intros _. left. destruct Hempty as [-> | Hblank]; [reflexivity | exact Hblank].
  - rewrite Hpost by apply fallback_not_empty.
    cbn [SafetyResult.blocked SafetyResult.is_safe SafetyResult.filtered_response
         SafetyResult.was_modified negb].
    repeat split; try discriminate.
    intros _. right. apply block_is_hard_match. exact Hblock.
  - pose proof (filter_and_clean_warnings
                  (SafetyValidator.hard_violations response) response
                  is_crisis_response) as Hwarn.
    destruct (SafetyValidator.filter_and_clean
                (SafetyValidator.hard_violations response) response
                is_crisis_response) as [violations filtered].
    match goal with
    | |- context [SafetyResult.post_init ?r] =>
        destruct (Hfields r) as (-> & -> & ->)
    end.
    cbn [SafetyResult.blocked SafetyResult.is_safe SafetyResult.violations negb fst]
      in *.
    apply no_block_filter in Hblock. specialize (Hwarn Hblock).
    split; [| split; [| split]].
    + split; [discriminate |].
      intros [Hblank | Hmatch]; [contradiction |].
      apply hard_match_blocks in Hmatch.
      apply no_block_filter in Hblock. congruence.
    + apply no_block_is_safe. exact Hwarn.
    + discriminate.
    + intros _. eapply Forall_impl; [exact Hwarn |].
      intros v Hv Hsev. unfold SafetyValidator.is_block, str_eqb in Hv.
      apply bool_decide_eq_false_1 in Hv. contradiction.
Qed.

(** A text no pattern is found in is left as it is by the substitution. *)
Lemma sub_from_no_match `{Unicode} (icase : bool) (r : Re.regex) (repl : list N)
    (s : list N) :
  forall prev : option N,
    Re.search_from icase r prev s = None ->
    Re.sub_from icase r repl O prev s = s.
Proof.
  induction s as [| c rest IH]; intros prev Hnone; [reflexivity |].
  cbn [Re.search_from] in Hnone. cbn [Re.sub_from].
  destruct (Re.match_here icase r prev (c :: rest)); [discriminate |].
  f_equal. apply IH.
  destruct (Re.search_from icase r (Some c) rest) as [[[before matched] after] |];
    [discriminate | reflexivity].
Qed.

Lemma sub_not_found `{Unicode} (pattern : Re.pattern) (repl s : list N) :
  Re.found pattern s = false -> Re.sub pattern repl s = s.
Proof.
  unfold Re.found, Re.sub, Re.search. intros Hnone.
  apply sub_from_no_match.
  destruct (Re.search_from _ _ None s); [discriminate | reflexivity].
Qed.

(** X25: [validate] never touches a clean response.  A response that is
    not empty, has no white space around it, no run of three line feeds and
    no run of two spaces, in which neither a hard-constraint pattern nor a
    soft-filter pattern is found and which, when a crisis response is
    required, names the required crisis elements, comes back as it went in:
    safe, unmodified, with no violation. *)
Theorem clean_response_passes_unchanged :
  forall (U : Unicode) (self : SafetyValidator.t) (response : list N)
         (is_crisis_response : bool),
    response <> [] ->
    strip response = response ->
    Re.found (Re.compile (Re.Rep 3 (Re.Lit 10)) false) response = false ->
    Re.found (Re.compile (Re.Rep 2 (Re.Lit 32)) false) response = false ->
    Forall (fun rule => Re.found (snd (fst rule)) response = false)
      SafetyValidator.HARD_CONSTRAINT_PATTERNS ->
    Forall (fun rule => Re.found (snd (fst rule)) response = false)
      SafetyValidator.FILTER_PATTERNS ->
    (is_crisis_response = true ->
     SafetyValidator._check_crisis_requirements response = []) ->
    SafetyValidator.validate self response is_crisis_response
    = SafetyResult.mk true response response [] false false.
Proof.
  intros U self response is_crisis_response Hnonempty Hstripped Hlines Hspaces
    Hhard Hsoft Hcrisis.
  assert (Hviolations : SafetyValidator.hard_violations response = []).
  { apply no_hard_match_no_violation. apply Forall_forall. exact Hhard. }
  assert (Hfilters :
    fold_left SafetyValidator.apply_filter SafetyValidator.FILTER_PATTERNS
      ([], response) = ([], response)).
  { revert Hsoft. generalize SafetyValidator.FILTER_PATTERNS.
    intros rules Hrules.
    induction Hrules as [| [[rule_id pattern] description] rules Hrule _ IH];
      [reflexivity |].
    cbn [fold_left SafetyValidator.apply_filter]. cbn [fst snd] in Hrule.
    unfold Re.found in Hrule. unfold Re.group0.
    destruct (Re.search pattern response) as [[[before matched] after] |];
      [discriminate | exact IH]. }
  assert (Hclean : SafetyValidator._clean_response response = response).
  { unfold SafetyValidator._clean_response. cbv zeta.
    rewrite (sub_not_found _ _ _ Hlines), (sub_not_found _ _ _ Hspaces).
    exact Hstripped. }
  unfold SafetyValidator.validate.
  destruct response as [| c rest]; [contradiction |].
  rewrite Hstripped, Hviolations. cbn [existsb].
  unfold SafetyValidator.filter_and_clean. rewrite Hfilters.
  assert (Hrequired :
    (if is_crisis_response
     then match SafetyValidator._check_crisis_requirements (c :: rest) with
          | [] => ([], c :: rest)
          | missing_required =>
              ([] ++
               [SafetyViolation.mk (py "MISSING_CRISIS_ELEMENTS")
                  (py "Added missing crisis elements: " ++ repr_list missing_required)
                  [] SafetyValidator.warning],
               SafetyValidator._append_crisis_resources (c :: rest))
          end
     else ([], c :: rest))
    = (@nil SafetyViolation.t, c :: rest)).
  { destruct is_crisis_response; [rewrite (Hcrisis eq_refl) |]; reflexivity. }
  rewrite Hrequired, Hclean.
  unfold str_eqb. rewrite bool_decide_eq_true_2 by reflexivity.
  reflexivity.
Qed.

(** The session's answer to a moderate panic, not required to be a
    crisis response. *)
Lemma clean_response_passes_unchanged_witness :
  let response :=
    py "I understand. Let's work through this together. Try to take a slow breath with me." in
  @SafetyValidator.validate ascii_only (SafetyValidator.mk true) response false
  = SafetyResult.mk true response response [] false false.
Proof.
  intros response.
  apply (clean_response_passes_unchanged ascii_only (SafetyValidator.mk true)
           response false).
  - discriminate.
  - vm_compute. reflexivity.
  - vm_compute. reflexivity.
  - vm_compute. reflexivity.
  - repeat (apply List.Forall_cons; [vm_compute; reflexivity |]).
    apply List.Forall_nil.
  - repeat (apply List.Forall_cons; [vm_compute; reflexivity |]).
    apply List.Forall_nil.
  - discriminate.
Defined.

(** ** Gemini supervisor and panic session *)






Section SessionCalls.
Variables (self : PanicSession.t) (supervisor : GeminiSupervisor.t).

Let key := uuid_str (PanicSession.session_id self).
Let context := PanicSession._build_stability_context self.



End SessionCalls.





(** ** Emergency resources and the audit log *)

(** A key with a colon is none of the keys without one. *)
Lemma key_with_colon (country_code region key : list N) :
  forallb (fun c => negb (c =? 58)%N) key = true ->
  key <> country_code ++ py ":" ++ region.
Proof.
  intros Hkey ->. rewrite forallb_forall in Hkey.
  specialize (Hkey 58%N). rewrite N.eqb_refl in Hkey.
  assert (Hin : In 58%N (country_code ++ py ":" ++ region)).
  { apply in_or_app. right. left. reflexivity. }
  specialize (Hkey Hin). discriminate Hkey.
Qed.

(** X29: how the resolver falls back.  On the built-in resources the
    region never matters and an unknown country gets the international
    default: the resources are those listed under the country code, if any,
    and the default otherwise.  A jurisdiction the configuration lists last
    under a country code replaces whatever was there, built-in or not. *)
Theorem resources_fall_back_to_country_then_default :
  (forall (country_code : list N) (region_code : option (list N)),
     EmergencyResourceResolver.get_resources (EmergencyResourceResolver.init [])
       country_code region_code
     = default EmergencyResourceResolver.DEFAULT_RESOURCES
         (EmergencyResourceResolver.BUILT_IN_RESOURCES !! country_code))
  /\ (forall (config : list (list N * JurisdictionResources.t))
             (country_code : list N) (resources : JurisdictionResources.t),
        EmergencyResourceResolver.get_resources
          (EmergencyResourceResolver.init (config ++ [(country_code, resources)]))
          country_code None
        = resources).
Proof.
  split.
  - intros country_code region_code.
    unfold EmergencyResourceResolver.get_resources, EmergencyResourceResolver.init.
    cbn [fold_left EmergencyResourceResolver._resources].
    assert (Hcountry :
      match EmergencyResourceResolver.BUILT_IN_RESOURCES !! country_code with
      | Some found => found
      | None =>
          match EmergencyResourceResolver.BUILT_IN_RESOURCES !! country_code with
          | Some found => found
          | None => EmergencyResourceResolver.DEFAULT_RESOURCES
          end
      end
      = default EmergencyResourceResolver.DEFAULT_RESOURCES
          (EmergencyResourceResolver.BUILT_IN_RESOURCES !! country_code))
      by (destruct (EmergencyResourceResolver.BUILT_IN_RESOURCES !! country_code);
          reflexivity).
    destruct region_code as [[| c region] |]; try exact Hcountry.
    assert (Hregion :
      EmergencyResourceResolver.BUILT_IN_RESOURCES
        !! (country_code ++ py ":" ++ c :: region) = None).
    { unfold EmergencyResourceResolver.BUILT_IN_RESOURCES.
      rewrite !lookup_insert_ne by (apply key_with_colon; reflexivity).
      apply lookup_empty. }
    rewrite Hregion.
    destruct (EmergencyResourceResolver.BUILT_IN_RESOURCES !! country_code);
      reflexivity.
  - intros config country_code resources.
    unfold EmergencyResourceResolver.get_resources, EmergencyResourceResolver.init.
    cbn [EmergencyResourceResolver._resources].
    rewrite fold_left_app. cbn [fold_left fst snd].
    rewrite lookup_insert_eq. reflexivity.
Qed.

(** The session of the assessment the pipeline escalates on. *)
Lemma merged_risk_session (engine : RiskScoringEngine.t) (fresh : UUID)
    (now : datetime) (clinical : ClinicalAssessment.t)
    (crisis : CrisisDetectionResult.t) :
  RiskAssessment.session_id
    (merge_crisis_signals (RiskScoringEngine.assess engine fresh now clinical None)
       crisis)
  = ClinicalAssessment.session_id clinical.
Proof.
  assert (Hengine :
    RiskAssessment.session_id (RiskScoringEngine.assess engine fresh now clinical None)
    = ClinicalAssessment.session_id clinical).
  { unfold RiskScoringEngine.assess.
    destruct (RiskScoringEngine._calculate_risk_score _ clinical). reflexivity. }
  unfold merge_crisis_signals.
  destruct (CrisisDetectionResult.has_crisis_signals crisis); [| exact Hengine].
  destruct (_ && _); exact Hengine.
Qed.

(** X30: what the pipeline treats at HIGH or above can be found in the
    audit log.  After an evaluation of a session that ends at HIGH or
    CRITICAL, [get_escalation_events] for that session returns an event of
    that session with the final level as its new level, pending human
    review; and it never returns an event of another session. *)
Theorem high_risk_evaluation_is_in_the_audit_log :
  forall (U : Unicode) (self : SafetyPipeline.t) (fresh : SafetyPipeline.fresh_ids)
         (now : datetime) (clinical : ClinicalAssessment.t)
         (proposed_response country_code : list N) (raw_text : option (list N))
         (session : UUID),
    let outcome :=
      SafetyPipeline.evaluate self fresh now clinical proposed_response country_code
        raw_text in
    ClinicalAssessment.session_id clinical = Some session ->
    RiskLevel.geb (SafetyEvaluation.final_risk_level (fst outcome)) RiskLevel.HIGH
    = true ->
    (exists event,
       event ∈ SafetyPipeline.get_escalation_events (snd outcome) session
       /\ EscalationEvent.event_id event = SafetyPipeline.for_event fresh
       /\ EscalationEvent.new_risk_level event
          = SafetyEvaluation.final_risk_level (fst outcome)
       /\ EscalationEvent.human_review_status event = py "pending")
    /\ (forall event,
          event ∈ SafetyPipeline.get_escalation_events (snd outcome) session ->
          EscalationEvent.session_id event = Some session).
Proof.
  intros U self fresh now clinical proposed_response country_code raw_text session
    outcome Hsession Hhigh.
  pose proof (pipeline_evaluate_fields self fresh now clinical proposed_response
                country_code raw_text)
    as (Hlevel & _ & _ & _ & _ & _ & _ & _ & Hmanager & _).
  fold outcome in Hlevel, Hmanager.
  unfold SafetyPipeline.get_escalation_events, EscalationManager.get_events.
  split.
  - rewrite Hmanager, Hlevel. rewrite Hlevel in Hhigh.
    set (risk := merge_crisis_signals _ _) in *.
    assert (Hrisk : RiskAssessment.session_id risk = Some session)
      by (subst risk; rewrite merged_risk_session; exact Hsession).
    unfold EscalationManager.evaluate. rewrite Hhigh, orb_true_r.
    cbn [snd EscalationManager._event_log].
    eexists. split; [| split; [| split]].
    + apply list_elem_of_In, filter_In. split.
      * apply in_or_app. right. left. reflexivity.
      * cbn [EscalationManager._create_event EscalationEvent.session_id].
        apply bool_decide_eq_true_2. exact Hrisk.
    + reflexivity.
    + reflexivity.
    + reflexivity.
  - intros event Hevent.
    apply list_elem_of_In, filter_In in Hevent as [_ Hevent].
    apply bool_decide_eq_true_1 in Hevent. exact Hevent.
Qed.

(** A CRITICAL first message of session 7 on a fresh pipeline. *)
Lemma high_risk_evaluation_is_in_the_audit_log_witness :
  let clinical :=
    ClinicalAssessment.post_init
      (ClinicalAssessment.mk 1 (Some 2%N) (Some 7%N) None 0
         (SeverityClassification.make PanicSeverity.CRITICAL 0.9%float)
         (EmotionProfile.default_at 0) DistressIndicators.default
         TriggerAnalysis.default UrgencyLevel.ROUTINE false false 0%float
         [] [] [] None) in
  let outcome :=
    @SafetyPipeline.evaluate ascii_only (SafetyPipeline.init None true)
      (SafetyPipeline.ids 3 4 5) 0 clinical (py "I'm here with you.") (py "US") None in
  exists event,
    event ∈ SafetyPipeline.get_escalation_events (snd outcome) 7%N
    /\ EscalationEvent.event_id event = 5%N
    /\ EscalationEvent.new_risk_level event
       = SafetyEvaluation.final_risk_level (fst outcome)
    /\ EscalationEvent.human_review_status event = py "pending".
Proof.
  intros clinical outcome.
  apply (high_risk_evaluation_is_in_the_audit_log ascii_only
           (SafetyPipeline.init None true) (SafetyPipeline.ids 3 4 5) 0 clinical
           (py "I'm here with you.") (py "US") None 7%N);
    reflexivity.
Defined.
